(** * Batch generation pipeline of the ETL data generator

    A shallow embedding of [complete_generator.py], [quick_gen.py] and
    [config.py]: the batch chunker, the record synthesizers of the four
    entity types, the table writer and the two main blocks of
    [complete_generator.py], followed by the properties of the
    specification that concern them. *)

From Stdlib Require Import ZArith List String Ascii Bool Lia.
From Stdlib Require Import Finite DecimalString DecimalN DecimalPos DecimalFacts.
Import ListNotations.

Open Scope string_scope.
Open Scope list_scope.
Open Scope Z_scope.

(** ** Formatting: [f"{n:0Wd}"] *)

Definition decimal (n : N) : string := NilZero.string_of_uint (N.to_uint n).

Fixpoint zeros (k : nat) : string :=
  match k with
  | O => EmptyString
  | S k' => String "0" (zeros k')
  end.

(** Python's format specification [0Wd]: decimal digits, zero-padded to a
    minimum width of [W] characters, the sign (of a negative number) first
    and counted in the width. A number with more digits is not truncated. *)
Definition fmt_0d (width : nat) (n : Z) : string :=
  let d := decimal (Z.abs_N n) in
  if n <? 0
  then String "-" (zeros (width - 1 - String.length d) ++ d)
  else zeros (width - String.length d) ++ d.

(** Reading such a field back (used to state that formatting loses nothing). *)
Definition parse_decimal (s : string) : option N :=
  option_map N.of_uint (NilZero.uint_of_string s).

(** ** The batch chunker *)

(** [range(n)] *)
Definition py_range (n : Z) : list Z := map Z.of_nat (seq 0 (Z.to_nat n)).

(** [range(start, start + len)], the identifiers of one batch *)
Definition id_range (start len : Z) : list Z := map (fun i => start + i) (py_range len).

(** [num_batches = (N + B - 1) // B], for a non-zero [B] *)
Definition num_batches (N B : Z) : Z := (N + B - 1) / B.

(** [start_id = batch_num * B; current_batch_size = min(B, N - start_id)] *)
Definition batch_bounds (N B batch_num : Z) : Z * Z :=
  let start_id := batch_num * B in
  (start_id, Z.min B (N - start_id)).

(** The ranges [(start_id, current_batch_size)] the batch loop goes through. *)
Definition batch_ranges (N B : Z) : list (Z * Z) :=
  map (batch_bounds N B) (py_range (num_batches N B)).

(** The identifiers of all the batches, in the order the loop makes them. *)
Definition batch_ids (N B : Z) : list Z :=
  flat_map (fun r => id_range (fst r) (snd r)) (batch_ranges N B).

(** ** Data model *)

Inductive value : Type :=
| VStr (s : string)
| VInt (n : Z)
| VDec (places : nat) (units : Z)   (* round(x, places), as units of 10^-places *)
| VDate (day : Z)                   (* a calendar date, as a day ordinal *)
| VDateTime (usec : Z).             (* an instant, in microseconds *)

(** A record is a Python dict literal: its keys in order, with their values. *)
Definition record : Type := list (string * value).

Fixpoint field (key : string) (r : record) : option value :=
  match r with
  | [] => None
  | (k, v) :: r' => if (k =? key)%string then Some v else field key r'
  end.

(** config.py *)
Record Config : Type := mkConfig {
  NUM_CUSTOMERS : Z;
  NUM_PRODUCTS : Z;
  NUM_SALES_REPS : Z;
  NUM_TRANSACTIONS : Z;
  START_DATE : Z;            (* the date the string denotes, as a day ordinal *)
  END_DATE : Z;
  CUSTOMER_BATCH_SIZE : Z;
  PRODUCT_BATCH_SIZE : Z;
  TRANSACTION_BATCH_SIZE : Z;
  OUTPUT_FORMAT : string;
  COMPRESSION : string;
  REGIONS : list string;
  COUNTRIES : list string;
  PRODUCT_CATEGORIES : list string;
  CUSTOMER_SEGMENTS : list string
}.

Definition config : Config := {|
  NUM_CUSTOMERS := 2000000;
  NUM_PRODUCTS := 200000;
  NUM_SALES_REPS := 20000;
  NUM_TRANSACTIONS := 85000000;
  START_DATE := 738521;      (* 2023-01-01 *)
  END_DATE := 739251;        (* 2024-12-31 *)
  CUSTOMER_BATCH_SIZE := 200000;
  PRODUCT_BATCH_SIZE := 50000;
  TRANSACTION_BATCH_SIZE := 1000000;
  OUTPUT_FORMAT := "parquet";
  COMPRESSION := "snappy";
  REGIONS := ["North"; "South"; "East"; "West"; "Central"];
  COUNTRIES := ["USA"; "Canada"; "UK"; "Germany"; "France"; "Australia"];
  PRODUCT_CATEGORIES := ["Electronics"; "Clothing"; "Home & Garden"; "Sports"; "Books"];
  CUSTOMER_SEGMENTS := ["Bronze"; "Silver"; "Gold"; "Platinum"]
|}.

(** ** The world the program runs in *)

(** What the program does not decide. The two seeded generators
    ([random.seed(42)], [Faker.seed(42)]) are the streams of their raw draws:
    the same seed is the same stream. The clock is the stream of its
    readings. The two predicates say where the file system refuses. *)
Record Env : Type := mkEnv {
  rand_tape : nat -> Z;               (* the [random] module *)
  fake_tape : nat -> Z;               (* the generator inside [fake] *)
  faker_text : string -> Z -> string; (* the provider's data: name, email, ... *)
  clock : nat -> Z;                   (* microseconds since the epoch *)
  uncreatable : string -> bool;       (* os.makedirs raises on this path *)
  unwritable : string -> bool         (* to_parquet / to_csv raises on this path *)
}.

(** How far each stream has been read. *)
Record Cursors : Type := mkCursors {
  rand_pos : nat;
  fake_pos : nat;
  ticks : nat
}.

Record State : Type := mkState {
  cursors : Cursors;
  dirs : list string;                       (* directories created *)
  files : list (string * list record);      (* files written, the latest first *)
  stdout : list string;
  stderr : list string
}.

Inductive exn : Type :=
| ZeroDivisionError
| ValueError            (* random.randint on an empty range *)
| IndexError            (* random.choice on an empty sequence *)
| OSError (path : string).

Inductive result (A : Type) : Type :=
| Ok (a : A)
| Raise (e : exn).
Arguments Ok {A} a.
Arguments Raise {A} e.

(** Computations over a state [S] that read the environment and may raise;
    what was done before an exception stays done. *)
Definition SE (S A : Type) : Type := Env -> S -> result A * S.

Definition ret {S A} (a : A) : SE S A := fun _ s => (Ok a, s).

Definition raise {S A} (x : exn) : SE S A := fun _ s => (Raise x, s).

Definition bind {S A B} (m : SE S A) (k : A -> SE S B) : SE S B :=
  fun e s =>
    match m e s with
    | (Ok a, s') => k a e s'
    | (Raise x, s') => (Raise x, s')
    end.

Notation "x <- m ;; k" := (bind m (fun x => k))
  (at level 61, m at next level, right associativity).
Notation "m ;;; k" := (bind m (fun _ => k))
  (at level 61, right associativity).

(** Synthesis only reads the streams; writing touches the file system. *)
Definition Gen : Type -> Type := SE Cursors.
Definition IO : Type -> Type := SE State.

Definition lift {A} (g : Gen A) : IO A :=
  fun e s =>
    let (r, c) := g e (cursors s) in
    (r, mkState c (dirs s) (files s) (stdout s) (stderr s)).

(** [[f(x) for x in l]], in order *)
Fixpoint map_m {S A B} (f : A -> SE S B) (l : list A) : SE S (list B) :=
  match l with
  | [] => ret []
  | x :: l' => y <- f x ;; ys <- map_m f l' ;; ret (y :: ys)
  end.

(** [for x in l: acc = body(acc, x)] *)
Fixpoint for_fold {S A B} (l : list A) (acc : B) (body : B -> A -> SE S B) : SE S B :=
  match l with
  | [] => ret acc
  | x :: l' => acc' <- body acc x ;; for_fold l' acc' body
  end.

(** [a // b] *)
Definition floordiv {S} (a b : Z) : SE S Z :=
  if b =? 0 then raise ZeroDivisionError else ret (a / b).

(** *** The random module *)

Definition draw_random : Gen Z :=
  fun e c => (Ok (rand_tape e (rand_pos c)),
              mkCursors (S (rand_pos c)) (fake_pos c) (ticks c)).

(** [random.randint(a, b)]: an integer of [[a, b]]; an empty range raises. *)
Definition randint (a b : Z) : Gen Z :=
  if b <? a then raise ValueError
  else r <- draw_random ;; ret (a + r mod (b - a + 1)).

(** [random.choice(seq)] *)
Definition choice {A} (l : list A) : Gen A :=
  match l with
  | [] => raise IndexError
  | x :: _ => r <- draw_random ;;
              ret (nth (Z.to_nat (r mod Z.of_nat (List.length l))) l x)
  end.

(** [round(random.uniform(lo, hi), places)], the bounds given in units of
    [10^-places]: a multiple of the unit between them. *)
Definition round_uniform (places : nat) (lo hi : Z) : Gen value :=
  r <- draw_random ;; ret (VDec places (lo + r mod (hi - lo + 1))).

(** *** The clock and the fake-data provider *)

Definition usec_per_day : Z := 86400000000.

(** [datetime.now()] *)
Definition now : Gen Z :=
  fun e c => (Ok (clock e (ticks c)),
              mkCursors (rand_pos c) (fake_pos c) (S (ticks c))).

Definition draw_fake : Gen Z :=
  fun e c => (Ok (fake_tape e (fake_pos c)),
              mkCursors (rand_pos c) (S (fake_pos c)) (ticks c)).

(** [fake.name()], [fake.email()], ...: a text of the provider *)
Definition fake (provider : string) : Gen string :=
  r <- draw_fake ;; fun e c => (Ok (faker_text e provider r), c).

(** The provider reads ['-Ny'] as [365.24 * N] days before today, and date
    arithmetic keeps whole days. *)
Definition days_back (years : Z) : Z := (36524 * years + 99) / 100.

(** [fake.date_between(start_date='-Ny', end_date='today')]: a date between
    the two, both relative to the day the call is made. *)
Definition date_between_years_ago (years : Z) : Gen value :=
  t <- now ;;
  r <- draw_fake ;;
  ret (VDate (t / usec_per_day - r mod (days_back years + 1))).

(** *** The file system *)

Definition mem_string (x : string) (l : list string) : bool :=
  existsb (String.eqb x) l.

Definition add_dir (path : string) (ds : list string) : list string :=
  if mem_string path ds then ds else path :: ds.

(** [os.makedirs(path, exist_ok=True)] *)
Definition makedirs (path : string) : IO unit :=
  fun e s =>
    if uncreatable e path then (Raise (OSError path), s)
    else (Ok tt,
          mkState (cursors s) (add_dir path (dirs s))
                  (files s) (stdout s) (stderr s)).

(** [pd.DataFrame(rows).to_parquet(filename, ...)] or [.to_csv(filename, ...)] *)
Definition write_table (filename : string) (rows : list record) : IO unit :=
  fun e s =>
    if unwritable e filename then (Raise (OSError filename), s)
    else (Ok tt,
          mkState (cursors s) (dirs s) ((filename, rows) :: files s)
                  (stdout s) (stderr s)).

(** The name of a batch file: [f"{output_dir}/{stem}_{batch_num:0Wd}.{ext}"] *)
Definition batch_filename (output_dir stem : string) (width : nat)
    (batch_num : Z) (ext : string) : string :=
  output_dir ++ "/" ++ stem ++ "_" ++ fmt_0d width batch_num ++ "." ++ ext.

(** [if OUTPUT_FORMAT == 'parquet': ... else: ...] *)
Definition extension (cfg : Config) : string :=
  if (OUTPUT_FORMAT cfg =? "parquet")%string then "parquet" else "csv".

Definition save_batch (cfg : Config) (output_dir stem : string) (width : nat)
    (batch_num : Z) (rows : list record) : IO string :=
  let filename := batch_filename output_dir stem width batch_num (extension cfg) in
  write_table filename rows ;;;
  ret filename.

(** The loop all batched pipelines share; it returns [all_files]. *)
Definition batched (cfg : Config) (output_dir stem : string) (width : nat)
    (N B : Z) (row : Z -> Gen record) : IO (list string) :=
  makedirs output_dir ;;;
  nb <- floordiv (N + B - 1) B ;;
  for_fold (py_range nb) []
    (fun all_files batch_num =>
       let start_id := batch_num * B in
       let current_batch_size := Z.min B (N - start_id) in
       rows <- lift (map_m (fun i => row (start_id + i)) (py_range current_batch_size)) ;;
       filename <- save_batch cfg output_dir stem width batch_num rows ;;
       ret (all_files ++ [filename])).

(** ** complete_generator.py, first definitions (lines 59-281) *)

Module FirstPass.

(** The body of the loop of [generate_customer_batch] *)
Definition customer_row (cfg : Config) (customer_id : Z) : Gen record :=
  acquisition_date <- date_between_years_ago 5 ;;
  customer_name <- fake "name" ;;
  email <- fake "email" ;;
  phone <- fake "phone_number" ;;
  segment <- choice (CUSTOMER_SEGMENTS cfg) ;;
  region <- choice (REGIONS cfg) ;;
  country <- choice (COUNTRIES cfg) ;;
  city <- fake "city" ;;
  state <- fake "state_abbr" ;;
  zip_code <- fake "zipcode" ;;
  lifetime_value <- round_uniform 2 10000 50000000 ;;
  created_at <- now ;;
  ret [ ("customer_id", VStr ("CUST" ++ fmt_0d 8 customer_id));
        ("customer_name", VStr customer_name);
        ("email", VStr email);
        ("phone", VStr phone);
        ("segment", VStr segment);
        ("region", VStr region);
        ("country", VStr country);
        ("city", VStr city);
        ("state", VStr state);
        ("zip_code", VStr zip_code);
        ("acquisition_date", acquisition_date);
        ("lifetime_value", lifetime_value);
        ("created_at", VDateTime created_at) ].

Definition generate_customer_batch (cfg : Config) (start_id batch_size : Z)
  : Gen (list record) :=
  map_m (fun i => customer_row cfg (start_id + i)) (py_range batch_size).

Definition generate_all_customers (cfg : Config) : IO (list string) :=
  batched cfg "generated-data/customers" "customers_batch" 5
          (NUM_CUSTOMERS cfg) (CUSTOMER_BATCH_SIZE cfg) (customer_row cfg).

Definition product_row (cfg : Config) (product_id : Z) : Gen record :=
  word1 <- fake "word" ;;
  word2 <- fake "word" ;;
  category <- choice (PRODUCT_CATEGORIES cfg) ;;
  subcategory <- fake "word" ;;
  unit_price <- round_uniform 2 1000 100000 ;;
  cost_price <- round_uniform 2 500 50000 ;;
  supplier <- randint 1 1000 ;;
  stock_quantity <- randint 0 10000 ;;
  reorder_point <- randint 50 500 ;;
  created_at <- now ;;
  ret [ ("product_id", VStr ("PROD" ++ fmt_0d 8 product_id));
        ("product_name", VStr (word1 ++ " " ++ word2));
        ("category", VStr category);
        ("subcategory", VStr subcategory);
        ("unit_price", unit_price);
        ("cost_price", cost_price);
        ("supplier_id", VStr ("SUPP" ++ fmt_0d 6 supplier));
        ("stock_quantity", VInt stock_quantity);
        ("reorder_point", VInt reorder_point);
        ("created_at", VDateTime created_at) ].

Definition generate_products (cfg : Config) : IO (list string) :=
  batched cfg "generated-data/products" "products_batch" 5
          (NUM_PRODUCTS cfg) (PRODUCT_BATCH_SIZE cfg) (product_row cfg).

Definition sales_rep_row (cfg : Config) (rep_id : Z) : Gen record :=
  name <- fake "name" ;;
  email <- fake "email" ;;
  phone <- fake "phone_number" ;;
  region <- choice (REGIONS cfg) ;;
  territory <- fake "city" ;;
  hire_date <- date_between_years_ago 15 ;;
  commission_rate <- round_uniform 4 100 2500 ;;
  created_at <- now ;;
  ret [ ("sales_rep_id", VStr ("SREP" ++ fmt_0d 8 rep_id));
        ("name", VStr name);
        ("email", VStr email);
        ("phone", VStr phone);
        ("region", VStr region);
        ("territory", VStr territory);
        ("hire_date", hire_date);
        ("commission_rate", commission_rate);
        ("created_at", VDateTime created_at) ].

(** The sales representatives are chunked by [PRODUCT_BATCH_SIZE]. *)
Definition generate_sales_reps (cfg : Config) : IO (list string) :=
  batched cfg "generated-data/sales-reps" "sales_reps_batch" 5
          (NUM_SALES_REPS cfg) (PRODUCT_BATCH_SIZE cfg) (sales_rep_row cfg).

Definition payment_methods : list string :=
  ["Credit Card"; "Debit Card"; "Check"; "Bank Transfer"; "Online Payment"].

Definition transaction_row (cfg : Config) (transaction_id : Z) : Gen record :=
  let start := START_DATE cfg in
  let num_days := END_DATE cfg - start in
  days <- randint 0 num_days ;;
  customer <- randint 0 (NUM_CUSTOMERS cfg - 1) ;;
  product <- randint 0 (NUM_PRODUCTS cfg - 1) ;;
  sales_rep <- randint 0 (NUM_SALES_REPS cfg - 1) ;;
  quantity <- randint 1 500 ;;
  unit_price <- round_uniform 2 1000 100000 ;;
  discount_percent <- round_uniform 2 0 5000 ;;
  tax_amount <- round_uniform 2 1000 100000 ;;
  total_amount <- round_uniform 2 5000 5000000 ;;
  payment_method <- choice payment_methods ;;
  region <- choice (REGIONS cfg) ;;
  created_at <- now ;;
  ret [ ("transaction_id", VStr ("TXN" ++ fmt_0d 12 transaction_id));
        ("customer_id", VStr ("CUST" ++ fmt_0d 8 customer));
        ("product_id", VStr ("PROD" ++ fmt_0d 8 product));
        ("sales_rep_id", VStr ("SREP" ++ fmt_0d 8 sales_rep));
        ("transaction_date", VDateTime ((start + days) * usec_per_day));
        ("quantity", VInt quantity);
        ("unit_price", unit_price);
        ("discount_percent", discount_percent);
        ("tax_amount", tax_amount);
        ("total_amount", total_amount);
        ("payment_method", VStr payment_method);
        ("region", VStr region);
        ("created_at", VDateTime created_at) ].

Definition generate_all_transactions (cfg : Config) : IO (list string) :=
  batched cfg "generated-data/transactions" "transactions_batch" 5
          (NUM_TRANSACTIONS cfg) (TRANSACTION_BATCH_SIZE cfg) (transaction_row cfg).

(** The body of the first [try] (lines 285-322); the report of elapsed time
    and size that follows the four pipelines is presentation. *)
Definition main (cfg : Config) : IO unit :=
  generate_all_customers cfg ;;;
  generate_products cfg ;;;
  generate_sales_reps cfg ;;;
  generate_all_transactions cfg ;;;
  ret tt.

End FirstPass.

(** ** complete_generator.py, the redefinitions (lines 330-537) *)

Module Legacy.

Definition customer_row (cfg : Config) (customer_id : Z) : Gen record :=
  acquisition_date <- date_between_years_ago 3 ;;
  customer_name <- fake "name" ;;
  email <- fake "email" ;;
  phone <- fake "phone_number" ;;
  segment <- choice (CUSTOMER_SEGMENTS cfg) ;;
  region <- choice (REGIONS cfg) ;;
  country <- choice (COUNTRIES cfg) ;;
  city <- fake "city" ;;
  state <- fake "state_abbr" ;;
  zip_code <- fake "zipcode" ;;
  lifetime_value <- round_uniform 2 10000 5000000 ;;
  created_at <- now ;;
  ret [ ("customer_id", VStr ("CUST" ++ fmt_0d 6 customer_id));
        ("customer_name", VStr customer_name);
        ("email", VStr email);
        ("phone", VStr phone);
        ("segment", VStr segment);
        ("region", VStr region);
        ("country", VStr country);
        ("city", VStr city);
        ("state", VStr state);
        ("zip_code", VStr zip_code);
        ("acquisition_date", acquisition_date);
        ("lifetime_value", lifetime_value);
        ("created_at", VDateTime created_at) ].

Definition generate_customer_batch (cfg : Config) (start_id batch_size : Z)
  : Gen (list record) :=
  map_m (fun i => customer_row cfg (start_id + i)) (py_range batch_size).

Definition generate_all_customers (cfg : Config) : IO (list string) :=
  batched cfg "generated-data/customers" "customers_batch" 3
          (NUM_CUSTOMERS cfg) (CUSTOMER_BATCH_SIZE cfg) (customer_row cfg).

Definition product_row (cfg : Config) (product_id : Z) : Gen record :=
  word1 <- fake "word" ;;
  word2 <- fake "word" ;;
  category <- choice (PRODUCT_CATEGORIES cfg) ;;
  subcategory <- fake "word" ;;
  unit_price <- round_uniform 2 1000 100000 ;;
  cost_price <- round_uniform 2 500 50000 ;;
  supplier <- randint 1 100 ;;
  stock_quantity <- randint 0 1000 ;;
  reorder_point <- randint 50 200 ;;
  created_at <- now ;;
  ret [ ("product_id", VStr ("PROD" ++ fmt_0d 6 product_id));
        ("product_name", VStr (word1 ++ " " ++ word2));
        ("category", VStr category);
        ("subcategory", VStr subcategory);
        ("unit_price", unit_price);
        ("cost_price", cost_price);
        ("supplier_id", VStr ("SUPP" ++ fmt_0d 4 supplier));
        ("stock_quantity", VInt stock_quantity);
        ("reorder_point", VInt reorder_point);
        ("created_at", VDateTime created_at) ].

Definition generate_products (cfg : Config) : IO (list string) :=
  batched cfg "generated-data/products" "products_batch" 3
          (NUM_PRODUCTS cfg) (PRODUCT_BATCH_SIZE cfg) (product_row cfg).

(** [for i in range(NUM_SALES_REPS)]: the identifier is [i + 1]. *)
Definition sales_rep_row (cfg : Config) (i : Z) : Gen record :=
  name <- fake "name" ;;
  email <- fake "email" ;;
  phone <- fake "phone_number" ;;
  region <- choice (REGIONS cfg) ;;
  territory <- fake "city" ;;
  hire_date <- date_between_years_ago 10 ;;
  commission_rate <- round_uniform 4 100 1500 ;;
  created_at <- now ;;
  ret [ ("sales_rep_id", VStr ("SREP" ++ fmt_0d 4 (i + 1)));
        ("name", VStr name);
        ("email", VStr email);
        ("phone", VStr phone);
        ("region", VStr region);
        ("territory", VStr territory);
        ("hire_date", hire_date);
        ("commission_rate", commission_rate);
        ("created_at", VDateTime created_at) ].

(** One file, no batches. *)
Definition generate_sales_reps (cfg : Config) : IO unit :=
  let output_dir := "generated-data/sales-reps" in
  makedirs output_dir ;;;
  sales_reps <- lift (map_m (sales_rep_row cfg) (py_range (NUM_SALES_REPS cfg))) ;;
  write_table (output_dir ++ "/sales_reps." ++ extension cfg) sales_reps.

Definition payment_methods : list string :=
  ["Credit Card"; "Debit Card"; "Check"; "Bank Transfer"].

Definition transaction_row (cfg : Config) (transaction_id : Z) : Gen record :=
  let start := START_DATE cfg in
  let num_days := END_DATE cfg - start in
  days <- randint 0 num_days ;;
  customer <- randint 0 (NUM_CUSTOMERS cfg - 1) ;;
  product <- randint 0 (NUM_PRODUCTS cfg - 1) ;;
  sales_rep <- randint 1 (NUM_SALES_REPS cfg) ;;
  quantity <- randint 1 100 ;;
  unit_price <- round_uniform 2 1000 100000 ;;
  discount_percent <- round_uniform 2 0 5000 ;;
  tax_amount <- round_uniform 2 1000 50000 ;;
  total_amount <- round_uniform 2 5000 1000000 ;;
  payment_method <- choice payment_methods ;;
  region <- choice (REGIONS cfg) ;;
  created_at <- now ;;
  ret [ ("transaction_id", VStr ("TXN" ++ fmt_0d 9 transaction_id));
        ("customer_id", VStr ("CUST" ++ fmt_0d 6 customer));
        ("product_id", VStr ("PROD" ++ fmt_0d 6 product));
        ("sales_rep_id", VStr ("SREP" ++ fmt_0d 4 sales_rep));
        ("transaction_date", VDateTime ((start + days) * usec_per_day));
        ("quantity", VInt quantity);
        ("unit_price", unit_price);
        ("discount_percent", discount_percent);
        ("tax_amount", tax_amount);
        ("total_amount", total_amount);
        ("payment_method", VStr payment_method);
        ("region", VStr region);
        ("created_at", VDateTime created_at) ].

Definition generate_all_transactions (cfg : Config) : IO (list string) :=
  batched cfg "generated-data/transactions" "transactions_batch" 3
          (NUM_TRANSACTIONS cfg) (TRANSACTION_BATCH_SIZE cfg) (transaction_row cfg).

(** The body of the second [try] (lines 541-559) *)
Definition main (cfg : Config) : IO unit :=
  generate_all_customers cfg ;;;
  generate_products cfg ;;;
  generate_sales_reps cfg ;;;
  generate_all_transactions cfg ;;;
  ret tt.

End Legacy.

(** ** quick_gen.py: the customers alone, as in the redefinitions *)

Module QuickGen.

Definition generate_customer_batch (cfg : Config) (start_id batch_size : Z)
  : Gen (list record) :=
  map_m (fun i => Legacy.customer_row cfg (start_id + i)) (py_range batch_size).

Definition generate_all_customers (cfg : Config) : IO (list string) :=
  batched cfg "generated-data/customers" "customers_batch" 3
          (NUM_CUSTOMERS cfg) (CUSTOMER_BATCH_SIZE cfg) (Legacy.customer_row cfg).

Definition main (cfg : Config) : IO unit :=
  generate_all_customers cfg ;;; ret tt.

End QuickGen.

(** ** The scripts *)

(** [str(e)] *)
Definition exn_message (x : exn) : string :=
  match x with
  | ZeroDivisionError => "integer division or modulo by zero"
  | ValueError => "empty range for randrange()"
  | IndexError => "Cannot choose from an empty sequence"
  | OSError path => "cannot write " ++ path
  end.

(** [print(f"ERROR: {str(e)}")] goes to the standard output,
    [traceback.print_exc()] to the error stream. *)
Definition report (x : exn) (s : State) : State :=
  mkState (cursors s) (dirs s) (files s)
          (stdout s ++ [("ERROR: " ++ exn_message x)%string])
          (stderr s ++ [("Traceback (most recent call last): " ++ exn_message x)%string]).

(** How a script ends: it runs to its last line, or [sys.exit(code)] is called. *)
Inductive ending : Type :=
| Completed
| SysExit (code : Z).

Definition exit_code (x : ending) : Z :=
  match x with
  | Completed => 0
  | SysExit code => code
  end.

(** [try: body  except Exception as e: print(...); traceback.print_exc(); sys.exit(1)] *)
Definition try_or_exit (body : IO unit) (e : Env) (s : State) : ending * State :=
  match body e s with
  | (Ok _, s') => (Completed, s')
  | (Raise x, s') => (SysExit 1, report x s')
  end.

(** [Faker.seed(42); random.seed(42)]: both streams from their beginning *)
Definition seed (s : State) : State :=
  mkState (mkCursors 0 0 (ticks (cursors s))) (dirs s) (files s) (stdout s) (stderr s).

(** complete_generator.py: the first main block, then, when it did not
    exit, the redefinitions and the second main block. *)
Definition complete_generator (cfg : Config) (e : Env) (s : State) : ending * State :=
  match try_or_exit (FirstPass.main cfg) e (seed s) with
  | (Completed, s1) => try_or_exit (Legacy.main cfg) e s1
  | (SysExit code, s1) => (SysExit code, s1)
  end.

Definition quick_gen (cfg : Config) (e : Env) (s : State) : ending * State :=
  try_or_exit (QuickGen.main cfg) e (seed s).

(** ** Observations *)

(** The identifiers of a file's records, in order. *)
Definition column (key : string) (rows : list record) : list (option value) :=
  map (field key) rows.

(** A record without its wall-clock timestamp. *)
Definition without_created_at (r : record) : record :=
  filter (fun kv => negb (fst kv =? "created_at")%string) r.

Definition tables_without_created_at (fs : list (string * list record))
  : list (string * list record) :=
  map (fun f => (fst f, map without_created_at (snd f))) fs.

(** The clock [c] on the environment [e]. *)
Definition with_clock (c : nat -> Z) (e : Env) : Env :=
  mkEnv (rand_tape e) (fake_tape e) (faker_text e) c (uncreatable e) (unwritable e).

(** An empty file system, nothing read yet. *)
Definition fresh : State := mkState (mkCursors 0 0 0) [] [] [] [].

(** ** Vocabulary of the statements *)

(** In the environment [e], the computation [g] can return [a]. *)
Definition produces {A} (e : Env) (g : Gen A) (a : A) : Prop :=
  exists c c', g e c = (Ok a, c').

(** The file [f] is the batch [batch_num] of a batched pipeline: it has the
    name of that batch and one record for each identifier of its range, in
    order, made by [row]. *)
Definition is_batch (e : Env) (cfg : Config) (output_dir stem : string)
    (width : nat) (N B : Z) (row : Z -> Gen record) (batch_num : Z)
    (f : string * list record) : Prop :=
  fst f = batch_filename output_dir stem width batch_num (extension cfg)
  /\ Forall2 (fun i r => produces e (row i) r)
             (id_range (batch_num * B) (Z.min B (N - batch_num * B))) (snd f).

(** The states [s] and [s'] differ by the directory [dir] and the files
    [new], written in that order. *)
Definition adds (dir : string) (new : list (string * list record))
    (s s' : State) : Prop :=
  dirs s' = add_dir dir (dirs s)
  /\ files s' = rev new ++ files s
  /\ stdout s' = stdout s
  /\ stderr s' = stderr s.

(** *** The eight pipelines, by pass and entity type *)

Inductive entity : Type := Customer | Product | SalesRep | Transaction.

Inductive pass : Type := First | Redefined.

Definition entities : list entity := [Customer; Product; SalesRep; Transaction].

Definition count (en : entity) (cfg : Config) : Z :=
  match en with
  | Customer => NUM_CUSTOMERS cfg
  | Product => NUM_PRODUCTS cfg
  | SalesRep => NUM_SALES_REPS cfg
  | Transaction => NUM_TRANSACTIONS cfg
  end.

Definition batch_size (en : entity) (cfg : Config) : Z :=
  match en with
  | Customer => CUSTOMER_BATCH_SIZE cfg
  | Product | SalesRep => PRODUCT_BATCH_SIZE cfg
  | Transaction => TRANSACTION_BATCH_SIZE cfg
  end.

Definition output_dir (en : entity) : string :=
  match en with
  | Customer => "generated-data/customers"
  | Product => "generated-data/products"
  | SalesRep => "generated-data/sales-reps"
  | Transaction => "generated-data/transactions"
  end.

Definition stem (en : entity) : string :=
  match en with
  | Customer => "customers_batch"
  | Product => "products_batch"
  | SalesRep => "sales_reps_batch"
  | Transaction => "transactions_batch"
  end.

(** The width of the batch number in a file name. *)
Definition index_width (p : pass) : nat :=
  match p with First => 5%nat | Redefined => 3%nat end.

Definition row_of (p : pass) (en : entity) (cfg : Config) : Z -> Gen record :=
  match p, en with
  | First, Customer => FirstPass.customer_row cfg
  | First, Product => FirstPass.product_row cfg
  | First, SalesRep => FirstPass.sales_rep_row cfg
  | First, Transaction => FirstPass.transaction_row cfg
  | Redefined, Customer => Legacy.customer_row cfg
  | Redefined, Product => Legacy.product_row cfg
  | Redefined, SalesRep => Legacy.sales_rep_row cfg
  | Redefined, Transaction => Legacy.transaction_row cfg
  end.

Definition pipeline (p : pass) (en : entity) (cfg : Config) : IO unit :=
  match p, en with
  | First, Customer => FirstPass.generate_all_customers cfg ;;; ret tt
  | First, Product => FirstPass.generate_products cfg ;;; ret tt
  | First, SalesRep => FirstPass.generate_sales_reps cfg ;;; ret tt
  | First, Transaction => FirstPass.generate_all_transactions cfg ;;; ret tt
  | Redefined, Customer => Legacy.generate_all_customers cfg ;;; ret tt
  | Redefined, Product => Legacy.generate_products cfg ;;; ret tt
  | Redefined, SalesRep => Legacy.generate_sales_reps cfg
  | Redefined, Transaction => Legacy.generate_all_transactions cfg ;;; ret tt
  end.

(** The pipelines of complete_generator.py in the order it calls them. *)
Definition all_pipelines (cfg : Config) : list (IO unit) :=
  map (fun en => pipeline First en cfg) entities
  ++ map (fun en => pipeline Redefined en cfg) entities.

(** [p1(); p2(); ...] *)
Fixpoint run_all (ps : list (IO unit)) : IO unit :=
  match ps with
  | [] => ret tt
  | p :: ps' => p ;;; run_all ps'
  end.

(** The sequence positions a pipeline goes through, in its order. *)
Definition positions (p : pass) (en : entity) (cfg : Config) : list Z :=
  match p, en with
  | Redefined, SalesRep => id_range 0 (NUM_SALES_REPS cfg)
  | _, _ => batch_ids (count en cfg) (batch_size en cfg)
  end.

(** The names of the files a pipeline writes, in its order. *)
Definition file_names (p : pass) (en : entity) (cfg : Config) : list string :=
  match p, en with
  | Redefined, SalesRep =>
      [(output_dir SalesRep ++ "/sales_reps." ++ extension cfg)%string]
  | _, _ =>
      map (fun k => batch_filename (output_dir en) (stem en) (index_width p) k
                                   (extension cfg))
          (py_range (num_batches (count en cfg) (batch_size en cfg)))
  end.

(** *** Identifiers *)

Definition id_key (en : entity) : string :=
  match en with
  | Customer => "customer_id"
  | Product => "product_id"
  | SalesRep => "sales_rep_id"
  | Transaction => "transaction_id"
  end.

Definition id_prefix (en : entity) : string :=
  match en with
  | Customer => "CUST"
  | Product => "PROD"
  | SalesRep => "SREP"
  | Transaction => "TXN"
  end.

Definition id_width (p : pass) (en : entity) : nat :=
  match p, en with
  | First, Transaction => 12
  | First, _ => 8
  | Redefined, Customer | Redefined, Product => 6
  | Redefined, SalesRep => 4
  | Redefined, Transaction => 9
  end%nat.

(** The number an identifier carries at a sequence position: the position,
    or one more for the redefined sales representatives. *)
Definition id_number (p : pass) (en : entity) (position : Z) : Z :=
  match p, en with
  | Redefined, SalesRep => position + 1
  | _, _ => position
  end.

(** An identifier: the fixed prefix, then the zero-padded number. *)
Definition identifier (p : pass) (en : entity) (n : Z) : string :=
  id_prefix en ++ fmt_0d (id_width p en) n.

(** *** The amounts of a transaction *)

(** The upper bounds that differ between the two definitions:
    [randint(1, 500)] and [randint(1, 100)], [uniform(10, 1000)] and
    [uniform(10, 500)], [uniform(50, 50000)] and [uniform(50, 10000)]. *)
Definition quantity_max (p : pass) : Z :=
  match p with First => 500 | Redefined => 100 end.

Definition tax_max (p : pass) : Z :=
  match p with First => 100000 | Redefined => 50000 end.

Definition total_max (p : pass) : Z :=
  match p with First => 5000000 | Redefined => 1000000 end.

(** A stream of draws that begins with [l]. *)
Definition tape_of (l : list Z) : nat -> Z := fun k => nth k l 0.

(** *** Two runs *)

(** Two runs end alike: both return, with results related by [R], or both
    raise the same exception, and their final states are related by [RS]. *)
Definition alike {St A} (RS : St -> St -> Prop) (R : A -> A -> Prop)
    (x y : result A * St) : Prop :=
  match x, y with
  | (Ok a, s), (Ok b, t) => R a b /\ RS s t
  | (Raise u, s), (Raise v, t) => u = v /\ RS s t
  | _, _ => False
  end.

Definition same_record (r1 r2 : record) : Prop :=
  without_created_at r1 = without_created_at r2.

(** The same state, up to the [created_at] of the records written. *)
Definition same_tables (s t : State) : Prop :=
  cursors s = cursors t
  /\ dirs s = dirs t
  /\ tables_without_created_at (files s) = tables_without_created_at (files t)
  /\ stdout s = stdout t
  /\ stderr s = stderr t.

(** The computation [m1] in the environment [e1] and [m2] in [e2] end alike
    from related states. *)
Definition related {St A} (e1 e2 : Env) (RS : St -> St -> Prop)
    (R : A -> A -> Prop) (m1 m2 : SE St A) : Prop :=
  forall s t, RS s t -> alike RS R (m1 e1 s) (m2 e2 t).

(** The first customer on disk, and the date of its acquisition. *)
Definition first_acquisition_date (fs : list (string * list record))
  : option (option value) :=
  option_map (field "acquisition_date") (hd_error (snd (last fs (EmptyString, [])))).

(** Every reading of the two clocks falls on the same calendar day. *)
Definition same_days (c1 c2 : nat -> Z) : Prop :=
  forall k, c1 k / usec_per_day = c2 k / usec_per_day.

(** The configuration lets every record be synthesized. *)
Definition can_synthesize (cfg : Config) : Prop :=
  CUSTOMER_SEGMENTS cfg <> [] /\ REGIONS cfg <> [] /\ COUNTRIES cfg <> []
  /\ PRODUCT_CATEGORIES cfg <> []
  /\ START_DATE cfg <= END_DATE cfg
  /\ 1 <= NUM_CUSTOMERS cfg /\ 1 <= NUM_PRODUCTS cfg /\ 1 <= NUM_SALES_REPS cfg.

(** *** Sample inputs *)

(** An environment whose file system refuses nothing. *)
Definition sample_env : Env :=
  mkEnv (fun n => Z.of_nat n * 7919) (fun n => Z.of_nat n * 104729)
        (fun provider r => provider) (fun n => 1700000000000000 + Z.of_nat n)
        (fun _ => false) (fun _ => false).

(** Five customers in batches of two, and a few records of the other types. *)
Definition small_config : Config := {|
  NUM_CUSTOMERS := 5;
  NUM_PRODUCTS := 3;
  NUM_SALES_REPS := 2;
  NUM_TRANSACTIONS := 4;
  START_DATE := 738521;
  END_DATE := 739251;
  CUSTOMER_BATCH_SIZE := 2;
  PRODUCT_BATCH_SIZE := 2;
  TRANSACTION_BATCH_SIZE := 3;
  OUTPUT_FORMAT := "parquet";
  COMPRESSION := "snappy";
  REGIONS := ["North"; "South"];
  COUNTRIES := ["USA"];
  PRODUCT_CATEGORIES := ["Electronics"; "Clothing"];
  CUSTOMER_SEGMENTS := ["Bronze"; "Gold"]
|}.

(** [small_config] with [CUSTOMER_BATCH_SIZE = 0]. *)
Definition zero_batch_config : Config :=
  mkConfig 5 3 2 4 738521 739251 0 2 3 "parquet" "snappy"
           ["North"; "South"] ["USA"] ["Electronics"; "Clothing"] ["Bronze"; "Gold"].

(** [small_config] with no record of any type to generate. *)
Definition zero_count_config : Config :=
  mkConfig 0 0 0 0 738521 739251 2 2 3 "parquet" "snappy"
           ["North"; "South"] ["USA"] ["Electronics"; "Clothing"] ["Bronze"; "Gold"].

(** An environment where the second batch of products cannot be written. *)
Definition disk_full_env : Env :=
  mkEnv (rand_tape sample_env) (fake_tape sample_env) (faker_text sample_env)
        (clock sample_env) (fun _ => false)
        (String.eqb "generated-data/products/products_batch_00001.parquet").

(** An environment whose draws are all zero. *)
Definition quiet_env : Env :=
  mkEnv (fun _ => 0) (fun _ => 0) (fun provider _ => provider) (fun _ => 0)
        (fun _ => false) (fun _ => false).

(** 10001 customers, one to a batch. *)
Definition many_batches_config : Config :=
  mkConfig 10001 1 1 1 738521 739251 1 1 1 "parquet" "snappy"
           ["North"] ["USA"] ["Electronics"] ["Bronze"].

(** The pipelines of complete_generator.py, named. *)
Definition pipeline_order : list (pass * entity) :=
  [(First, Customer); (First, Product); (First, SalesRep); (First, Transaction);
   (Redefined, Customer); (Redefined, Product); (Redefined, SalesRep);
   (Redefined, Transaction)].

(** ** run_generator.py *)

Module RunGenerator.

(** The body of the [try] of [main()] (lines 28-46). The four functions are
    imported from modules that are not among the sources: they are taken as
    they come, and what they return is dropped. *)
Definition main_body (generate_all_customers generate_products
    generate_sales_reps generate_all_transactions : IO unit) : IO unit :=
  generate_all_customers ;;;
  generate_products ;;;
  generate_sales_reps ;;;
  generate_all_transactions ;;;
  ret tt.

(** [main()], called when the module is the script. *)
Definition main (generate_all_customers generate_products
    generate_sales_reps generate_all_transactions : IO unit)
    (e : Env) (s : State) : ending * State :=
  try_or_exit (main_body generate_all_customers generate_products
                         generate_sales_reps generate_all_transactions) e s.

End RunGenerator.

(** ** What the main blocks print about the files *)

(** The number of files the first main block announces for an entity type
    (lines 318-321): [{NUM_CUSTOMERS//CUSTOMER_BATCH_SIZE + 1} parquet files]. *)
Definition announced_files (en : entity) (cfg : Config) : Z :=
  count en cfg / batch_size en cfg + 1.

(** The range a batch announces (lines 99, 371):
    [({start_id} to {start_id + current_batch_size - 1})]. *)
Definition progress_range (start_id current_batch_size : Z) : Z * Z :=
  (start_id, start_id + current_batch_size - 1).

(** The range the redefined pipelines print after their loop (lines 385,
    437, 535): [({NUM_CUSTOMERS - CUSTOMER_BATCH_SIZE} to {NUM_CUSTOMERS - 1})]. *)
Definition closing_range (N B : Z) : Z * Z := (N - B, N - 1).

(** ** Further vocabulary *)

(** The keys of the records of an entity type, in the order of the dict. *)
Definition schema (en : entity) : list string :=
  match en with
  | Customer =>
      ["customer_id"; "customer_name"; "email"; "phone"; "segment"; "region";
       "country"; "city"; "state"; "zip_code"; "acquisition_date";
       "lifetime_value"; "created_at"]
  | Product =>
      ["product_id"; "product_name"; "category"; "subcategory"; "unit_price";
       "cost_price"; "supplier_id"; "stock_quantity"; "reorder_point"; "created_at"]
  | SalesRep =>
      ["sales_rep_id"; "name"; "email"; "phone"; "region"; "territory";
       "hire_date"; "commission_rate"; "created_at"]
  | Transaction =>
      ["transaction_id"; "customer_id"; "product_id"; "sales_rep_id";
       "transaction_date"; "quantity"; "unit_price"; "discount_percent";
       "tax_amount"; "total_amount"; "payment_method"; "region"; "created_at"]
  end.

(** What the configuration must give for a record of an entity type. *)
Definition row_requirements (en : entity) (cfg : Config) : Prop :=
  match en with
  | Customer =>
      CUSTOMER_SEGMENTS cfg <> [] /\ REGIONS cfg <> [] /\ COUNTRIES cfg <> []
  | Product => PRODUCT_CATEGORIES cfg <> []
  | SalesRep => REGIONS cfg <> []
  | Transaction =>
      START_DATE cfg <= END_DATE cfg /\ 1 <= NUM_CUSTOMERS cfg
      /\ 1 <= NUM_PRODUCTS cfg /\ 1 <= NUM_SALES_REPS cfg /\ REGIONS cfg <> []
  end.

(** How many readings a record takes from each stream. *)
Definition random_draws (en : entity) : nat :=
  match en with
  | Customer => 4 | Product => 6 | SalesRep => 2 | Transaction => 11
  end%nat.

Definition fake_draws (en : entity) : nat :=
  match en with
  | Customer => 7 | Product => 3 | SalesRep => 5 | Transaction => 0
  end%nat.

Definition clock_reads (en : entity) : nat :=
  match en with
  | Customer => 2 | Product => 1 | SalesRep => 2 | Transaction => 1
  end%nat.

(** The cursors [k] records of an entity type further. *)
Definition advanced (en : entity) (k : nat) (c : Cursors) : Cursors :=
  mkCursors (k * random_draws en + rand_pos c) (k * fake_draws en + fake_pos c)
            (k * clock_reads en + ticks c).

(** The configuration with other batch sizes. *)
Definition with_batch_sizes (customers products transactions : Z) (cfg : Config)
  : Config :=
  mkConfig (NUM_CUSTOMERS cfg) (NUM_PRODUCTS cfg) (NUM_SALES_REPS cfg)
           (NUM_TRANSACTIONS cfg) (START_DATE cfg) (END_DATE cfg)
           customers products transactions
           (OUTPUT_FORMAT cfg) (COMPRESSION cfg) (REGIONS cfg) (COUNTRIES cfg)
           (PRODUCT_CATEGORIES cfg) (CUSTOMER_SEGMENTS cfg).

(** Reading the number of an identifier back: the prefix, then digits. *)
Definition identifier_number (en : entity) (s : string) : option N :=
  if String.prefix (id_prefix en) s
  then parse_decimal (substring (String.length (id_prefix en))
                                (String.length s - String.length (id_prefix en)) s)
  else None.

(** The parts of a record. *)
Definition as_text (v : option value) : option string :=
  match v with Some (VStr s) => Some s | _ => None end.

Definition as_int (v : option value) : option Z :=
  match v with Some (VInt n) => Some n | _ => None end.

Definition as_units (places : nat) (v : option value) : option Z :=
  match v with
  | Some (VDec p u) => if Nat.eqb p places then Some u else None
  | _ => None
  end.

Definition as_day (v : option value) : option Z :=
  match v with Some (VDate d) => Some d | _ => None end.

Definition as_instant (v : option value) : option Z :=
  match v with Some (VDateTime t) => Some t | _ => None end.

(** [o] is a value that satisfies [P]. *)
Definition holds {A} (o : option A) (P : A -> Prop) : Prop :=
  match o with Some a => P a | None => False end.

(** The upper bounds of the products that differ between the definitions:
    [randint(1, 1000)] and [randint(1, 100)], [randint(0, 10000)] and
    [randint(0, 1000)], [randint(50, 500)] and [randint(50, 200)]. *)
Definition supplier_max (p : pass) : Z :=
  match p with First => 1000 | Redefined => 100 end.

Definition supplier_width (p : pass) : nat :=
  match p with First => 6%nat | Redefined => 4%nat end.

Definition stock_max (p : pass) : Z :=
  match p with First => 10000 | Redefined => 1000 end.

Definition reorder_max (p : pass) : Z :=
  match p with First => 500 | Redefined => 200 end.

(** [uniform(100, 500000)] and [uniform(100, 50000)], in hundredths. *)
Definition lifetime_max (p : pass) : Z :=
  match p with First => 50000000 | Redefined => 5000000 end.

(** ['-5y'] and ['-3y'] for the customers, ['-15y'] and ['-10y'] for the
    sales representatives. *)
Definition acquisition_years (p : pass) : Z :=
  match p with First => 5 | Redefined => 3 end.

Definition hire_years (p : pass) : Z :=
  match p with First => 15 | Redefined => 10 end.

(** [uniform(0.01, 0.25)] and [uniform(0.01, 0.15)], in ten-thousandths. *)
Definition commission_max (p : pass) : Z :=
  match p with First => 2500 | Redefined => 1500 end.

Definition payment_methods_of (p : pass) : list string :=
  match p with
  | First => FirstPass.payment_methods
  | Redefined => Legacy.payment_methods
  end.

(** What a pipeline needs to run to its end: a directory it can create, a
    batch size it can divide by, files it can write and, when it has a record
    to make, what that record needs. *)
Definition can_complete (p : pass) (en : entity) (cfg : Config) (e : Env) : Prop :=
  uncreatable e (output_dir en) = false
  /\ ((p, en) <> (Redefined, SalesRep) -> batch_size en cfg <> 0)
  /\ (forall f, In f (file_names p en cfg) -> unwritable e f = false)
  /\ (positions p en cfg <> [] -> row_requirements en cfg).

(** The line [traceback.print_exc()] leaves on the error stream. *)
Definition traceback (x : exn) : string :=
  "Traceback (most recent call last): " ++ exn_message x.

(** The table a file holds: files are logged latest first, and a file
    written again holds what was written last. *)
Definition read_file (name : string) (s : State) : option (list record) :=
  option_map snd (find (fun f => String.eqb (fst f) name) (files s)).

(** * Properties *)

(** ** Zero-padded decimal fields *)

Section Formatting.

Lemma length_append (s t : string) :
  String.length (s ++ t) = (String.length s + String.length t)%nat.
Proof. induction s as [|a s IH]; simpl; [reflexivity | now rewrite IH]. Qed.

Lemma length_zeros k : String.length (zeros k) = k.
Proof. induction k; simpl; congruence. Qed.


Lemma append_inv_head (s t u : string) : (s ++ t = s ++ u)%string -> t = u.
Proof. induction s as [|a s IH]; simpl; intros H; [assumption | injection H; auto]. Qed.

Lemma to_uint_nonnil (n : N) : N.to_uint n <> Decimal.Nil.
Proof.
  destruct n as [|p]; simpl; [discriminate | apply Unsigned.to_uint_nonnil].
Qed.

Lemma decimal_digits (n : N) :
  decimal n <> EmptyString /\
  NilEmpty.uint_of_string (decimal n) = Some (N.to_uint n).
Proof.
  unfold decimal. pose proof (to_uint_nonnil n) as Hn.
  pose proof (NilZero.usu _ Hn) as Hu.
  destruct (NilZero.string_of_uint (N.to_uint n)) eqn:E.
  - discriminate Hu.
  - split; [discriminate | exact Hu].
Qed.

Lemma parse_zeros k s u :
  s <> EmptyString -> NilEmpty.uint_of_string s = Some u ->
  parse_decimal (zeros k ++ s) = Some (N.of_uint u).
Proof.
  intros Hs Hu. unfold parse_decimal.
  assert (H : exists u', NilEmpty.uint_of_string (zeros k ++ s) = Some u'
                         /\ N.of_uint u' = N.of_uint u).
  { induction k as [|k IH]; simpl.
    - eauto.
    - destruct IH as (u' & -> & E). exists (Decimal.D0 u'). split; [reflexivity | exact E]. }
  destruct H as (u' & H1 & H2).
  destruct (zeros k ++ s)%string eqn:E.
  - destruct k; simpl in E; [congruence | discriminate].
  - unfold NilZero.uint_of_string. rewrite H1. simpl. now rewrite H2.
Qed.

(** A non-negative number is read back from its zero-padded field. *)
Lemma parse_fmt_0d width n :
  0 <= n -> parse_decimal (fmt_0d width n) = Some (Z.to_N n).
Proof.
  intros Hn. unfold fmt_0d.
  destruct (Z.ltb_spec n 0) as [?|_]; [lia|].
  destruct (decimal_digits (Z.abs_N n)) as [Hne Hu].
  rewrite (parse_zeros _ _ _ Hne Hu), DecimalN.Unsigned.of_to.
  f_equal. lia.
Qed.

Lemma fmt_0d_inj width n m :
  0 <= n -> 0 <= m -> fmt_0d width n = fmt_0d width m -> n = m.
Proof.
  intros Hn Hm E.
  pose proof (parse_fmt_0d width n Hn) as Pn.
  pose proof (parse_fmt_0d width m Hm) as Pm.
  rewrite E in Pn. rewrite Pn in Pm. injection Pm. lia.
Qed.

Lemma length_fmt_0d width n :
  0 <= n ->
  String.length (fmt_0d width n)
  = Nat.max width (String.length (decimal (Z.abs_N n))).
Proof.
  intros Hn. unfold fmt_0d.
  destruct (Z.ltb_spec n 0) as [?|_]; [lia|].
  rewrite length_append, length_zeros. lia.
Qed.

End Formatting.

(** ** The chunker *)

Section Chunker.

Lemma py_range_succ n : 0 <= n -> py_range (n + 1) = py_range n ++ [n].
Proof.
  intros Hn. unfold py_range.
  replace (Z.to_nat (n + 1)) with (S (Z.to_nat n)) by lia.
  rewrite seq_S, map_app. simpl. rewrite Z2Nat.id by lia. reflexivity.
Qed.

Lemma py_range_nonpos n : n <= 0 -> py_range n = [].
Proof.
  intros Hn. unfold py_range. replace (Z.to_nat n) with O by lia. reflexivity.
Qed.

Lemma in_py_range k n : In k (py_range n) <-> 0 <= k < n.
Proof.
  unfold py_range. rewrite in_map_iff. split.
  - intros (i & <- & Hi). apply in_seq in Hi. lia.
  - intros Hk. exists (Z.to_nat k). split; [lia | apply in_seq; lia].
Qed.

Lemma length_py_range n : List.length (py_range n) = Z.to_nat n.
Proof. unfold py_range. now rewrite length_map, length_seq. Qed.

Lemma nth_py_range k n d : 0 <= k < n -> nth (Z.to_nat k) (py_range n) d = k.
Proof.
  intros Hk. unfold py_range.
  rewrite (nth_indep _ d (Z.of_nat 0)) by (rewrite length_map, length_seq; lia).
  rewrite map_nth, seq_nth by lia. lia.
Qed.

Lemma NoDup_py_range n : NoDup (py_range n).
Proof.
  unfold py_range. apply Injective_map_NoDup; [|apply seq_NoDup].
  intros a b. apply Nat2Z.inj.
Qed.

Lemma id_range_app s a b :
  0 <= a -> 0 <= b -> id_range s (a + b) = id_range s a ++ id_range (s + a) b.
Proof.
  intros Ha Hb. unfold id_range, py_range.
  replace (Z.to_nat (a + b)) with (Z.to_nat a + Z.to_nat b)%nat by lia.
  rewrite seq_app, !map_app. f_equal.
  assert (G : forall len k,
             map (fun i => s + i) (map Z.of_nat (seq (Z.to_nat a + k) len))
             = map (fun i => s + a + i) (map Z.of_nat (seq k len))).
  { induction len as [|len IH]; intros k; simpl; [reflexivity|].
    f_equal; [lia|]. rewrite <- Nat.add_succ_r. apply IH. }
  rewrite Nat.add_comm. apply G.
Qed.

Lemma in_id_range i s len : In i (id_range s len) <-> s <= i < s + len.
Proof.
  unfold id_range. rewrite in_map_iff. split.
  - intros (k & <- & Hk). apply in_py_range in Hk. lia.
  - intros Hi. exists (i - s). split; [lia | apply in_py_range; lia].
Qed.

Lemma NoDup_id_range s len : NoDup (id_range s len).
Proof.
  unfold id_range. apply Injective_map_NoDup; [|apply NoDup_py_range].
  intros a b. lia.
Qed.

(** [ceil(N / B)] *)
Lemma num_batches_ceil N B :
  0 < B -> (num_batches N B - 1) * B < N <= num_batches N B * B.
Proof.
  intros HB. unfold num_batches.
  pose proof (Z.div_mod (N + B - 1) B ltac:(lia)) as E.
  pose proof (Z.mod_pos_bound (N + B - 1) B HB) as Hm.
  nia.
Qed.

Lemma batch_bounds_inner N B k :
  0 < B -> 0 <= k < num_batches N B ->
  batch_bounds N B k
  = (k * B, if k <? num_batches N B - 1 then B else N - (num_batches N B - 1) * B)
  /\ 0 < snd (batch_bounds N B k) <= B.
Proof.
  intros HB Hk. pose proof (num_batches_ceil N B HB) as Hc.
  unfold batch_bounds. simpl.
  destruct (Z.ltb_spec k (num_batches N B - 1)) as [Hlt|Hge].
  - assert ((k + 1) * B <= (num_batches N B - 1) * B) by nia.
    split; [f_equal|]; lia.
  - assert (k = num_batches N B - 1) as -> by lia.
    split; [f_equal|]; lia.
Qed.

Lemma batch_ids_prefix N B (m : nat) :
  0 < B -> Z.of_nat m <= num_batches N B ->
  flat_map (fun r => id_range (fst r) (snd r))
           (map (batch_bounds N B) (py_range (Z.of_nat m)))
  = id_range 0 (Z.min N (Z.of_nat m * B)).
Proof.
  intros HB. induction m as [|m IH]; intros Hm.
  - change (Z.of_nat 0) with 0. rewrite (py_range_nonpos 0) by lia.
    unfold id_range. rewrite py_range_nonpos by lia. reflexivity.
  - replace (Z.of_nat (S m)) with (Z.of_nat m + 1) in * by lia.
    rewrite py_range_succ, map_app, flat_map_app, IH by lia.
    simpl. rewrite List.app_nil_r.
    destruct (batch_bounds_inner N B (Z.of_nat m) HB ltac:(lia)) as [_ Hlen].
    pose proof (num_batches_ceil N B HB) as Hc.
    assert (Z.of_nat m * B < N) by nia.
    unfold batch_bounds in *. simpl in *.
    replace (Z.min N (Z.of_nat m * B)) with (Z.of_nat m * B) by lia.
    replace (Z.min N ((Z.of_nat m + 1) * B))
      with (Z.of_nat m * B + Z.min B (N - Z.of_nat m * B)) by lia.
    rewrite id_range_app by lia. reflexivity.
Qed.

(** Whatever the configuration, the loop goes through the identifiers
    [0 .. N-1] once each and in order when the batch size is positive, and
    through none otherwise. *)
Lemma batch_ids_all N B :
  batch_ids N B = if 0 <? B then id_range 0 N else [].
Proof.
  unfold batch_ids, batch_ranges.
  destruct (Z.ltb_spec 0 B) as [HB|HB].
  - pose proof (num_batches_ceil N B HB) as Hc.
    destruct (Z.le_gt_cases (num_batches N B) 0) as [Hn|Hn].
    + rewrite py_range_nonpos by lia. simpl. unfold id_range.
      rewrite py_range_nonpos by nia. reflexivity.
    + rewrite <- (Z2Nat.id (num_batches N B)) at 1 by lia.
      rewrite batch_ids_prefix by lia.
      rewrite Z2Nat.id by lia. f_equal. lia.
  - induction (py_range (num_batches N B)) as [|k l IH]; simpl; [reflexivity|].
    rewrite IH, List.app_nil_r. unfold id_range.
    rewrite py_range_nonpos by lia. reflexivity.
Qed.

End Chunker.

(** C1. For a record count [N > 0] and a batch size [B > 0] the batch loop
    goes through [ceil(N/B)] ranges: the [k]-th starts at [k * B] and has
    length [B], except the last, of length [N - (num_batches-1) * B]; none is
    empty; put end to end they are exactly [0, 1, ..., N-1], each identifier
    once and in order. When [N < B] there is the single range [[0, N)], and
    when [B] divides [N] every range has length [B]. *)
Theorem chunker_partitions_id_space (N B : Z) :
  0 < N -> 0 < B ->
  let nb := num_batches N B in
  ((nb - 1) * B < N <= nb * B)
  /\ List.length (batch_ranges N B) = Z.to_nat nb
  /\ (forall k, 0 <= k < nb ->
        nth (Z.to_nat k) (batch_ranges N B) (0, 0)
        = (k * B, if k <? nb - 1 then B else N - (nb - 1) * B))
  /\ Forall (fun r => 0 < snd r <= B) (batch_ranges N B)
  /\ batch_ids N B = id_range 0 N
  /\ (forall i, 0 <= i < N <->
        exists r, In r (batch_ranges N B) /\ fst r <= i < fst r + snd r)
  /\ (N < B -> batch_ranges N B = [(0, N)])
  /\ (N mod B = 0 -> Forall (fun r => snd r = B) (batch_ranges N B)).
Proof.
  intros HN HB nb. pose proof (num_batches_ceil N B HB) as Hc. fold nb in Hc.
  assert (Hnb : 1 <= nb) by nia.
  assert (Hids : batch_ids N B = id_range 0 N).
  { rewrite batch_ids_all. destruct (Z.ltb_spec 0 B); [reflexivity | lia]. }
  repeat split.
  - lia.
  - lia.
  - unfold batch_ranges. now rewrite length_map, length_py_range.
  - intros k Hk. unfold batch_ranges.
    rewrite (nth_indep _ (0, 0) (batch_bounds N B 0))
      by (rewrite length_map, length_py_range; fold nb; lia).
    rewrite map_nth, nth_py_range by (fold nb; lia).
    apply (batch_bounds_inner N B k HB Hk).
  - unfold batch_ranges. apply Forall_forall. intros r Hr.
    apply in_map_iff in Hr. destruct Hr as (k & <- & Hk).
    apply in_py_range in Hk. apply (batch_bounds_inner N B k HB Hk).
  - exact Hids.
  - intros Hi. assert (Hin : In i (batch_ids N B)).
    { rewrite Hids. apply in_id_range. lia. }
    unfold batch_ids in Hin. apply in_flat_map in Hin.
    destruct Hin as (r & Hr & Hir). exists r. split; [exact Hr|].
    apply in_id_range in Hir. exact Hir.
  - destruct H as (r & Hr & Hir).
    assert (Hin : In i (batch_ids N B)).
    { unfold batch_ids. apply in_flat_map. exists r. split; [exact Hr|].
      apply in_id_range. exact Hir. }
    rewrite Hids in Hin. apply in_id_range in Hin. lia.
  - destruct H as (r & Hr & Hir).
    assert (Hin : In i (batch_ids N B)).
    { unfold batch_ids. apply in_flat_map. exists r. split; [exact Hr|].
      apply in_id_range. exact Hir. }
    rewrite Hids in Hin. apply in_id_range in Hin. lia.
  - intros Hlt. assert (nb = 1) as E by nia.
    unfold batch_ranges. fold nb. rewrite E. simpl.
    unfold batch_bounds. simpl. f_equal. f_equal. lia.
  - intros Hdiv. unfold batch_ranges. apply Forall_forall. intros r Hr.
    apply in_map_iff in Hr. destruct Hr as (k & <- & Hk).
    apply in_py_range in Hk. fold nb in Hk.
    destruct (batch_bounds_inner N B k HB Hk) as [-> _]. simpl. fold nb.
    destruct (Z.ltb_spec k (nb - 1)); [reflexivity|].
    apply Z.mod_divide in Hdiv; [|lia]. destruct Hdiv as [q Hq].
    assert (q = nb) by nia. subst q. lia.
Qed.

Lemma chunker_partitions_id_space_witness :
  0 < 5 /\ 0 < 2 /\ batch_ranges 5 2 = [(0, 2); (2, 2); (4, 1)]
  /\ batch_ids 5 2 = id_range 0 5.
Proof.
  split; [lia|]. split; [lia|]. split; [reflexivity|].
  apply (chunker_partitions_id_space 5 2); lia.
Defined.

(** ** Running computations *)

Section Running.

Context {St : Type}.

Lemma bind_run {A B} (m : SE St A) (k : A -> SE St B) e s a s1 :
  m e s = (Ok a, s1) -> bind m k e s = k a e s1.
Proof. intros E. unfold bind. now rewrite E. Qed.

Lemma bind_raise {A B} (m : SE St A) (k : A -> SE St B) e s x s1 :
  m e s = (Raise x, s1) -> bind m k e s = (Raise x, s1).
Proof. intros E. unfold bind. now rewrite E. Qed.

Lemma bind_ok_inv {A B} (m : SE St A) (k : A -> SE St B) e s b s2 :
  bind m k e s = (Ok b, s2) ->
  exists a s1, m e s = (Ok a, s1) /\ k a e s1 = (Ok b, s2).
Proof.
  unfold bind. destruct (m e s) as [[a|x] s1]; intros E.
  - eauto.
  - discriminate.
Qed.

Lemma bind_raise_inv {A B} (m : SE St A) (k : A -> SE St B) e s x s2 :
  bind m k e s = (Raise x, s2) ->
  m e s = (Raise x, s2)
  \/ exists a s1, m e s = (Ok a, s1) /\ k a e s1 = (Raise x, s2).
Proof.
  unfold bind. destruct (m e s) as [[a|y] s1]; intros E.
  - right. eauto.
  - left. injection E as -> ->. reflexivity.
Qed.

Lemma ret_ok_inv {A} (a b : A) e (s s' : St) :
  ret a e s = (Ok b, s') -> b = a /\ s' = s.
Proof. unfold ret. intros [= -> ->]. auto. Qed.

Lemma map_m_produces {A B} (f : A -> SE St B) e l :
  forall s ys s', map_m f l e s = (Ok ys, s') ->
  Forall2 (fun x y => exists s1 s2, f x e s1 = (Ok y, s2)) l ys.
Proof.
  induction l as [|x l IH]; simpl; intros s ys s' E.
  - apply ret_ok_inv in E. destruct E as [-> _]. constructor.
  - apply bind_ok_inv in E. destruct E as (y & s1 & E1 & E).
    apply bind_ok_inv in E. destruct E as (ys' & s2 & E2 & E).
    apply ret_ok_inv in E. destruct E as [-> ->].
    constructor; eauto.
Qed.

Lemma map_m_total {A B} (f : A -> SE St B) e l :
  (forall x s, In x l -> exists y s', f x e s = (Ok y, s')) ->
  forall s, exists ys s', map_m f l e s = (Ok ys, s').
Proof.
  induction l as [|x l IH]; simpl; intros Hf s.
  - unfold ret. eauto.
  - destruct (Hf x s (or_introl eq_refl)) as (y & s1 & E1).
    destruct (IH (fun x' s' H => Hf x' s' (or_intror H)) s1) as (ys & s2 & E2).
    exists (y :: ys), s2.
    rewrite (bind_run _ _ _ _ _ _ E1), (bind_run _ _ _ _ _ _ E2). reflexivity.
Qed.

Lemma for_fold_app {A B} (body : B -> A -> SE St B) e l1 l2 :
  forall acc s,
  for_fold (l1 ++ l2) acc body e s
  = match for_fold l1 acc body e s with
    | (Ok acc', s') => for_fold l2 acc' body e s'
    | (Raise x, s') => (Raise x, s')
    end.
Proof.
  induction l1 as [|x l1 IH]; simpl; intros acc s.
  - reflexivity.
  - unfold bind. destruct (body acc x e s) as [[acc'|y] s1].
    + apply IH.
    + reflexivity.
Qed.

(** A loop that returns has kept every invariant its steps keep. *)
Lemma for_fold_inv {A B} (P : list A -> B -> St -> Prop)
    (body : B -> A -> SE St B) e l :
  (forall done x acc s acc' s',
      P done acc s -> body acc x e s = (Ok acc', s') -> P (done ++ [x]) acc' s') ->
  forall done acc s r s',
  P done acc s -> for_fold l acc body e s = (Ok r, s') -> P (done ++ l) r s'.
Proof.
  intros Hstep. induction l as [|x l IH]; simpl; intros done acc s r s' HP E.
  - apply ret_ok_inv in E. destruct E as [-> ->]. now rewrite List.app_nil_r.
  - apply bind_ok_inv in E. destruct E as (acc' & s1 & E1 & E).
    replace (done ++ x :: l) with ((done ++ [x]) ++ l)
      by (rewrite <- app_assoc; reflexivity).
    eapply IH; [|exact E]. eapply Hstep; eauto.
Qed.

(** A loop whose steps all return does return. *)
Lemma for_fold_total {A B} (body : B -> A -> SE St B) e l :
  (forall x acc s, In x l -> exists acc' s', body acc x e s = (Ok acc', s')) ->
  forall acc s, exists r s', for_fold l acc body e s = (Ok r, s').
Proof.
  induction l as [|x l IH]; simpl; intros Hb acc s.
  - unfold ret. eauto.
  - destruct (Hb x acc s (or_introl eq_refl)) as (acc' & s1 & E1).
    rewrite (bind_run _ _ _ _ _ _ E1).
    apply IH. intros; apply Hb; auto.
Qed.

End Running.

(** ** The batched pipeline *)

Section Batched.

Variable e : Env.
Variable cfg : Config.
Variables dir name : string.
Variable width : nat.
Variables N B : Z.
Variable row : Z -> Gen record.

Let filename (k : Z) : string :=
  batch_filename dir name width k (extension cfg).

Let body (all_files : list string) (batch_num : Z) : IO (list string) :=
  let start_id := batch_num * B in
  let current_batch_size := Z.min B (N - start_id) in
  rows <- lift (map_m (fun i => row (start_id + i)) (py_range current_batch_size)) ;;
  filename <- save_batch cfg dir name width batch_num rows ;;
  ret (all_files ++ [filename]).

Lemma lift_inv {A} (g : Gen A) s r s' :
  lift g e s = (r, s') ->
  exists c', g e (cursors s) = (r, c')
             /\ s' = mkState c' (dirs s) (files s) (stdout s) (stderr s).
Proof.
  unfold lift. destruct (g e (cursors s)) as [r0 c']. intros [= <- <-]. eauto.
Qed.

Lemma forall2_id_range {A} (P : Z -> A -> Prop) start len ys :
  Forall2 (fun i y => P (start + i) y) (py_range len) ys ->
  Forall2 P (id_range start len) ys.
Proof.
  unfold id_range. generalize (py_range len) as l. intros l H.
  induction H; simpl; constructor; auto.
Qed.

(** One turn of the loop that returns has written the file of its batch. *)
Lemma body_ok all_files k s acc' s' :
  body all_files k e s = (Ok acc', s') ->
  exists rows,
    is_batch e cfg dir name width N B row k (filename k, rows)
    /\ acc' = all_files ++ [filename k]
    /\ dirs s' = dirs s /\ files s' = (filename k, rows) :: files s
    /\ stdout s' = stdout s /\ stderr s' = stderr s.
Proof.
  unfold body. intros E.
  apply bind_ok_inv in E. destruct E as (rows & s1 & E1 & E).
  apply bind_ok_inv in E. destruct E as (fn & s2 & E2 & E).
  apply ret_ok_inv in E. destruct E as [-> ->].
  apply lift_inv in E1. destruct E1 as (c' & Eg & ->).
  unfold save_batch in E2.
  apply bind_ok_inv in E2. destruct E2 as ([] & s3 & Ew & E2).
  apply ret_ok_inv in E2. destruct E2 as [-> ->].
  unfold write_table in Ew. simpl in Ew.
  destruct (unwritable e _); [discriminate|]. injection Ew as <-.
  exists rows. simpl. repeat split; try reflexivity.
  apply forall2_id_range.
  apply map_m_produces in Eg.
  eapply Forall2_impl; [|exact Eg]. simpl.
  intros i r (c1 & c2 & H). exists c1, c2. exact H.
Qed.

(** A pipeline that returns has created its directory and written, in the
    order of the batch numbers, one file for each batch of the chunker. *)
Lemma batched_ok s names s' :
  batched cfg dir name width N B row e s = (Ok names, s') ->
  B <> 0 /\ uncreatable e dir = false
  /\ exists new,
       adds dir new s s'
       /\ names = map fst new
       /\ Forall2 (is_batch e cfg dir name width N B row)
                  (py_range (num_batches N B)) new.
Proof.
  unfold batched. intros E.
  apply bind_ok_inv in E. destruct E as ([] & s1 & Em & E).
  apply bind_ok_inv in E. destruct E as (nb & s2 & Ed & E).
  unfold makedirs in Em. destruct (uncreatable e dir) eqn:Hu; [discriminate|].
  injection Em as <-.
  unfold floordiv in Ed. destruct (Z.eqb_spec B 0) as [|HB]; [discriminate|].
  apply ret_ok_inv in Ed. destruct Ed as [-> ->].
  split; [exact HB|]. split; [reflexivity|].
  fold body in E.
  pose (P := fun (done : list Z) (acc : list string) (st : State) =>
               dirs st = add_dir dir (dirs s)
               /\ stdout st = stdout s /\ stderr st = stderr s
               /\ exists new, files st = rev new ++ files s
                              /\ acc = map fst new
                              /\ Forall2 (is_batch e cfg dir name width N B row)
                                         done new).
  assert (HP : P ([] ++ py_range (num_batches N B)) names s').
  { eapply (for_fold_inv P); [| |exact E].
    - intros done k acc st acc' st' (Hd & Ho & He & new & Hf & Ha & Hb) Ek.
      apply body_ok in Ek.
      destruct Ek as (rows & Hrows & -> & Hd' & Hf' & Ho' & He').
      unfold P. rewrite Hd', Ho', He', Hf'. repeat split; try assumption.
      exists (new ++ [(filename k, rows)]).
      rewrite rev_app_distr, map_app, Hf, Ha. simpl. repeat split.
      apply Forall2_app; [assumption|]. constructor; [assumption | constructor].
    - unfold P. simpl. repeat split. exists []. simpl. repeat split. constructor. }
  destruct HP as (Hd & Ho & He & new & Hf & Ha & Hb).
  exists new. unfold adds. auto.
Qed.

(** With a batch size of zero the division raises, once the directory
    has been created. *)
Lemma batched_zero_division s :
  uncreatable e dir = false -> B = 0 ->
  batched cfg dir name width N B row e s
  = (Raise ZeroDivisionError,
     mkState (cursors s) (add_dir dir (dirs s)) (files s) (stdout s) (stderr s)).
Proof.
  intros Hu ->. unfold batched, bind, makedirs, floordiv. rewrite Hu. reflexivity.
Qed.

Hypothesis creatable : uncreatable e dir = false.
Hypothesis nonzero : B <> 0.
Hypothesis row_total : forall i c, exists r c', row i e c = (Ok r, c').

Lemma rows_total start len s :
  exists rows c',
    lift (map_m (fun i => row (start + i)) (py_range len)) e s
    = (Ok rows, mkState c' (dirs s) (files s) (stdout s) (stderr s)).
Proof.
  destruct (map_m_total (fun i => row (start + i)) e (py_range len)
              (fun x c _ => row_total (start + x) c) (cursors s)) as (rows & c' & E).
  exists rows, c'. unfold lift. now rewrite E.
Qed.

Lemma body_total all_files k s :
  unwritable e (filename k) = false ->
  exists acc' s', body all_files k e s = (Ok acc', s').
Proof.
  intros Hw. unfold body.
  destruct (rows_total (k * B) (Z.min B (N - k * B)) s) as (rows & c' & E).
  rewrite (bind_run _ _ _ _ _ _ E).
  unfold save_batch, bind, write_table, ret. fold (filename k). rewrite Hw. eauto.
Qed.

(** A pipeline whose files can all be written returns. *)
Lemma batched_total s :
  (forall k, 0 <= k < num_batches N B -> unwritable e (filename k) = false) ->
  exists names s', batched cfg dir name width N B row e s = (Ok names, s').
Proof.
  intros Hw. unfold batched, bind at 1, makedirs. rewrite creatable.
  unfold bind at 1, floordiv. destruct (Z.eqb_spec B 0) as [|_]; [contradiction|].
  unfold ret at 1. fold body.
  apply for_fold_total. intros k acc st Hk.
  apply body_total. apply Hw. apply in_py_range in Hk. exact Hk.
Qed.

Lemma py_range_split k n :
  0 <= k < n -> exists rest, py_range n = py_range k ++ k :: rest.
Proof.
  intros Hk. unfold py_range.
  replace (Z.to_nat n) with (Z.to_nat k + Datatypes.S (Z.to_nat (n - k - 1)))%nat by lia.
  rewrite seq_app, map_app. simpl. rewrite Z2Nat.id by lia. eauto.
Qed.

(** The first file that cannot be written ends the pipeline there: the
    batches before it are on disk, nothing comes after. *)
Lemma batched_write_failure s k :
  0 <= k < num_batches N B ->
  (forall j, 0 <= j < k -> unwritable e (filename j) = false) ->
  unwritable e (filename k) = true ->
  exists new s',
    batched cfg dir name width N B row e s = (Raise (OSError (filename k)), s')
    /\ adds dir new s s'
    /\ map fst new = map filename (py_range k).
Proof.
  intros Hk Hbefore Hfail. unfold batched, bind at 1, makedirs. rewrite creatable.
  unfold bind at 1, floordiv. destruct (Z.eqb_spec B 0) as [|_]; [contradiction|].
  unfold ret at 1. fold body.
  change ((N + B - 1) / B) with (num_batches N B).
  destruct (py_range_split k _ Hk) as (rest & ->).
  rewrite for_fold_app.
  set (s0 := mkState (cursors s) (add_dir dir (dirs s)) (files s)
                     (stdout s) (stderr s)).
  destruct (for_fold_total body e (py_range k)) with (acc := @nil string) (s := s0)
    as (acc & s1 & E1).
  { intros j acc st Hj. apply body_total. apply Hbefore.
    apply in_py_range in Hj. exact Hj. }
  rewrite E1.
  pose (P := fun (done : list Z) (acc : list string) (st : State) =>
               dirs st = dirs s0 /\ stdout st = stdout s /\ stderr st = stderr s
               /\ exists new, files st = rev new ++ files s
                              /\ map fst new = map filename done).
  assert (HP : P ([] ++ py_range k) acc s1).
  { eapply (for_fold_inv P); [| |exact E1].
    - intros done j a st a' st' (Hd & Ho & He & new & Hf & Hn) Ej.
      apply body_ok in Ej.
      destruct Ej as (rows & _ & _ & Hd' & Hf' & Ho' & He').
      unfold P. rewrite Hd', Ho', He', Hf'. repeat split; try assumption.
      exists (new ++ [(filename j, rows)]).
      rewrite rev_app_distr, !map_app, Hf, Hn. simpl. auto.
    - unfold P. simpl. repeat split. exists []. auto. }
  destruct HP as (Hd & Ho & He & new & Hf & Hn). simpl in Hn.
  destruct (rows_total (k * B) (Z.min B (N - k * B)) s1) as (rows & c' & E).
  exists new. eexists. split.
  - simpl. unfold bind at 1. unfold body at 1.
    rewrite (bind_run _ _ _ _ _ _ E).
    unfold save_batch, bind, write_table. fold (filename k). simpl. rewrite Hfail.
    reflexivity.
  - unfold adds. simpl. auto.
Qed.

End Batched.

(** ** The record synthesizers *)

(** Running a synthesizer on a symbolic state: the guards of [randint] and
    [choice] are the only branches. *)
Ltac run_gen :=
  cbv beta iota zeta delta
    [bind ret raise randint choice round_uniform fake now draw_random draw_fake
     date_between_years_ago fst snd rand_pos fake_pos ticks
     rand_tape fake_tape faker_text clock with_clock
     FirstPass.payment_methods Legacy.payment_methods].

Ltac split_guard :=
  match goal with
  | |- context [if ?b <? ?a then _ else _] => destruct (Z.ltb_spec b a)
  | |- context [match ?l with [] => _ | _ :: _ => _ end] =>
      let E := fresh "E" in destruct l eqn:E
  end.

Ltac run_row := run_gen; repeat (split_guard; run_gen; try discriminate).

Ltac unfold_rows :=
  unfold row_of,
    FirstPass.customer_row, FirstPass.product_row, FirstPass.sales_rep_row,
    FirstPass.transaction_row, Legacy.customer_row, Legacy.product_row,
    Legacy.sales_rep_row, Legacy.transaction_row.

Lemma ok_eq_inv {St A} (a b : A) (s t : St) :
  (Ok a, s) = (Ok b, t) -> a = b /\ s = t.
Proof. intros H. inversion H. auto. Qed.

Section Rows.

Variable cfg : Config.

(** Where a record is made, its identifier is the prefix of its entity
    type and the zero-padded number of its sequence position. *)
Lemma row_identifier p en i e c r c' :
  row_of p en cfg i e c = (Ok r, c') ->
  field (id_key en) r = Some (VStr (identifier p en (id_number p en i))).
Proof.
  destruct e as [rt ft fx ck uc uw], c as [rp fp tk].
  destruct p, en; unfold_rows; run_row;
    intros Hrun; apply ok_eq_inv in Hrun; destruct Hrun as [<- _]; reflexivity.
Qed.

Lemma row_total p en i e c :
  can_synthesize cfg -> exists r c', row_of p en cfg i e c = (Ok r, c').
Proof.
  intros (Hs & Hr & Hc & Hp & Hd & Hnc & Hnp & Hnr).
  destruct e as [rt ft fx ck uc uw], c as [rp fp tk].
  destruct p, en; unfold_rows; run_row;
    try contradiction; try lia; eauto.
Qed.

(** The customers and the products need less. *)
Lemma customer_row_total p i e c :
  CUSTOMER_SEGMENTS cfg <> [] -> REGIONS cfg <> [] -> COUNTRIES cfg <> [] ->
  exists r c', row_of p Customer cfg i e c = (Ok r, c').
Proof.
  intros Hs Hr Hc.
  destruct e as [rt ft fx ck uc uw], c as [rp fp tk].
  destruct p; unfold_rows; run_row; try contradiction; eauto.
Qed.

Lemma product_row_total p i e c :
  PRODUCT_CATEGORIES cfg <> [] ->
  exists r c', row_of p Product cfg i e c = (Ok r, c').
Proof.
  intros Hp.
  destruct e as [rt ft fx ck uc uw], c as [rp fp tk].
  destruct p; unfold_rows; run_row; try contradiction; try lia; eauto.
Qed.

(** The references of a transaction of the first definitions. *)
Lemma first_transaction_references i e c r c' :
  FirstPass.transaction_row cfg i e c = (Ok r, c') ->
  exists customer product sales_rep,
    0 <= customer < NUM_CUSTOMERS cfg
    /\ 0 <= product < NUM_PRODUCTS cfg
    /\ 0 <= sales_rep < NUM_SALES_REPS cfg
    /\ field "customer_id" r = Some (VStr ("CUST" ++ fmt_0d 8 customer))
    /\ field "product_id" r = Some (VStr ("PROD" ++ fmt_0d 8 product))
    /\ field "sales_rep_id" r = Some (VStr ("SREP" ++ fmt_0d 8 sales_rep)).
Proof.
  destruct e as [rt ft fx ck uc uw], c as [rp fp tk].
  unfold_rows; run_row.
  intros Hrun; apply ok_eq_inv in Hrun; destruct Hrun as [<- _].
  eexists _, _, _. repeat split; try reflexivity.
  all: match goal with
       | |- context [?x mod ?m] =>
           pose proof (Z.mod_pos_bound x m ltac:(lia)); lia
       end.
Qed.

(** The references of a transaction of the redefinitions: the sales
    representative is drawn from [1 .. NUM_SALES_REPS]. *)
Lemma legacy_transaction_references i e c r c' :
  Legacy.transaction_row cfg i e c = (Ok r, c') ->
  exists customer product sales_rep,
    0 <= customer < NUM_CUSTOMERS cfg
    /\ 0 <= product < NUM_PRODUCTS cfg
    /\ 1 <= sales_rep <= NUM_SALES_REPS cfg
    /\ field "customer_id" r = Some (VStr ("CUST" ++ fmt_0d 6 customer))
    /\ field "product_id" r = Some (VStr ("PROD" ++ fmt_0d 6 product))
    /\ field "sales_rep_id" r = Some (VStr ("SREP" ++ fmt_0d 4 sales_rep)).
Proof.
  destruct e as [rt ft fx ck uc uw], c as [rp fp tk].
  unfold_rows; run_row.
  intros Hrun; apply ok_eq_inv in Hrun; destruct Hrun as [<- _].
  eexists _, _, _. repeat split; try reflexivity.
  all: match goal with
       | |- context [?x mod ?m] =>
           pose proof (Z.mod_pos_bound x m ltac:(lia)); lia
       end.
Qed.

(** The quantity and the four amounts of a transaction are read from five
    different draws: the fifth to the ninth of the record. *)
Lemma first_transaction_amounts i e c r c' :
  FirstPass.transaction_row cfg i e c = (Ok r, c') ->
  let draw k := rand_tape e (k + rand_pos c)%nat in
  field "quantity" r = Some (VInt (1 + draw 4%nat mod 500))
  /\ field "unit_price" r = Some (VDec 2 (1000 + draw 5%nat mod 99001))
  /\ field "discount_percent" r = Some (VDec 2 (0 + draw 6%nat mod 5001))
  /\ field "tax_amount" r = Some (VDec 2 (1000 + draw 7%nat mod 99001))
  /\ field "total_amount" r = Some (VDec 2 (5000 + draw 8%nat mod 4995001)).
Proof.
  destruct e as [rt ft fx ck uc uw], c as [rp fp tk].
  unfold_rows; run_row.
  intros Hrun; apply ok_eq_inv in Hrun; destruct Hrun as [<- _].
  repeat split; reflexivity.
Qed.

Lemma legacy_transaction_amounts i e c r c' :
  Legacy.transaction_row cfg i e c = (Ok r, c') ->
  let draw k := rand_tape e (k + rand_pos c)%nat in
  field "quantity" r = Some (VInt (1 + draw 4%nat mod 100))
  /\ field "unit_price" r = Some (VDec 2 (1000 + draw 5%nat mod 99001))
  /\ field "discount_percent" r = Some (VDec 2 (0 + draw 6%nat mod 5001))
  /\ field "tax_amount" r = Some (VDec 2 (1000 + draw 7%nat mod 49001))
  /\ field "total_amount" r = Some (VDec 2 (5000 + draw 8%nat mod 995001)).
Proof.
  destruct e as [rt ft fx ck uc uw], c as [rp fp tk].
  unfold_rows; run_row.
  intros Hrun; apply ok_eq_inv in Hrun; destruct Hrun as [<- _].
  repeat split; reflexivity.
Qed.

End Rows.

(** ** The pipelines *)

Section Pipelines.

Variable cfg : Config.
Variable e : Env.

Lemma batch_ids_by_number N B :
  batch_ids N B
  = flat_map (fun k => id_range (k * B) (Z.min B (N - k * B)))
             (py_range (num_batches N B)).
Proof.
  unfold batch_ids, batch_ranges.
  rewrite !flat_map_concat_map, map_map. reflexivity.
Qed.

Lemma batches_concat dir name width N B row ks new :
  Forall2 (is_batch e cfg dir name width N B row) ks new ->
  map fst new = map (fun k => batch_filename dir name width k (extension cfg)) ks
  /\ Forall2 (fun i r => produces e (row i) r)
             (flat_map (fun k => id_range (k * B) (Z.min B (N - k * B))) ks)
             (List.concat (map snd new)).
Proof.
  induction 1 as [|k f ks new [Hn Hr] _ [IHn IHr]]; simpl.
  - split; constructor.
  - split; [now rewrite Hn, IHn | now apply Forall2_app].
Qed.

(** What a pipeline that returns has done: its directory exists, its files
    were written under their names and in their order, and the records in
    them are, in order, those of its sequence positions. *)
Lemma pipeline_ok p en s s' :
  pipeline p en cfg e s = (Ok tt, s') ->
  exists new,
    adds (output_dir en) new s s'
    /\ map fst new = file_names p en cfg
    /\ Forall2 (fun i r => produces e (row_of p en cfg i) r)
               (positions p en cfg) (List.concat (map snd new)).
Proof.
  assert (Hb : forall width row,
    (batched cfg (output_dir en) (stem en) width (count en cfg)
             (batch_size en cfg) row ;;; ret tt) e s = (Ok tt, s') ->
    exists new,
      adds (output_dir en) new s s'
      /\ map fst new
         = map (fun k => batch_filename (output_dir en) (stem en) width k
                                        (extension cfg))
               (py_range (num_batches (count en cfg) (batch_size en cfg)))
      /\ Forall2 (fun i r => produces e (row i) r)
                 (batch_ids (count en cfg) (batch_size en cfg))
                 (List.concat (map snd new))).
  { intros width row E.
    apply bind_ok_inv in E. destruct E as (names & s1 & E & Er).
    apply ret_ok_inv in Er. destruct Er as [_ ->].
    apply batched_ok in E. destruct E as (_ & _ & new & Ha & _ & Hf).
    apply batches_concat in Hf. destruct Hf as [Hn Hr].
    exists new. rewrite batch_ids_by_number. auto. }
  destruct p, en; try (exact (Hb _ _)).
  (* the redefined sales representatives: one file *)
  unfold pipeline, Legacy.generate_sales_reps. intros E.
  apply bind_ok_inv in E. destruct E as ([] & s1 & Em & E).
  apply bind_ok_inv in E. destruct E as (rows & s2 & El & Ew).
  unfold makedirs in Em. destruct (uncreatable e _); [discriminate|].
  apply ok_eq_inv in Em. destruct Em as [_ <-].
  apply lift_inv in El. destruct El as (c' & Eg & ->).
  unfold write_table in Ew. simpl in Ew. destruct (unwritable e _); [discriminate|].
  apply ok_eq_inv in Ew. destruct Ew as [_ <-].
  eexists [(_, rows)]. unfold adds. simpl. repeat split.
  rewrite List.app_nil_r. apply forall2_id_range.
  apply map_m_produces in Eg.
  eapply Forall2_impl; [|exact Eg]. simpl.
  intros i r (c1 & c2 & H). exists c1, c2. exact H.
Qed.

Lemma run_all_app ps qs s :
  run_all (ps ++ qs) e s
  = match run_all ps e s with
    | (Ok _, s') => run_all qs e s'
    | (Raise x, s') => (Raise x, s')
    end.
Proof.
  revert s. induction ps as [|p ps IH]; simpl; intros s.
  - reflexivity.
  - unfold bind. destruct (p e s) as [[[]|x] s1]; [apply IH | reflexivity].
Qed.


Lemma run_all_stops done p rest s s1 x s2 :
  run_all done e s = (Ok tt, s1) -> p e s1 = (Raise x, s2) ->
  run_all (done ++ p :: rest) e s = (Raise x, s2).
Proof.
  intros Ed Ep. rewrite run_all_app, Ed. simpl.
  now rewrite (bind_raise _ _ _ _ _ _ Ep).
Qed.

Lemma first_main_run_all s :
  FirstPass.main cfg e s = run_all (map (fun en => pipeline First en cfg) entities) e s.
Proof.
  unfold FirstPass.main. simpl. unfold bind, ret.
  destruct (FirstPass.generate_all_customers cfg e s) as [[?|?] s1]; [|reflexivity].
  destruct (FirstPass.generate_products cfg e s1) as [[?|?] s2]; [|reflexivity].
  destruct (FirstPass.generate_sales_reps cfg e s2) as [[?|?] s3]; [|reflexivity].
  destruct (FirstPass.generate_all_transactions cfg e s3) as [[?|?] s4]; reflexivity.
Qed.

Lemma legacy_main_run_all s :
  Legacy.main cfg e s = run_all (map (fun en => pipeline Redefined en cfg) entities) e s.
Proof.
  unfold Legacy.main. simpl. unfold bind, ret.
  destruct (Legacy.generate_all_customers cfg e s) as [[?|?] s1]; [|reflexivity].
  destruct (Legacy.generate_products cfg e s1) as [[?|?] s2]; [|reflexivity].
  destruct (Legacy.generate_sales_reps cfg e s2) as [[[]|?] s3]; [|reflexivity].
  destruct (Legacy.generate_all_transactions cfg e s3) as [[?|?] s4]; reflexivity.
Qed.

(** The script is its eight pipelines in a row, ended by the first
    exception. *)
Lemma complete_generator_run_all s :
  complete_generator cfg e s
  = match run_all (all_pipelines cfg) e (seed s) with
    | (Ok _, s') => (Completed, s')
    | (Raise x, s') => (SysExit 1, report x s')
    end.
Proof.
  unfold complete_generator, try_or_exit, all_pipelines.
  rewrite run_all_app, first_main_run_all.
  destruct (run_all (map (fun en => pipeline First en cfg) entities) e (seed s))
    as [[[]|x] s1]; [|reflexivity].
  rewrite legacy_main_run_all. reflexivity.
Qed.

End Pipelines.

(** ** What the files of a pipeline hold *)

Section Written.

Variable cfg : Config.
Variable e : Env.

Lemma forall2_in_right {A B} (P : A -> B -> Prop) l l' y :
  Forall2 P l l' -> In y l' -> exists x, In x l /\ P x y.
Proof.
  induction 1 as [|a b l l' Hab _ IH]; simpl; intros Hy.
  - contradiction.
  - destruct Hy as [<-|Hy].
    + exists a. auto.
    + destruct (IH Hy) as (x & Hx & HP). exists x. auto.
Qed.

(** A record of a file of a pipeline was made at one of its positions. *)
Lemma written_record_position p en (new : list (string * list record)) f r :
  Forall2 (fun i r => produces e (row_of p en cfg i) r)
          (positions p en cfg) (List.concat (map snd new)) ->
  In f new -> In r (snd f) ->
  exists i, In i (positions p en cfg) /\ produces e (row_of p en cfg i) r.
Proof.
  intros HF Hf Hr. apply (forall2_in_right _ _ _ r HF).
  apply in_concat. exists (snd f). split; [now apply in_map | exact Hr].
Qed.

(** The identifier column of the records made at the positions [l]. *)
Lemma column_of_positions p en l rows :
  Forall2 (fun i r => produces e (row_of p en cfg i) r) l rows ->
  column (id_key en) rows
  = map (fun i => Some (VStr (identifier p en (id_number p en i)))) l.
Proof.
  induction 1 as [|i r l rows (c & c' & Hr) _ IH]; simpl.
  - reflexivity.
  - rewrite (row_identifier cfg p en i e c r c' Hr). f_equal. exact IH.
Qed.

End Written.

(** Every transaction written by a transaction pipeline carries references
    drawn from the ranges of its [randint] calls. *)
Lemma written_transaction_references p cfg e s s' :
  pipeline p Transaction cfg e s = (Ok tt, s') ->
  exists new,
    adds (output_dir Transaction) new s s'
    /\ forall f r, In f new -> In r (snd f) ->
       exists customer product sales_rep,
         0 <= customer < NUM_CUSTOMERS cfg
         /\ 0 <= product < NUM_PRODUCTS cfg
         /\ match p with
            | First => 0 <= sales_rep < NUM_SALES_REPS cfg
            | Redefined => 1 <= sales_rep <= NUM_SALES_REPS cfg
            end
         /\ field "customer_id" r = Some (VStr (identifier p Customer customer))
         /\ field "product_id" r = Some (VStr (identifier p Product product))
         /\ field "sales_rep_id" r = Some (VStr (identifier p SalesRep sales_rep)).
Proof.
  intros E. apply pipeline_ok in E. destruct E as (new & Ha & _ & HF).
  exists new. split; [exact Ha|]. intros f r Hf Hr.
  destruct (written_record_position cfg e p Transaction new f r HF Hf Hr)
    as (i & _ & c & c' & Hrow).
  destruct p; simpl in Hrow.
  - apply first_transaction_references in Hrow. exact Hrow.
  - apply legacy_transaction_references in Hrow. exact Hrow.
Qed.


(** C2, as the code has it. Every transaction a transaction pipeline writes
    refers to a customer number of [[0, NUM_CUSTOMERS)] and a product number
    of [[0, NUM_PRODUCTS)]; its sales representative number is of
    [[0, NUM_SALES_REPS)] in the first definitions and of
    [[1, NUM_SALES_REPS]] in the redefinitions, whose sales representatives
    are numbered from one. *)
Theorem transaction_references_in_range p cfg e s s' :
  pipeline p Transaction cfg e s = (Ok tt, s') ->
  exists new,
    adds (output_dir Transaction) new s s'
    /\ forall f r, In f new -> In r (snd f) ->
       exists customer product sales_rep,
         0 <= customer < NUM_CUSTOMERS cfg
         /\ 0 <= product < NUM_PRODUCTS cfg
         /\ match p with
            | First => 0 <= sales_rep < NUM_SALES_REPS cfg
            | Redefined => 1 <= sales_rep <= NUM_SALES_REPS cfg
            end
         /\ field "customer_id" r = Some (VStr (identifier p Customer customer))
         /\ field "product_id" r = Some (VStr (identifier p Product product))
         /\ field "sales_rep_id" r = Some (VStr (identifier p SalesRep sales_rep)).
Proof.
  intros E. apply pipeline_ok in E. destruct E as (new & Ha & _ & HF).
  exists new. split; [exact Ha|]. intros f r Hf Hr.
  destruct (written_record_position cfg e p Transaction new f r HF Hf Hr)
    as (i & _ & c & c' & Hrow).
  destruct p; simpl in Hrow.
  - exact (first_transaction_references cfg i e c r c' Hrow).
  - exact (legacy_transaction_references cfg i e c r c' Hrow).
Qed.

Lemma transaction_references_in_range_witness :
  exists new,
    adds (output_dir Transaction) new fresh
         (snd (pipeline Redefined Transaction small_config sample_env fresh)).
Proof.
  destruct (transaction_references_in_range Redefined small_config sample_env fresh
              (snd (pipeline Redefined Transaction small_config sample_env fresh)))
    as (new & Ha & _).
  - vm_compute. reflexivity.
  - exists new. exact Ha.
Defined.

(** C2, as stated, fails in the second pass: with two sales representatives
    a transaction of the redefinitions refers to [SREP0002], and no number of
    [[0, 2)] is written that way, whatever the width. *)
Lemma legacy_sales_rep_reference_out_of_range :
  let s' := snd (complete_generator small_config sample_env fresh) in
  NUM_SALES_REPS small_config = 2
  /\ exists f r,
       In f (files s') /\ In r (snd f)
       /\ field "sales_rep_id" r = Some (VStr "SREP0002")
       /\ forall width k, 0 <= k < 2 -> "SREP0002" <> ("SREP" ++ fmt_0d width k)%string.
Proof.
  intros s'. split; [reflexivity|].
  assert (H : exists f r,
             nth_error (files s') 1 = Some f /\ nth_error (snd f) 0 = Some r
             /\ field "sales_rep_id" r = Some (VStr "SREP0002")).
  { vm_compute. eexists. eexists. repeat split; reflexivity. }
  destruct H as (f & r & Hf & Hr & Hfield).
  exists f, r. split; [exact (nth_error_In _ _ Hf)|].
  split; [exact (nth_error_In _ _ Hr)|]. split; [exact Hfield|].
  intros width k Hk Heq.
  assert (P : parse_decimal "0002" = Some (Z.to_N k)).
  { rewrite <- (parse_fmt_0d width k) by lia. f_equal.
    apply (append_inv_head "SREP"). exact Heq. }
  assert (Q : parse_decimal "0002" = Some 2%N) by reflexivity.
  rewrite Q in P. injection P. lia.
Qed.

(** ** Identifiers *)

Section Identifiers.

Lemma identifier_inj p en n m :
  0 <= n -> 0 <= m -> identifier p en n = identifier p en m -> n = m.
Proof.
  unfold identifier. intros Hn Hm E.
  apply append_inv_head in E. exact (fmt_0d_inj _ _ _ Hn Hm E).
Qed.

Lemma positions_range p en cfg :
  positions p en cfg
  = match p, en with
    | Redefined, SalesRep => id_range 0 (count en cfg)
    | _, _ => if 0 <? batch_size en cfg then id_range 0 (count en cfg) else []
    end.
Proof.
  unfold positions. destruct p, en; try apply batch_ids_all. reflexivity.
Qed.

Lemma positions_nonneg p en cfg i : In i (positions p en cfg) -> 0 <= i.
Proof.
  rewrite positions_range. intros H.
  assert (In i (id_range 0 (count en cfg))) as Hi.
  { destruct p, en; try exact H;
      destruct (0 <? batch_size _ cfg); try exact H; contradiction. }
  apply in_id_range in Hi. lia.
Qed.

Lemma NoDup_positions p en cfg : NoDup (positions p en cfg).
Proof.
  rewrite positions_range.
  destruct p, en; try apply NoDup_id_range;
    destruct (0 <? batch_size _ cfg); try apply NoDup_id_range; constructor.
Qed.

Lemma id_number_nonneg p en i : 0 <= i -> 0 <= id_number p en i.
Proof. destruct p, en; simpl; lia. Qed.

Lemma id_number_inj p en i j : id_number p en i = id_number p en j -> i = j.
Proof. destruct p, en; simpl; lia. Qed.

End Identifiers.

(** C6. The identifiers a pipeline writes, read through its files in
    order, are those of its sequence positions: the fixed prefix of the
    entity type followed by the zero-padded number of the position (the
    position plus one for the redefined sales representatives). They do not
    depend on any draw, the positions are [0 .. N-1] when the batch size is
    positive, and no identifier occurs twice. *)
Theorem identifiers_positional_and_distinct p en cfg e s s' :
  pipeline p en cfg e s = (Ok tt, s') ->
  exists new,
    adds (output_dir en) new s s'
    /\ column (id_key en) (List.concat (map snd new))
       = map (fun i => Some (VStr (id_prefix en
                                     ++ fmt_0d (id_width p en) (id_number p en i))))
             (positions p en cfg)
    /\ (0 < batch_size en cfg -> positions p en cfg = id_range 0 (count en cfg))
    /\ NoDup (column (id_key en) (List.concat (map snd new))).
Proof.
  intros E. apply pipeline_ok in E. destruct E as (new & Ha & _ & HF).
  exists new. split; [exact Ha|].
  pose proof (column_of_positions cfg e p en _ _ HF) as Hc.
  unfold identifier in Hc. split; [exact Hc|]. split.
  - intros HB. rewrite positions_range.
    destruct (Z.ltb_spec 0 (batch_size en cfg)); [|lia].
    destruct p, en; reflexivity.
  - rewrite Hc. apply Injective_map_NoDup_in; [|apply NoDup_positions].
    intros i j Hi Hj Eij. injection Eij as Eij.
    apply positions_nonneg in Hi, Hj.
    apply (id_number_inj p en).
    apply (identifier_inj p en); auto using id_number_nonneg.
Qed.

Lemma identifiers_positional_and_distinct_witness :
  exists new,
    adds (output_dir SalesRep) new fresh
         (snd (pipeline Redefined SalesRep small_config sample_env fresh))
    /\ column "sales_rep_id" (List.concat (map snd new))
       = [Some (VStr "SREP0001"); Some (VStr "SREP0002")].
Proof.
  destruct (identifiers_positional_and_distinct Redefined SalesRep small_config
              sample_env fresh
              (snd (pipeline Redefined SalesRep small_config sample_env fresh)))
    as (new & Ha & Hc & _).
  - vm_compute. reflexivity.
  - exists new. split; [exact Ha|]. refine (eq_trans Hc _). reflexivity.
Defined.

(** C10. The redefined [generate_sales_reps] writes one file,
    [sales_reps.parquet] or [sales_reps.csv], whose identifiers are
    [SREP0001], [SREP0002], ... up to the number [NUM_SALES_REPS]; and the
    [sales_rep_id] of every transaction the redefined
    [generate_all_transactions] writes is one of them. *)
Theorem legacy_sales_rep_references_exist cfg e s s1 s2 s3 :
  pipeline Redefined SalesRep cfg e s = (Ok tt, s1) ->
  pipeline Redefined Transaction cfg e s2 = (Ok tt, s3) ->
  exists reps txns,
    files s1
    = ((output_dir SalesRep ++ "/sales_reps."
        ++ (if (OUTPUT_FORMAT cfg =? "parquet")%string then "parquet" else "csv"))%string,
       reps) :: files s
    /\ column "sales_rep_id" reps
       = map (fun i => Some (VStr ("SREP" ++ fmt_0d 4 (i + 1))))
             (id_range 0 (NUM_SALES_REPS cfg))
    /\ adds (output_dir Transaction) txns s2 s3
    /\ forall f r, In f txns -> In r (snd f) ->
         In (field "sales_rep_id" r) (column "sales_rep_id" reps).
Proof.
  intros Er Et.
  apply pipeline_ok in Er. destruct Er as (new & (_ & Hf & _) & Hn & HF).
  destruct new as [|[name reps] [|? ?]]; try discriminate Hn.
  simpl in Hn, Hf, HF. rewrite List.app_nil_r in HF. injection Hn as ->.
  pose proof (column_of_positions cfg e Redefined SalesRep _ _ HF) as Hc.
  destruct (written_transaction_references _ _ _ _ _ Et) as (txns & Ha & Hrefs).
  exists reps, txns. split; [exact Hf|]. split; [exact Hc|]. split; [exact Ha|].
  intros f r Hin Hr.
  destruct (Hrefs f r Hin Hr) as (_ & _ & k & _ & _ & Hk & _ & _ & Hs).
  rewrite Hs. change (column "sales_rep_id" reps) with (column (id_key SalesRep) reps).
  rewrite Hc. apply in_map_iff. exists (k - 1). split.
  - unfold identifier. simpl. repeat f_equal. lia.
  - apply in_id_range. lia.
Qed.

Lemma legacy_sales_rep_references_exist_witness :
  exists (reps : list record) (txns : list (string * list record)),
    column "sales_rep_id" reps = [Some (VStr "SREP0001"); Some (VStr "SREP0002")]
    /\ forall f r, In f txns -> In r (snd f) ->
         In (field "sales_rep_id" r) (column "sales_rep_id" reps).
Proof.
  destruct (legacy_sales_rep_references_exist small_config sample_env fresh
              (snd (pipeline Redefined SalesRep small_config sample_env fresh))
              fresh
              (snd (pipeline Redefined Transaction small_config sample_env fresh)))
    as (reps & txns & _ & Hc & _ & Hin).
  - vm_compute. reflexivity.
  - vm_compute. reflexivity.
  - exists reps, txns. split; [refine (eq_trans Hc _); reflexivity | exact Hin].
Defined.

(** ** The amounts of a transaction *)

Lemma transaction_amounts p cfg i e c r c' :
  row_of p Transaction cfg i e c = (Ok r, c') ->
  let draw k := rand_tape e (k + rand_pos c)%nat in
  field "quantity" r = Some (VInt (1 + draw 4%nat mod quantity_max p))
  /\ field "unit_price" r = Some (VDec 2 (1000 + draw 5%nat mod 99001))
  /\ field "discount_percent" r = Some (VDec 2 (0 + draw 6%nat mod 5001))
  /\ field "tax_amount" r = Some (VDec 2 (1000 + draw 7%nat mod (tax_max p - 999)))
  /\ field "total_amount" r = Some (VDec 2 (5000 + draw 8%nat mod (total_max p - 4999))).
Proof.
  destruct p; simpl row_of; intros H.
  - exact (first_transaction_amounts cfg i e c r c' H).
  - exact (legacy_transaction_amounts cfg i e c r c' H).
Qed.

(** C8. In both definitions the quantity and the four amounts of a
    transaction are five separate draws of the random stream, each field
    computed from its own draw alone; and they are not tied by any relation:
    whatever quantity, unit price, discount, tax and total are picked in
    their ranges, some run makes a transaction with exactly these five
    values. In particular the total is not computed from the other four. *)
Theorem monetary_fields_independently_sampled p cfg i :
  (forall e c r c',
      row_of p Transaction cfg i e c = (Ok r, c') ->
      let draw k := rand_tape e (k + rand_pos c)%nat in
      field "quantity" r = Some (VInt (1 + draw 4%nat mod quantity_max p))
      /\ field "unit_price" r = Some (VDec 2 (1000 + draw 5%nat mod 99001))
      /\ field "discount_percent" r = Some (VDec 2 (0 + draw 6%nat mod 5001))
      /\ field "tax_amount" r
         = Some (VDec 2 (1000 + draw 7%nat mod (tax_max p - 999)))
      /\ field "total_amount" r
         = Some (VDec 2 (5000 + draw 8%nat mod (total_max p - 4999))))
  /\ (can_synthesize cfg ->
      forall quantity unit_price discount tax total,
        1 <= quantity <= quantity_max p ->
        1000 <= unit_price <= 100000 ->
        0 <= discount <= 5000 ->
        1000 <= tax <= tax_max p ->
        5000 <= total <= total_max p ->
        exists e c r c',
          row_of p Transaction cfg i e c = (Ok r, c')
          /\ field "quantity" r = Some (VInt quantity)
          /\ field "unit_price" r = Some (VDec 2 unit_price)
          /\ field "discount_percent" r = Some (VDec 2 discount)
          /\ field "tax_amount" r = Some (VDec 2 tax)
          /\ field "total_amount" r = Some (VDec 2 total)).
Proof.
  split; [intros e c r c'; apply transaction_amounts|].
  intros Hcfg q up d t tot Hq Hup Hd Ht Htot.
  pose (e := mkEnv (tape_of [0; 0; 0; 0; q - 1; up - 1000; d; t - 1000; tot - 5000])
                   (fun _ => 0) (fun _ _ => EmptyString) (fun _ => 0)
                   (fun _ => false) (fun _ => false)).
  pose (c := mkCursors 0 0 0).
  destruct (row_total cfg p Transaction i e c Hcfg) as (r & c' & Hrow).
  exists e, c, r, c'. split; [exact Hrow|].
  destruct (transaction_amounts p cfg i e c r c' Hrow) as (H1 & H2 & H3 & H4 & H5).
  rewrite H1, H2, H3, H4, H5. unfold e, c, tape_of. cbn [rand_tape rand_pos Nat.add nth].
  rewrite !Z.mod_small by (destruct p; simpl in *; lia).
  repeat split; do 2 f_equal; lia.
Qed.

Lemma monetary_fields_independently_sampled_witness :
  exists e c r c',
    row_of First Transaction small_config 0 e c = (Ok r, c')
    /\ field "quantity" r = Some (VInt 1)
    /\ field "unit_price" r = Some (VDec 2 1000)
    /\ field "discount_percent" r = Some (VDec 2 0)
    /\ field "tax_amount" r = Some (VDec 2 1000)
    /\ field "total_amount" r = Some (VDec 2 5000).
Proof.
  apply (proj2 (monetary_fields_independently_sampled First small_config 0));
    unfold can_synthesize; simpl; repeat split; try lia; discriminate.
Defined.

(** ** Batched pipelines *)

Lemma pipeline_batched p en cfg :
  (p, en) <> (Redefined, SalesRep) ->
  pipeline p en cfg
  = (batched cfg (output_dir en) (stem en) (index_width p) (count en cfg)
             (batch_size en cfg) (row_of p en cfg) ;;; ret tt).
Proof. destruct p, en; intros H; try reflexivity. now destruct H. Qed.

Lemma quick_gen_is_redefined_customers cfg :
  QuickGen.main cfg = pipeline Redefined Customer cfg.
Proof. reflexivity. Qed.

(** C4, as the code has it. With five customers in batches of two a
    customer pipeline goes through the ranges [[0,2)], [[2,4)], [[4,5)] and
    writes three files, of two, two and one records, whose identifiers are
    those of the positions 0-1, 2-3 and 4. The batch number in their names
    has five digits in the first definitions of complete_generator.py
    ([customers_batch_00000], ...), and three in its redefinitions and in
    quick_gen.py ([customers_batch_000], ...). *)
Theorem five_customers_in_batches_of_two p cfg e s :
  NUM_CUSTOMERS cfg = 5 -> CUSTOMER_BATCH_SIZE cfg = 2 ->
  CUSTOMER_SEGMENTS cfg <> [] -> REGIONS cfg <> [] -> COUNTRIES cfg <> [] ->
  uncreatable e "generated-data/customers" = false ->
  (forall file, unwritable e file = false) ->
  let file index :=
    ("generated-data/customers/customers_batch_" ++ index ++ "." ++ extension cfg)%string in
  let identifiers l :=
    map (fun i => Some (VStr ("CUST" ++ fmt_0d (id_width p Customer) i))) l in
  batch_ranges 5 2 = [(0, 2); (2, 2); (4, 1)]
  /\ QuickGen.main cfg = pipeline Redefined Customer cfg
  /\ exists rows0 rows1 rows2 s',
       pipeline p Customer cfg e s = (Ok tt, s')
       /\ files s'
          = match p with
            | First => [(file "00002", rows2); (file "00001", rows1); (file "00000", rows0)]
            | Redefined => [(file "002", rows2); (file "001", rows1); (file "000", rows0)]
            end ++ files s
       /\ column "customer_id" rows0 = identifiers [0; 1]
       /\ column "customer_id" rows1 = identifiers [2; 3]
       /\ column "customer_id" rows2 = identifiers [4].
Proof.
  intros HN HB Hs Hr Hc Hdir Hw file identifiers.
  split; [reflexivity|]. split; [reflexivity|].
  rewrite pipeline_batched by (destruct p; discriminate).
  simpl count. simpl batch_size. rewrite HN, HB.
  destruct (batched_total e cfg (output_dir Customer) (stem Customer) (index_width p)
              5 2 (row_of p Customer cfg) Hdir ltac:(lia)
              (fun i c => customer_row_total cfg p i e c Hs Hr Hc) s
              (fun k _ => Hw _))
    as (names & s' & E).
  rewrite (bind_run _ _ _ _ _ _ E). unfold ret.
  apply batched_ok in E. destruct E as (_ & _ & new & (_ & Hf & _) & _ & HF).
  change (py_range (num_batches 5 2)) with [0; 1; 2] in HF.
  inversion HF as [|k0 f0 ? ? [Hn0 Hr0] HF1]; subst; clear HF.
  inversion HF1 as [|k1 f1 ? ? [Hn1 Hr1] HF2]; subst; clear HF1.
  inversion HF2 as [|k2 f2 ? ? [Hn2 Hr2] HF3]; subst; clear HF2.
  inversion HF3; subst; clear HF3.
  destruct f0 as [n0 rows0], f1 as [n1 rows1], f2 as [n2 rows2].
  cbn [fst snd] in Hn0, Hn1, Hn2, Hr0, Hr1, Hr2. simpl in Hf. subst n0 n1 n2.
  pose proof (column_of_positions cfg e p Customer _ _ Hr0) as C0.
  pose proof (column_of_positions cfg e p Customer _ _ Hr1) as C1.
  pose proof (column_of_positions cfg e p Customer _ _ Hr2) as C2.
  exists rows0, rows1, rows2, s'. split; [reflexivity|]. split.
  - rewrite Hf. destruct p; reflexivity.
  - destruct p; repeat split; assumption.
Qed.

Lemma five_customers_in_batches_of_two_witness :
  exists rows0 rows1 rows2 s',
    pipeline Redefined Customer small_config sample_env fresh = (Ok tt, s')
    /\ files s'
       = [("generated-data/customers/customers_batch_002.parquet", rows2);
          ("generated-data/customers/customers_batch_001.parquet", rows1);
          ("generated-data/customers/customers_batch_000.parquet", rows0)]
    /\ List.length rows0 = 2%nat /\ List.length rows1 = 2%nat
    /\ List.length rows2 = 1%nat.
Proof.
  destruct (five_customers_in_batches_of_two Redefined small_config sample_env fresh
              eq_refl eq_refl ltac:(discriminate) ltac:(discriminate)
              ltac:(discriminate) eq_refl (fun _ => eq_refl))
    as (_ & _ & rows0 & rows1 & rows2 & s' & E & Hf & H0 & H1 & H2).
  exists rows0, rows1, rows2, s'. split; [exact E|]. split; [exact Hf|].
  apply (f_equal (@List.length _)) in H0, H1, H2.
  unfold column in H0, H1, H2. rewrite length_map in H0, H1, H2.
  repeat split; assumption.
Defined.

(** C4, as stated, fails on a run of complete_generator.py: its first
    customer pipeline names its files with five digits, and the run leaves
    six files of customers. *)
Lemma complete_generator_customer_file_names :
  NUM_CUSTOMERS small_config = 5 /\ CUSTOMER_BATCH_SIZE small_config = 2
  /\ filter (String.prefix "generated-data/customers/")
            (rev (map fst (files (snd (complete_generator small_config sample_env
                                                          fresh)))))
     = ["generated-data/customers/customers_batch_00000.parquet";
        "generated-data/customers/customers_batch_00001.parquet";
        "generated-data/customers/customers_batch_00002.parquet";
        "generated-data/customers/customers_batch_000.parquet";
        "generated-data/customers/customers_batch_001.parquet";
        "generated-data/customers/customers_batch_002.parquet"].
Proof.
  split; [reflexivity|]. split; [reflexivity|]. vm_compute. reflexivity.
Qed.

(** ** Invalid configurations *)

Section Unvalidated.

Variable cfg : Config.
Variable e : Env.

(** A batched pipeline with a batch size of zero raises when it divides,
    after its directory was created. *)
Lemma pipeline_zero_batch_size p en s :
  (p, en) <> (Redefined, SalesRep) ->
  uncreatable e (output_dir en) = false -> batch_size en cfg = 0 ->
  pipeline p en cfg e s
  = (Raise ZeroDivisionError,
     mkState (cursors s) (add_dir (output_dir en) (dirs s)) (files s)
             (stdout s) (stderr s)).
Proof.
  intros Hp Hu HB. rewrite pipeline_batched by exact Hp.
  apply bind_raise. now apply batched_zero_division.
Qed.

(** A batched pipeline with nothing to generate returns, its directory
    created and no file written. *)
Lemma pipeline_nothing_to_generate p en s :
  (p, en) <> (Redefined, SalesRep) ->
  uncreatable e (output_dir en) = false ->
  0 < batch_size en cfg -> count en cfg <= 0 ->
  pipeline p en cfg e s
  = (Ok tt,
     mkState (cursors s) (add_dir (output_dir en) (dirs s)) (files s)
             (stdout s) (stderr s)).
Proof.
  intros Hp Hu HB HN. rewrite pipeline_batched by exact Hp.
  unfold batched, bind at 1 2, makedirs, floordiv. rewrite Hu.
  destruct (Z.eqb_spec (batch_size en cfg) 0) as [|_]; [lia|].
  unfold bind at 1, ret at 1. rewrite py_range_nonpos; [reflexivity|].
  assert ((count en cfg + batch_size en cfg - 1) / batch_size en cfg < 1);
    [apply Z.div_lt_upper_bound|]; lia.
Qed.

End Unvalidated.

(** C3, as the code has it. Nothing validates the configuration before the
    pipelines start. A batch size of zero ends a batched pipeline with a
    [ZeroDivisionError], but only after it created its output directory, and
    the script then exits with code 1: with [CUSTOMER_BATCH_SIZE = 0]
    [generated-data/customers] is all that is created. A record count that is
    not positive is not an error of its pipeline: it creates its directory,
    writes no file and returns. *)
Theorem configuration_is_not_validated cfg e :
  (forall p en s,
      (p, en) <> (Redefined, SalesRep) ->
      uncreatable e (output_dir en) = false -> batch_size en cfg = 0 ->
      pipeline p en cfg e s
      = (Raise ZeroDivisionError,
         mkState (cursors s) (add_dir (output_dir en) (dirs s)) (files s)
                 (stdout s) (stderr s)))
  /\ (forall s,
        uncreatable e "generated-data/customers" = false ->
        CUSTOMER_BATCH_SIZE cfg = 0 ->
        exists s',
          complete_generator cfg e s = (SysExit 1, s')
          /\ dirs s' = add_dir "generated-data/customers" (dirs s)
          /\ files s' = files s)
  /\ (forall p en s,
        (p, en) <> (Redefined, SalesRep) ->
        uncreatable e (output_dir en) = false ->
        0 < batch_size en cfg -> count en cfg <= 0 ->
        pipeline p en cfg e s
        = (Ok tt,
           mkState (cursors s) (add_dir (output_dir en) (dirs s)) (files s)
                   (stdout s) (stderr s))).
Proof.
  split; [intros; now apply pipeline_zero_batch_size|].
  split; [|intros; now apply pipeline_nothing_to_generate].
  intros s Hu HB.
  rewrite complete_generator_run_all.
  pose proof (run_all_stops e [] (pipeline First Customer cfg)
                (tl (all_pipelines cfg)) (seed s) (seed s) ZeroDivisionError _ eq_refl
                (pipeline_zero_batch_size cfg e First Customer (seed s)
                   ltac:(discriminate) Hu HB)) as E.
  change ([] ++ pipeline First Customer cfg :: tl (all_pipelines cfg))
    with (all_pipelines cfg) in E.
  rewrite E. eexists. split; [reflexivity|]. split; reflexivity.
Qed.

Lemma configuration_is_not_validated_witness :
  exists s',
    complete_generator zero_batch_config sample_env fresh = (SysExit 1, s')
    /\ dirs s' = ["generated-data/customers"]
    /\ files s' = [].
Proof.
  exact (proj1 (proj2 (configuration_is_not_validated zero_batch_config sample_env))
               fresh eq_refl eq_refl).
Defined.

(** C3, as stated, fails: with a batch size of zero the run exits with
    code 1 after it created [generated-data/customers]; and with record
    counts of zero nothing fails at all, the run creating its four
    directories and an empty table of sales representatives. *)
Lemma invalid_configuration_creates_output :
  CUSTOMER_BATCH_SIZE zero_batch_config = 0
  /\ (let r := complete_generator zero_batch_config sample_env fresh in
      exit_code (fst r) = 1 /\ dirs (snd r) = ["generated-data/customers"])
  /\ NUM_CUSTOMERS zero_count_config = 0
  /\ (let r := complete_generator zero_count_config sample_env fresh in
      exit_code (fst r) = 0
      /\ dirs (snd r) = ["generated-data/transactions"; "generated-data/sales-reps";
                         "generated-data/products"; "generated-data/customers"]
      /\ files (snd r) = [("generated-data/sales-reps/sales_reps.parquet", [])]).
Proof.
  split; [reflexivity|]. split; [vm_compute; split; reflexivity|].
  split; [reflexivity|]. vm_compute. repeat split; reflexivity.
Qed.

(** ** The exit status *)

Lemma run_all_first_pass_products cfg e s s1 x s2 :
  pipeline First Customer cfg e (seed s) = (Ok tt, s1) ->
  pipeline First Product cfg e s1 = (Raise x, s2) ->
  complete_generator cfg e s = (SysExit 1, report x s2).
Proof.
  intros Ec Ep. rewrite complete_generator_run_all.
  pose proof (run_all_stops e [pipeline First Customer cfg]
                (pipeline First Product cfg) (tl (tl (all_pipelines cfg)))
                (seed s) s1 x s2) as E.
  change ([pipeline First Customer cfg] ++
          pipeline First Product cfg :: tl (tl (all_pipelines cfg)))
    with (all_pipelines cfg) in E.
  rewrite E; [reflexivity| |exact Ep].
  simpl. rewrite (bind_run _ _ _ _ _ _ Ec). reflexivity.
Qed.

(** C7. The script ends with exit code 0 only when all its pipelines
    returned, the four of each pass in a row. When one of them raises, the
    pipelines before it having returned, the script exits with code 1, the
    state is the one the exception left, with the message on the standard
    output and the message and stack trace on the error stream: no later
    pipeline has run. Such is the case when the second batch of products
    cannot be written: the run ends with the customers and the first batch of
    products on disk, and neither a directory nor a file of the sales
    representatives or the transactions. *)
Theorem exit_status_contract cfg e s :
  (forall s',
      complete_generator cfg e s = (Completed, s') ->
      run_all (all_pipelines cfg) e (seed s) = (Ok tt, s'))
  /\ (forall done p rest s1 x s2,
        all_pipelines cfg = done ++ p :: rest ->
        run_all done e (seed s) = (Ok tt, s1) ->
        p e s1 = (Raise x, s2) ->
        exit_code (fst (complete_generator cfg e s)) = 1
        /\ stderr (snd (complete_generator cfg e s))
           = stderr s2
             ++ [("Traceback (most recent call last): " ++ exn_message x)%string]
        /\ dirs (snd (complete_generator cfg e s)) = dirs s2
        /\ files (snd (complete_generator cfg e s)) = files s2)
  /\ (forall s1,
        pipeline First Customer cfg e (seed s) = (Ok tt, s1) ->
        PRODUCT_CATEGORIES cfg <> [] ->
        uncreatable e "generated-data/products" = false ->
        1 < num_batches (NUM_PRODUCTS cfg) (PRODUCT_BATCH_SIZE cfg) ->
        let file k :=
          batch_filename "generated-data/products" "products_batch" 5 k (extension cfg) in
        unwritable e (file 0) = false ->
        unwritable e (file 1) = true ->
        exists rows s',
          complete_generator cfg e s = (SysExit 1, s')
          /\ dirs s' = add_dir "generated-data/products" (dirs s1)
          /\ files s' = (file 0, rows) :: files s1
          /\ stderr s'
             = stderr s1
               ++ [("Traceback (most recent call last): "
                    ++ exn_message (OSError (file 1)))%string]).
Proof.
  repeat split.
  - intros s' E. rewrite complete_generator_run_all in E.
    destruct (run_all (all_pipelines cfg) e (seed s)) as [[[]|x] s1];
      [|discriminate]. injection E as <-. reflexivity.
  - rewrite complete_generator_run_all, H, (run_all_stops e _ _ _ _ _ _ _ H0 H1).
    reflexivity.
  - rewrite complete_generator_run_all, H, (run_all_stops e _ _ _ _ _ _ _ H0 H1).
    reflexivity.
  - rewrite complete_generator_run_all, H, (run_all_stops e _ _ _ _ _ _ _ H0 H1).
    reflexivity.
  - rewrite complete_generator_run_all, H, (run_all_stops e _ _ _ _ _ _ _ H0 H1).
    reflexivity.
  - intros s1 Ec Hcat Hdir Hnb file Hw0 Hw1.
    assert (HB : PRODUCT_BATCH_SIZE cfg <> 0).
    { intros HB. rewrite HB in Hnb. unfold num_batches in Hnb.
      rewrite Z.div_0_r in Hnb. lia. }
    destruct (batched_write_failure e cfg (output_dir Product) (stem Product) 5
                (NUM_PRODUCTS cfg) (PRODUCT_BATCH_SIZE cfg)
                (row_of First Product cfg) Hdir HB
                (fun i c => product_row_total cfg First i e c Hcat) s1 1)
      as (new & s2 & E & (Hd & Hf & Ho & He) & Hn).
    + lia.
    + intros j Hj. assert (j = 0) as -> by lia. exact Hw0.
    + exact Hw1.
    + change (py_range 1) with [0] in Hn.
      destruct new as [|[n0 rows] [|? ?]]; try discriminate Hn.
      simpl in Hn. injection Hn as ->. simpl in Hf.
      exists rows, (report (OSError (file 1)) s2). split.
      * apply (run_all_first_pass_products cfg e s s1); [exact Ec|].
        rewrite pipeline_batched by discriminate. apply bind_raise. exact E.
      * simpl. rewrite Hd, Hf, He. repeat split.
Qed.

Lemma exit_status_contract_witness :
  exists rows s',
    complete_generator small_config disk_full_env fresh = (SysExit 1, s')
    /\ dirs s' = ["generated-data/products"; "generated-data/customers"]
    /\ map fst (files s')
       = ["generated-data/products/products_batch_00000.parquet";
          "generated-data/customers/customers_batch_00002.parquet";
          "generated-data/customers/customers_batch_00001.parquet";
          "generated-data/customers/customers_batch_00000.parquet"]
    /\ hd_error (files s')
       = Some ("generated-data/products/products_batch_00000.parquet", rows).
Proof.
  destruct (proj2 (proj2 (exit_status_contract small_config disk_full_env fresh))
              (snd (pipeline First Customer small_config disk_full_env (seed fresh))))
    as (rows & s' & E & Hd & Hf & _).
  - vm_compute. reflexivity.
  - discriminate.
  - reflexivity.
  - vm_compute. reflexivity.
  - reflexivity.
  - reflexivity.
  - exists rows, s'. split; [exact E|]. rewrite Hd, Hf.
    split; [vm_compute; reflexivity|]. split; [|reflexivity].
    vm_compute. reflexivity.
Defined.

(** ** The file names of the two passes *)

Section FileNames.

Lemma append_inv_tail (s s' t : string) : (s ++ t = s' ++ t)%string -> s = s'.
Proof.
  revert s'. induction s as [|a s IH]; intros [|b s']; simpl; intros E.
  - reflexivity.
  - apply (f_equal String.length) in E. simpl in E. rewrite length_append in E. lia.
  - apply (f_equal String.length) in E. simpl in E. rewrite length_append in E. lia.
  - injection E as -> E. f_equal. exact (IH _ E).
Qed.

Lemma decimal_length_below_10000 k :
  0 <= k < 10000 -> (String.length (decimal (Z.abs_N k)) <= 4)%nat.
Proof.
  intros Hk.
  assert (H : forallb (fun k => String.length (decimal (Z.abs_N k)) <=? 4)%nat
                      (py_range 10000) = true) by (vm_compute; reflexivity).
  rewrite forallb_forall in H. apply Nat.leb_le, H, in_py_range, Hk.
Qed.

(** Below 10000 the five-digit and the three-digit batch numbers differ. *)
Lemma batch_number_widths_differ k k' :
  0 <= k < 10000 -> 0 <= k' -> fmt_0d 5 k <> fmt_0d 3 k'.
Proof.
  intros Hk Hk' E.
  assert (k = k') as <-.
  { pose proof (parse_fmt_0d 5 k ltac:(lia)) as P.
    rewrite E, parse_fmt_0d in P by lia. injection P. lia. }
  apply (f_equal String.length) in E.
  rewrite !length_fmt_0d in E by lia.
  pose proof (decimal_length_below_10000 k Hk). lia.
Qed.

Lemma batch_filename_inj dir name w w' k k' ext :
  batch_filename dir name w k ext = batch_filename dir name w' k' ext ->
  fmt_0d w k = fmt_0d w' k'.
Proof.
  unfold batch_filename. intros E.
  do 4 apply append_inv_head in E.
  exact (append_inv_tail _ _ _ E).
Qed.

(** While a pipeline has at most 10000 batches, no file name of the first
    pass is a file name of the second. *)
Lemma passes_file_names_disjoint cfg en f :
  num_batches (count en cfg) (batch_size en cfg) <= 10000 ->
  In f (file_names First en cfg) -> In f (file_names Redefined en cfg) -> False.
Proof.
  intros Hnb H1 H2.
  assert (exists k, 0 <= k < 10000
                    /\ f = batch_filename (output_dir en) (stem en) 5 k (extension cfg))
    as (k & Hk & ->).
  { assert (In f (map (fun k => batch_filename (output_dir en) (stem en) 5 k
                                               (extension cfg))
                      (py_range (num_batches (count en cfg) (batch_size en cfg)))))
      as Hin by (destruct en; exact H1).
    apply in_map_iff in Hin. destruct Hin as (k & <- & Hk).
    apply in_py_range in Hk. exists k. split; [lia | reflexivity]. }
  destruct en;
    try (apply in_map_iff in H2; destruct H2 as (k' & E & Hk');
         apply in_py_range in Hk'; symmetry in E;
         apply batch_filename_inj in E;
         exact (batch_number_widths_differ k k' Hk ltac:(lia) E)).
  simpl in H2. destruct H2 as [E|[]].
  unfold batch_filename in E. simpl in E. discriminate E.
Qed.

(** Pipelines only add files. *)
Lemma run_pipelines_files cfg e l :
  forall s s',
  run_all (map (fun pe => pipeline (fst pe) (snd pe) cfg) l) e s = (Ok tt, s') ->
  (forall f, In f (map fst (files s)) -> In f (map fst (files s')))
  /\ (forall pe f, In pe l -> In f (file_names (fst pe) (snd pe) cfg) ->
        In f (map fst (files s'))).
Proof.
  induction l as [|[p en] l IH]; simpl; intros s s' E.
  - apply ret_ok_inv in E. destruct E as [_ ->]. split; [auto | contradiction].
  - apply bind_ok_inv in E. destruct E as ([] & s1 & Ep & E).
    destruct (IH _ _ E) as [Hmono Hnew].
    apply pipeline_ok in Ep. destruct Ep as (new & (_ & Hf & _) & Hn & _).
    assert (Hs1 : forall f, In f (map fst (files s)) \/ In f (file_names p en cfg) ->
                            In f (map fst (files s1))).
    { intros f Hf'. rewrite Hf, map_app, map_rev, Hn. apply in_app_iff.
      destruct Hf'; [right | left; apply in_rev; rewrite rev_involutive]; assumption. }
    split.
    + intros f Hin. apply Hmono, Hs1. auto.
    + intros pe f [<-|Hpe] Hin.
      * apply Hmono, Hs1. auto.
      * exact (Hnew pe f Hpe Hin).
Qed.

End FileNames.

(** A run that completes leaves the files of all its pipelines. *)
Lemma complete_generator_leaves_files cfg e s s' :
  complete_generator cfg e s = (Completed, s') ->
  forall p en f, In f (file_names p en cfg) -> In f (map fst (files s')).
Proof.
  intros E p en f Hf.
  rewrite complete_generator_run_all in E.
  destruct (run_all (all_pipelines cfg) e (seed s)) as [[[]|x] s1] eqn:Er;
    [|discriminate].
  injection E as <-.
  change (all_pipelines cfg)
    with (map (fun pe => pipeline (fst pe) (snd pe) cfg) pipeline_order) in Er.
  apply run_pipelines_files in Er. destruct Er as [_ Hnew].
  apply (Hnew (p, en)); [|exact Hf].
  destruct p, en; simpl; auto 10.
Qed.

(** ** Runs that complete *)

Section Completes.

Variable cfg : Config.
Variable e : Env.
Hypothesis synthesizes : can_synthesize cfg.
Hypothesis creates : forall path, uncreatable e path = false.
Hypothesis writes : forall path, unwritable e path = false.

Lemma pipeline_total p en s :
  batch_size en cfg <> 0 -> exists s', pipeline p en cfg e s = (Ok tt, s').
Proof.
  intros HB.
  assert (Hb : forall width,
    exists s',
      (batched cfg (output_dir en) (stem en) width (count en cfg) (batch_size en cfg)
               (row_of p en cfg) ;;; ret tt) e s = (Ok tt, s')).
  { intros width.
    destruct (batched_total e cfg (output_dir en) (stem en) width (count en cfg)
                (batch_size en cfg) (row_of p en cfg) (creates _) HB
                (fun i c => row_total cfg p en i e c synthesizes) s
                (fun k _ => writes _)) as (names & s' & E).
    exists s'. rewrite (bind_run _ _ _ _ _ _ E). reflexivity. }
  destruct p, en; try exact (Hb _).
  unfold pipeline, Legacy.generate_sales_reps, bind at 1, makedirs.
  rewrite creates.
  destruct (map_m_total (Legacy.sales_rep_row cfg) e (py_range (NUM_SALES_REPS cfg))
              (fun i c _ => row_total cfg Redefined SalesRep i e c synthesizes)
              (cursors s)) as (rows & c' & E).
  unfold bind, lift, write_table. simpl. rewrite E, writes. eauto.
Qed.

Lemma run_all_total l :
  Forall (fun pe => batch_size (snd pe) cfg <> 0) l ->
  forall s, exists s',
    run_all (map (fun pe => pipeline (fst pe) (snd pe) cfg) l) e s = (Ok tt, s').
Proof.
  induction 1 as [|[p en] l HB _ IH]; simpl; intros s.
  - unfold ret. eauto.
  - destruct (pipeline_total p en s HB) as (s1 & E).
    rewrite (bind_run _ _ _ _ _ _ E). apply IH.
Qed.

(** With a configuration whose records can all be synthesized, batch sizes
    other than zero and a file system that refuses nothing, the script runs
    to its end. *)
Lemma complete_generator_completes s :
  CUSTOMER_BATCH_SIZE cfg <> 0 -> PRODUCT_BATCH_SIZE cfg <> 0 ->
  TRANSACTION_BATCH_SIZE cfg <> 0 ->
  exists s', complete_generator cfg e s = (Completed, s').
Proof.
  intros Hc Hp Ht. rewrite complete_generator_run_all.
  change (all_pipelines cfg)
    with (map (fun pe => pipeline (fst pe) (snd pe) cfg) pipeline_order).
  destruct (run_all_total pipeline_order) with (s := seed s) as (s' & E).
  { unfold pipeline_order. repeat constructor; assumption. }
  rewrite E. eauto.
Qed.

End Completes.

(** C9, as the code has it. When the first main block completes, the
    script goes on with the redefinitions and the second main block. The
    two passes differ: their identifiers at the first position already do,
    and as long as a pipeline has at most 10000 batches none of its file
    names in the first pass is one of the second pass. A run that completes
    leaves the files of both passes. *)
Theorem second_pass_writes_other_files cfg e s :
  (forall s1,
      try_or_exit (FirstPass.main cfg) e (seed s) = (Completed, s1) ->
      complete_generator cfg e s = try_or_exit (Legacy.main cfg) e s1)
  /\ (forall en,
        identifier First en (id_number First en 0)
        <> identifier Redefined en (id_number Redefined en 0))
  /\ (forall en k,
        0 <= k < 10000 ->
        batch_filename (output_dir en) (stem en) (index_width First) k (extension cfg)
        <> batch_filename (output_dir en) (stem en) (index_width Redefined) k
                          (extension cfg))
  /\ (forall en f,
        num_batches (count en cfg) (batch_size en cfg) <= 10000 ->
        In f (file_names First en cfg) -> ~ In f (file_names Redefined en cfg))
  /\ (forall s',
        complete_generator cfg e s = (Completed, s') ->
        forall p en f, In f (file_names p en cfg) -> In f (map fst (files s'))).
Proof.
  split; [|split; [|split; [|split]]].
  - intros s1 E. unfold complete_generator. rewrite E. reflexivity.
  - intros en. destruct en; discriminate.
  - intros en k Hk E. apply batch_filename_inj in E.
    exact (batch_number_widths_differ k k Hk ltac:(lia) E).
  - intros en f Hnb H1 H2. exact (passes_file_names_disjoint cfg en f Hnb H1 H2).
  - intros s' E. exact (complete_generator_leaves_files cfg e s s' E).
Qed.

Lemma second_pass_writes_other_files_witness :
  "generated-data/customers/customers_batch_00002.parquet"
  <> "generated-data/customers/customers_batch_002.parquet"
  /\ In "generated-data/customers/customers_batch_00002.parquet"
        (map fst (files (snd (complete_generator small_config sample_env fresh))))
  /\ In "generated-data/customers/customers_batch_002.parquet"
        (map fst (files (snd (complete_generator small_config sample_env fresh)))).
Proof.
  destruct (second_pass_writes_other_files small_config sample_env fresh)
    as (_ & _ & Hdiff & _ & Hall).
  split; [exact (Hdiff Customer 2 ltac:(lia))|].
  assert (E : complete_generator small_config sample_env fresh
              = (Completed, snd (complete_generator small_config sample_env fresh)))
    by (vm_compute; reflexivity).
  split.
  - apply (Hall _ E First Customer). vm_compute. auto.
  - apply (Hall _ E Redefined Customer). vm_compute. auto.
Defined.

(** C9, as stated, fails from the batch number 10000 on, where both
    widths give the same digits: with 10001 batches of customers the run
    completes, and [customers_batch_10000.parquet] is a file name of the first
    pass and of the second. *)
Lemma batch_10000_has_one_name_in_both_passes :
  let name := "generated-data/customers/customers_batch_10000.parquet" in
  batch_filename (output_dir Customer) (stem Customer) (index_width First) 10000
                 (extension many_batches_config) = name
  /\ batch_filename (output_dir Customer) (stem Customer) (index_width Redefined) 10000
                    (extension many_batches_config) = name
  /\ In name (file_names First Customer many_batches_config)
  /\ In name (file_names Redefined Customer many_batches_config)
  /\ exists s',
       complete_generator many_batches_config quiet_env fresh = (Completed, s')
       /\ In name (map fst (files s')).
Proof.
  intros name.
  assert (H1 : In name (file_names First Customer many_batches_config)).
  { apply in_map_iff. exists 10000. split; [reflexivity|]. apply in_py_range.
    change (0 <= 10000 < 10001). lia. }
  assert (H2 : In name (file_names Redefined Customer many_batches_config)).
  { apply in_map_iff. exists 10000. split; [reflexivity|]. apply in_py_range.
    change (0 <= 10000 < 10001). lia. }
  split; [reflexivity|]. split; [reflexivity|]. split; [exact H1|]. split; [exact H2|].
  assert (Hs : can_synthesize many_batches_config).
  { unfold can_synthesize. simpl. repeat split; try discriminate; lia. }
  destruct (complete_generator_completes many_batches_config quiet_env Hs
              (fun _ => eq_refl) (fun _ => eq_refl) fresh
              ltac:(discriminate) ltac:(discriminate) ltac:(discriminate))
    as (s' & E).
  exists s'. split; [exact E|].
  exact (complete_generator_leaves_files _ _ _ _ E First Customer name H1).
Qed.

(** ** Two runs from the same seed *)

Section Related.

Context {St : Type}.
Variables e1 e2 : Env.
Variable RS : St -> St -> Prop.

Lemma related_ret {A} (R : A -> A -> Prop) a b :
  R a b -> related e1 e2 RS R (ret a) (ret b).
Proof. intros HR s t Hst. simpl. auto. Qed.

Lemma related_bind {A B} (RA : A -> A -> Prop) (RB : B -> B -> Prop)
    (m1 m2 : SE St A) (k1 k2 : A -> SE St B) :
  related e1 e2 RS RA m1 m2 ->
  (forall a b, RA a b -> related e1 e2 RS RB (k1 a) (k2 b)) ->
  related e1 e2 RS RB (bind m1 k1) (bind m2 k2).
Proof.
  intros Hm Hk s t Hst. specialize (Hm s t Hst). unfold bind.
  destruct (m1 e1 s) as [[a|x] s1], (m2 e2 t) as [[b|y] t1]; simpl in Hm;
    try contradiction.
  - destruct Hm as [Hab Hs1]. exact (Hk a b Hab s1 t1 Hs1).
  - exact Hm.
Qed.

Lemma related_map_m {A B} (R : B -> B -> Prop) (f g : A -> SE St B) l :
  (forall x, related e1 e2 RS R (f x) (g x)) ->
  related e1 e2 RS (Forall2 R) (map_m f l) (map_m g l).
Proof.
  intros Hf. induction l as [|x l IH]; simpl.
  - apply related_ret. constructor.
  - apply (related_bind R); [apply Hf|]. intros y y' Hy.
    apply (related_bind (Forall2 R)); [exact IH|]. intros ys ys' Hys.
    apply related_ret. constructor; assumption.
Qed.

Lemma related_for_fold {A B} (RB : B -> B -> Prop) (body1 body2 : B -> A -> SE St B) l :
  (forall acc1 acc2 x, RB acc1 acc2 ->
      related e1 e2 RS RB (body1 acc1 x) (body2 acc2 x)) ->
  forall acc1 acc2, RB acc1 acc2 ->
  related e1 e2 RS RB (for_fold l acc1 body1) (for_fold l acc2 body2).
Proof.
  intros Hb. induction l as [|x l IH]; simpl; intros acc1 acc2 Hacc.
  - now apply related_ret.
  - apply (related_bind RB); [now apply Hb|]. intros a b Hab. now apply IH.
Qed.

Lemma related_floordiv a b :
  related e1 e2 RS eq (floordiv a b) (floordiv a b).
Proof.
  intros s t Hst. unfold floordiv. destruct (b =? 0); simpl; auto.
Qed.

End Related.

Section TwoRuns.

Variable cfg : Config.
Variable e : Env.
Variable clock2 : nat -> Z.
Hypothesis days : same_days (clock e) clock2.

Let e2 : Env := with_clock clock2 e.

(** A record of the second run is the record of the first, but for its
    [created_at]. *)
Lemma related_row p en i :
  related e e2 eq same_record (row_of p en cfg i) (row_of p en cfg i).
Proof.
  intros c c0 <-. unfold e2. clear e2. revert days.
  destruct e as [rt ft fx ck uc uw], c as [rp fp tk].
  unfold same_days. cbn [clock]. intros Hdays. unfold alike.
  destruct p, en; unfold_rows; run_row;
    (split; [|reflexivity]);
    unfold same_record, without_created_at;
    cbv [filter fst negb String.eqb Ascii.eqb Bool.eqb];
    rewrite ?Hdays; reflexivity.
Qed.

Lemma related_lift {A} (R : A -> A -> Prop) (g1 g2 : Gen A) :
  related e e2 eq R g1 g2 -> related e e2 same_tables R (lift g1) (lift g2).
Proof.
  intros Hg s t (Hc & Hd & Hf & Ho & He). specialize (Hg (cursors s) (cursors t) Hc).
  unfold lift.
  destruct (g1 e (cursors s)) as [[a|x] c1], (g2 e2 (cursors t)) as [[b|y] c2];
    simpl in *; try contradiction;
    destruct Hg as [H1 H2]; (split; [exact H1|]); unfold same_tables; simpl;
    repeat split; auto.
Qed.

Lemma related_makedirs path :
  related e e2 same_tables eq (makedirs path) (makedirs path).
Proof.
  intros s t (Hc & Hd & Hf & Ho & He). unfold makedirs, e2. simpl.
  destruct (uncreatable e path); simpl; unfold same_tables; simpl;
    rewrite ?Hd; repeat split; auto.
Qed.

Lemma related_write_table filename rows1 rows2 :
  Forall2 same_record rows1 rows2 ->
  related e e2 same_tables eq (write_table filename rows1) (write_table filename rows2).
Proof.
  intros Hrows s t (Hc & Hd & Hf & Ho & He). unfold write_table, e2. simpl.
  destruct (unwritable e filename); simpl; unfold same_tables; simpl;
    repeat split; auto.
  f_equal; [|exact Hf]. f_equal.
  induction Hrows as [|r1 r2 l1 l2 Hr _ IH]; simpl; [reflexivity|].
  f_equal; assumption.
Qed.

Lemma related_batched dir name width N B row :
  (forall i, related e e2 eq same_record (row i) (row i)) ->
  related e e2 same_tables eq
          (batched cfg dir name width N B row) (batched cfg dir name width N B row).
Proof.
  intros Hrow. unfold batched.
  apply (related_bind e e2 same_tables eq); [apply related_makedirs|]. intros _ _ _.
  apply (related_bind e e2 same_tables eq); [apply related_floordiv|]. intros nb ? <-.
  apply related_for_fold; [|reflexivity]. intros acc ? k <-.
  apply (related_bind e e2 same_tables (Forall2 same_record)).
  { apply related_lift, related_map_m. intros i. apply Hrow. }
  intros rows1 rows2 Hrows.
  apply (related_bind e e2 same_tables eq).
  { unfold save_batch.
    apply (related_bind e e2 same_tables eq); [now apply related_write_table|].
    intros _ _ _. now apply related_ret. }
  intros f ? <-. now apply related_ret.
Qed.

Lemma related_pipeline p en :
  related e e2 same_tables eq (pipeline p en cfg) (pipeline p en cfg).
Proof.
  assert (Hb : forall width,
    related e e2 same_tables eq
      (batched cfg (output_dir en) (stem en) width (count en cfg) (batch_size en cfg)
               (row_of p en cfg) ;;; ret tt)
      (batched cfg (output_dir en) (stem en) width (count en cfg) (batch_size en cfg)
               (row_of p en cfg) ;;; ret tt)).
  { intros width. apply (related_bind e e2 same_tables eq).
    - apply related_batched. intros i. apply related_row.
    - intros _ _ _. now apply related_ret. }
  destruct p, en; try exact (Hb _).
  unfold pipeline, Legacy.generate_sales_reps.
  apply (related_bind e e2 same_tables eq); [apply related_makedirs|]. intros _ _ _.
  apply (related_bind e e2 same_tables (Forall2 same_record)).
  { apply related_lift, related_map_m. intros i.
    exact (related_row Redefined SalesRep i). }
  intros rows1 rows2 Hrows. now apply related_write_table.
Qed.

Lemma related_run_all l :
  related e e2 same_tables eq
          (run_all (map (fun pe => pipeline (fst pe) (snd pe) cfg) l))
          (run_all (map (fun pe => pipeline (fst pe) (snd pe) cfg) l)).
Proof.
  induction l as [|[p en] l IH]; simpl.
  - now apply related_ret.
  - apply (related_bind e e2 same_tables eq); [apply related_pipeline|].
    intros _ _ _. exact IH.
Qed.

Lemma related_complete_generator s :
  fst (complete_generator cfg e s) = fst (complete_generator cfg e2 s)
  /\ same_tables (snd (complete_generator cfg e s)) (snd (complete_generator cfg e2 s)).
Proof.
  rewrite !complete_generator_run_all.
  change (all_pipelines cfg)
    with (map (fun pe => pipeline (fst pe) (snd pe) cfg) pipeline_order).
  pose proof (related_run_all pipeline_order (seed s) (seed s)) as H.
  unfold alike in H.
  destruct (run_all _ e (seed s)) as [[[]|x] s1], (run_all _ e2 (seed s)) as [[[]|y] s2].
  - destruct H as [_ H]; [repeat split|]. simpl. auto.
  - destruct H; repeat split.
  - destruct H; repeat split.
  - destruct H as [<- (Hc & Hd & Hf & Ho & He)]; [repeat split|].
    simpl. split; [reflexivity|]. unfold same_tables, report. simpl.
    rewrite Ho, He. auto.
Qed.

End TwoRuns.

(** C5, as the code has it. Two runs of complete_generator.py with the same
    configuration and the same seed, started from the same file system, on
    clocks whose readings fall on the same calendar days, end the same way
    and leave the same files with the same records, field for field, but for
    [created_at]. The acquisition and hire dates are drawn from the years
    before the day of the run, so the calendar day is part of what the
    records depend on. *)
Theorem same_seed_same_day_same_records cfg e clock2 s :
  same_days (clock e) clock2 ->
  let run1 := complete_generator cfg e s in
  let run2 := complete_generator cfg (with_clock clock2 e) s in
  fst run1 = fst run2
  /\ dirs (snd run1) = dirs (snd run2)
  /\ tables_without_created_at (files (snd run1))
     = tables_without_created_at (files (snd run2)).
Proof.
  intros Hdays run1 run2.
  destruct (related_complete_generator cfg e clock2 Hdays s)
    as (Hend & _ & Hd & Hf & _).
  auto.
Qed.

Lemma same_seed_same_day_same_records_witness :
  let later := fun n : nat => 1 + Z.of_nat n mod 1000 in
  same_days (clock quiet_env) later
  /\ tables_without_created_at
       (files (snd (complete_generator small_config quiet_env fresh)))
     = tables_without_created_at
         (files (snd (complete_generator small_config (with_clock later quiet_env)
                                         fresh))).
Proof.
  intros later.
  assert (H : same_days (clock quiet_env) later).
  { intros k. unfold later, usec_per_day. simpl clock.
    pose proof (Z.mod_pos_bound (Z.of_nat k) 1000 ltac:(lia)).
    rewrite (Z.div_small (1 + _)) by lia. reflexivity. }
  split; [exact H|].
  exact (proj2 (proj2 (same_seed_same_day_same_records small_config quiet_env later
                                                        fresh H))).
Defined.

(** C5, as stated, fails for two runs on different days: with the same
    configuration and the same seed, the first customer is acquired on the
    day 19675 in a run on that day and on the day 0 in a run on the day 0,
    and [acquisition_date] is not a wall-clock timestamp of the data model. *)
Lemma same_seed_other_day_other_dates :
  let run1 := complete_generator small_config sample_env fresh in
  let run2 := complete_generator small_config (with_clock (fun _ => 0) sample_env) fresh in
  first_acquisition_date (files (snd run1)) = Some (Some (VDate 19675))
  /\ first_acquisition_date (files (snd run2)) = Some (Some (VDate 0))
  /\ tables_without_created_at (files (snd run1))
     <> tables_without_created_at (files (snd run2)).
Proof.
  intros run1 run2.
  split; [vm_compute; reflexivity|]. split; [vm_compute; reflexivity|].
  intros H. apply (f_equal first_acquisition_date) in H.
  vm_compute in H. discriminate H.
Qed.

(** * Further properties *)

(** ** The records, one at a time *)

Ltac read_fields :=
  cbv [holds as_text as_int as_units as_day as_instant field
       String.eqb Ascii.eqb Bool.eqb Nat.eqb].

Lemma choice_in_list {A} (l : list A) (d : A) (z : Z) :
  l <> [] -> In (nth (Z.to_nat (z mod Z.of_nat (List.length l))) l d) l.
Proof.
  intros Hl. apply nth_In.
  assert (0 < Z.of_nat (List.length l)) by (destruct l; simpl; [contradiction | lia]).
  pose proof (Z.mod_pos_bound z (Z.of_nat (List.length l)) ltac:(lia)). lia.
Qed.

Ltac bound_draws :=
  repeat match goal with
         | |- context [?x mod ?m] =>
             lazymatch goal with
             | _ : 0 <= x mod m < m |- _ => fail
             | _ => pose proof (Z.mod_pos_bound x m ltac:(lia))
             end
         end.

(** X1. Every record has the keys of its entity type, in one order, in
    both definitions. *)
Theorem records_follow_schema p en cfg i e c r c' :
  row_of p en cfg i e c = (Ok r, c') -> map fst r = schema en.
Proof.
  destruct e as [rt ft fx ck uc uw], c as [rp fp tk].
  destruct p, en; unfold_rows; run_row;
    intros Hrun; apply ok_eq_inv in Hrun; destruct Hrun as [<- _]; reflexivity.
Qed.

Lemma records_follow_schema_witness :
  exists r c',
    row_of First Product small_config 0 sample_env (mkCursors 0 0 0) = (Ok r, c')
    /\ map fst r = schema Product.
Proof.
  eexists _, _. split; [vm_compute; reflexivity|].
  apply (records_follow_schema First Product small_config 0 sample_env
           (mkCursors 0 0 0) _ (snd (row_of First Product small_config 0 sample_env
                                            (mkCursors 0 0 0)))).
  vm_compute. reflexivity.
Defined.

(** X2. A record is made exactly when the configuration gives what its
    entity type needs: non-empty lists to choose from and, for a
    transaction, a date range and three counts that leave [randint]
    something to draw. Otherwise the synthesizer raises [IndexError] (an
    empty list) or, for a transaction only, [ValueError] (an empty range). *)
Theorem record_made_or_exception p en cfg i e c :
  match row_of p en cfg i e c with
  | (Ok _, _) => row_requirements en cfg
  | (Raise x, _) =>
      ~ row_requirements en cfg
      /\ (x = IndexError \/ (x = ValueError /\ en = Transaction))
  end.
Proof.
  destruct e as [rt ft fx ck uc uw], c as [rp fp tk].
  destruct p, en; unfold_rows; unfold row_requirements; run_row;
    repeat match goal with
           | E : _ = [] |- _ => rewrite E
           | E : _ = _ :: _ |- _ => rewrite E
           end;
    try (repeat split; (lia || discriminate));
    (split; [intros H'; decompose [and] H'; (lia || congruence) | auto]).
Qed.

Ltac compute_days :=
  repeat match goal with
         | |- context [days_back ?y] =>
             let v := eval vm_compute in (days_back y) in
             change (days_back y) with v
         end.

(** X3. The fields of a customer: the segment, the region and the country
    are entries of the configured lists; the lifetime value lies between
    100.00 and the bound of the definitions; the acquisition date lies in the
    years before the day of the call, that day included. *)
Theorem customer_fields_in_range p cfg i e c r c' :
  row_of p Customer cfg i e c = (Ok r, c') ->
  let today := clock e (ticks c) / usec_per_day in
  holds (as_text (field "segment" r)) (fun s => In s (CUSTOMER_SEGMENTS cfg))
  /\ holds (as_text (field "region" r)) (fun s => In s (REGIONS cfg))
  /\ holds (as_text (field "country" r)) (fun s => In s (COUNTRIES cfg))
  /\ holds (as_units 2 (field "lifetime_value" r))
           (fun u => 10000 <= u <= lifetime_max p)
  /\ holds (as_day (field "acquisition_date" r))
           (fun d => today - days_back (acquisition_years p) <= d <= today).
Proof.
  destruct e as [rt ft fx ck uc uw], c as [rp fp tk].
  destruct p; unfold_rows; run_row;
    intros Hrun; apply ok_eq_inv in Hrun; destruct Hrun as [<- _];
    read_fields; cbv [clock ticks lifetime_max acquisition_years];
    repeat match goal with E : _ = _ :: _ |- _ => rewrite <- E end;
    (repeat split; try (apply choice_in_list; congruence));
    compute_days; bound_draws; lia.
Qed.

Lemma customer_fields_in_range_witness :
  holds (as_units 2
           (field "lifetime_value"
              (match fst (row_of First Customer small_config 0 sample_env
                                 (mkCursors 0 0 0)) with
               | Ok r => r
               | Raise _ => []
               end)))
        (fun u => 10000 <= u <= 50000000).
Proof.
  destruct (row_of First Customer small_config 0 sample_env (mkCursors 0 0 0))
    as [[r|x] c'] eqn:E.
  - exact (proj1 (proj2 (proj2 (proj2
             (customer_fields_in_range First small_config 0 sample_env _ r c' E))))).
  - apply (f_equal fst) in E. vm_compute in E. discriminate E.
Defined.

(** X4. The fields of a product: the category is an entry of the
    configured list, the unit price lies between 10.00 and 1000.00, the cost
    price between 5.00 and 500.00, the supplier is [SUPP] and a zero-padded
    number from 1 to the bound of the definitions, and the stock and the
    reorder point lie in their ranges. Nothing ties the cost to the price: a
    product whose cost is above its price is generated by some run. *)
Theorem product_fields_in_range p cfg i :
  (forall e c r c',
      row_of p Product cfg i e c = (Ok r, c') ->
      holds (as_text (field "category" r)) (fun s => In s (PRODUCT_CATEGORIES cfg))
      /\ holds (as_units 2 (field "unit_price" r)) (fun u => 1000 <= u <= 100000)
      /\ holds (as_units 2 (field "cost_price" r)) (fun u => 500 <= u <= 50000)
      /\ holds (as_text (field "supplier_id" r))
               (fun s => exists k, 1 <= k <= supplier_max p
                                   /\ s = ("SUPP" ++ fmt_0d (supplier_width p) k)%string)
      /\ holds (as_int (field "stock_quantity" r)) (fun n => 0 <= n <= stock_max p)
      /\ holds (as_int (field "reorder_point" r)) (fun n => 50 <= n <= reorder_max p))
  /\ (PRODUCT_CATEGORIES cfg <> [] ->
      exists e c r c',
        row_of p Product cfg i e c = (Ok r, c')
        /\ field "unit_price" r = Some (VDec 2 1000)
        /\ field "cost_price" r = Some (VDec 2 50000)).
Proof.
  split.
  - intros e c r c'. destruct e as [rt ft fx ck uc uw], c as [rp fp tk].
    destruct p; unfold_rows; run_row;
      intros Hrun; apply ok_eq_inv in Hrun; destruct Hrun as [<- _];
      read_fields; cbv [supplier_max supplier_width stock_max reorder_max];
      repeat match goal with E : _ = _ :: _ |- _ => rewrite <- E end;
      (repeat split; try (apply choice_in_list; congruence));
      try (eexists; split; [|reflexivity]);
      bound_draws; lia.
  - intros Hcat.
    exists (mkEnv (tape_of [0; 0; 49500]) (fun _ => 0) (fun _ _ => EmptyString)
                  (fun _ => 0) (fun _ => false) (fun _ => false)),
           (mkCursors 0 0 0).
    destruct p; unfold_rows; run_row; try contradiction;
      eexists _, _; (split; [reflexivity|]); split; reflexivity.
Qed.

Lemma product_fields_in_range_witness :
  exists e c r c',
    row_of First Product small_config 0 e c = (Ok r, c')
    /\ field "unit_price" r = Some (VDec 2 1000)
    /\ field "cost_price" r = Some (VDec 2 50000).
Proof.
  apply (proj2 (product_fields_in_range First small_config 0)). discriminate.
Defined.

(** X5. The fields of a sales representative: the region is an entry of
    the configured list, the commission rate lies between 0.0100 and the
    bound of the definitions, and the hire date lies in the years before the
    day of the call, that day included. *)
Theorem sales_rep_fields_in_range p cfg i e c r c' :
  row_of p SalesRep cfg i e c = (Ok r, c') ->
  let today := clock e (ticks c) / usec_per_day in
  holds (as_text (field "region" r)) (fun s => In s (REGIONS cfg))
  /\ holds (as_units 4 (field "commission_rate" r))
           (fun u => 100 <= u <= commission_max p)
  /\ holds (as_day (field "hire_date" r))
           (fun d => today - days_back (hire_years p) <= d <= today).
Proof.
  destruct e as [rt ft fx ck uc uw], c as [rp fp tk].
  destruct p; unfold_rows; run_row;
    intros Hrun; apply ok_eq_inv in Hrun; destruct Hrun as [<- _];
    read_fields; cbv [clock ticks commission_max hire_years];
    repeat match goal with E : _ = _ :: _ |- _ => rewrite <- E end;
    (repeat split; try (apply choice_in_list; congruence));
    compute_days; bound_draws; lia.
Qed.

Lemma sales_rep_fields_in_range_witness :
  holds (as_units 4
           (field "commission_rate"
              (match fst (row_of Redefined SalesRep small_config 0 sample_env
                                 (mkCursors 0 0 0)) with
               | Ok r => r
               | Raise _ => []
               end)))
        (fun u => 100 <= u <= 1500).
Proof.
  destruct (row_of Redefined SalesRep small_config 0 sample_env (mkCursors 0 0 0))
    as [[r|x] c'] eqn:E.
  - exact (proj1 (proj2
             (sales_rep_fields_in_range Redefined small_config 0 sample_env _ r c' E))).
  - apply (f_equal fst) in E. vm_compute in E. discriminate E.
Defined.

(** X6. The fields of a transaction: its date is midnight of a day from
    [START_DATE] to [END_DATE], both included; the quantity, the unit price,
    the discount, the tax and the total lie in the ranges of their draws; the
    payment method is one of the list of the definitions and the region an
    entry of the configured list. *)
Theorem transaction_fields_in_range p cfg i e c r c' :
  row_of p Transaction cfg i e c = (Ok r, c') ->
  holds (as_instant (field "transaction_date" r))
        (fun t => exists day, START_DATE cfg <= day <= END_DATE cfg
                              /\ t = day * usec_per_day)
  /\ holds (as_int (field "quantity" r)) (fun n => 1 <= n <= quantity_max p)
  /\ holds (as_units 2 (field "unit_price" r)) (fun u => 1000 <= u <= 100000)
  /\ holds (as_units 2 (field "discount_percent" r)) (fun u => 0 <= u <= 5000)
  /\ holds (as_units 2 (field "tax_amount" r)) (fun u => 1000 <= u <= tax_max p)
  /\ holds (as_units 2 (field "total_amount" r)) (fun u => 5000 <= u <= total_max p)
  /\ holds (as_text (field "payment_method" r)) (fun s => In s (payment_methods_of p))
  /\ holds (as_text (field "region" r)) (fun s => In s (REGIONS cfg)).
Proof.
  destruct e as [rt ft fx ck uc uw], c as [rp fp tk].
  destruct p; unfold_rows; run_row;
    intros Hrun; apply ok_eq_inv in Hrun; destruct Hrun as [<- _];
    read_fields; cbv [quantity_max tax_max total_max payment_methods_of];
    repeat match goal with E : _ = _ :: _ |- _ => rewrite <- E end;
    (repeat split;
     try (apply choice_in_list; congruence);
     try (apply (choice_in_list FirstPass.payment_methods); discriminate);
     try (apply (choice_in_list Legacy.payment_methods); discriminate));
    try (eexists; split; [|reflexivity]);
    bound_draws; lia.
Qed.

Lemma transaction_fields_in_range_witness :
  holds (as_instant
           (field "transaction_date"
              (match fst (row_of First Transaction small_config 0 sample_env
                                 (mkCursors 0 0 0)) with
               | Ok r => r
               | Raise _ => []
               end)))
        (fun t => exists day, 738521 <= day <= 739251 /\ t = day * usec_per_day).
Proof.
  destruct (row_of First Transaction small_config 0 sample_env (mkCursors 0 0 0))
    as [[r|x] c'] eqn:E.
  - exact (proj1 (transaction_fields_in_range First small_config 0 sample_env _ r c' E)).
  - apply (f_equal fst) in E. vm_compute in E. discriminate E.
Defined.

(** A record advances the three streams by the numbers of its entity type,
    the same in both definitions. *)
Lemma row_advances p en cfg i e c r c' :
  row_of p en cfg i e c = (Ok r, c') -> c' = advanced en 1 c.
Proof.
  destruct e as [rt ft fx ck uc uw], c as [rp fp tk].
  destruct p, en; unfold_rows; run_row;
    intros Hrun; apply ok_eq_inv in Hrun; destruct Hrun as [_ <-]; reflexivity.
Qed.

(** ** The records of a pipeline, as one sequence *)

Section Threaded.

Context {St : Type}.

Lemma map_m_app {A B} (f : A -> SE St B) e l1 l2 :
  forall s,
  map_m f (l1 ++ l2) e s
  = match map_m f l1 e s with
    | (Ok ys1, s1) =>
        match map_m f l2 e s1 with
        | (Ok ys2, s2) => (Ok (ys1 ++ ys2), s2)
        | (Raise x, s2) => (Raise x, s2)
        end
    | (Raise x, s1) => (Raise x, s1)
    end.
Proof.
  induction l1 as [|a l1 IH]; simpl; intros s.
  - unfold ret. destruct (map_m f l2 e s) as [[ys|x] s2]; reflexivity.
  - unfold bind, ret. destruct (f a e s) as [[y|x] s1]; [|reflexivity].
    rewrite IH.
    destruct (map_m f l1 e s1) as [[ys1|x] s2]; [|reflexivity].
    destruct (map_m f l2 e s2) as [[ys2|x] s3]; reflexivity.
Qed.

Lemma map_m_map {A B C} (f : B -> SE St C) (g : A -> B) e l :
  forall s, map_m f (map g l) e s = map_m (fun x => f (g x)) l e s.
Proof.
  induction l as [|a l IH]; simpl; intros s; [reflexivity|].
  unfold bind. destruct (f (g a) e s) as [[y|x] s1]; [|reflexivity].
  now rewrite IH.
Qed.

Lemma map_m_length {A B} (f : A -> SE St B) e l :
  forall s ys s', map_m f l e s = (Ok ys, s') -> List.length ys = List.length l.
Proof.
  intros s ys s' E. apply map_m_produces in E.
  symmetry. exact (Forall2_length E).
Qed.

Lemma map_m_raise_inv {A B} (f : A -> SE St B) e l :
  forall s x s', map_m f l e s = (Raise x, s') ->
  exists a s1, In a l /\ f a e s1 = (Raise x, s').
Proof.
  induction l as [|a l IH]; simpl; intros s x s' E.
  - discriminate.
  - apply bind_raise_inv in E. destruct E as [E|(y & s1 & _ & E)].
    + exists a, s. auto.
    + apply bind_raise_inv in E. destruct E as [E|(ys & s2 & _ & E)].
      * destruct (IH _ _ _ E) as (b & s3 & Hb & Eb). exists b, s3. auto.
      * discriminate.
Qed.

End Threaded.

Section ThreadedPipelines.

Variable cfg : Config.
Variable e : Env.

(** The records of a batched pipeline that returns are the records of one
    pass over all its identifiers, from the state of the streams it started
    in to the state it ends in. *)
Lemma batched_threads dir name width N B row s names s' :
  batched cfg dir name width N B row e s = (Ok names, s') ->
  exists new,
    adds dir new s s'
    /\ map_m row (batch_ids N B) e (cursors s)
       = (Ok (List.concat (map snd new)), cursors s').
Proof.
  unfold batched. intros E.
  apply bind_ok_inv in E. destruct E as ([] & s1 & Em & E).
  apply bind_ok_inv in E. destruct E as (nb & s2 & Ed & E).
  unfold makedirs in Em. destruct (uncreatable e dir); [discriminate|].
  apply ok_eq_inv in Em. destruct Em as [_ <-].
  unfold floordiv in Ed. destruct (B =? 0); [discriminate|].
  apply ret_ok_inv in Ed. destruct Ed as [-> ->].
  pose (P := fun (done : list Z) (acc : list string) (st : State) =>
               dirs st = add_dir dir (dirs s)
               /\ stdout st = stdout s /\ stderr st = stderr s
               /\ exists new,
                    files st = rev new ++ files s
                    /\ map_m row
                         (flat_map (fun k => id_range (k * B) (Z.min B (N - k * B))) done)
                         e (cursors s)
                       = (Ok (List.concat (map snd new)), cursors st)).
  assert (HP : P ([] ++ py_range ((N + B - 1) / B)) names s').
  { eapply (for_fold_inv P); [| |exact E].
    - intros done k acc st acc' st' (Hd & Ho & He & new & Hf & Hm) Ek.
      cbv beta zeta in Ek.
      apply bind_ok_inv in Ek. destruct Ek as (rows & st1 & El & Ek).
      apply bind_ok_inv in Ek. destruct Ek as (fn & st2 & Ew & Ek).
      apply ret_ok_inv in Ek. destruct Ek as [-> ->].
      apply lift_inv in El. destruct El as (c' & Eg & ->).
      unfold save_batch in Ew.
      apply bind_ok_inv in Ew. destruct Ew as ([] & st3 & Ew & Er).
      apply ret_ok_inv in Er. destruct Er as [-> ->].
      unfold write_table in Ew. cbn [files] in Ew.
      destruct (unwritable e _); [discriminate|].
      apply ok_eq_inv in Ew. destruct Ew as [_ <-]. unfold P. cbn.
      repeat split; try assumption.
      exists (new ++ [(batch_filename dir name width k (extension cfg), rows)]).
      rewrite rev_app_distr, Hf. split; [reflexivity|].
      rewrite flat_map_app, map_m_app, Hm. cbn [flat_map].
      rewrite List.app_nil_r. unfold id_range. rewrite map_m_map, Eg.
      rewrite map_app, concat_app. cbn. now rewrite List.app_nil_r.
    - unfold P. cbn. repeat split. exists []. split; reflexivity. }
  destruct HP as (Hd & Ho & He & new & Hf & Hm).
  exists new. unfold adds. rewrite batch_ids_by_number. auto.
Qed.

Lemma pipeline_threads p en s s' :
  pipeline p en cfg e s = (Ok tt, s') ->
  exists new,
    adds (output_dir en) new s s'
    /\ map_m (row_of p en cfg) (positions p en cfg) e (cursors s)
       = (Ok (List.concat (map snd new)), cursors s').
Proof.
  assert (Hb : forall width,
    (batched cfg (output_dir en) (stem en) width (count en cfg)
             (batch_size en cfg) (row_of p en cfg) ;;; ret tt) e s = (Ok tt, s') ->
    exists new,
      adds (output_dir en) new s s'
      /\ map_m (row_of p en cfg) (batch_ids (count en cfg) (batch_size en cfg))
               e (cursors s)
         = (Ok (List.concat (map snd new)), cursors s')).
  { intros width E.
    apply bind_ok_inv in E. destruct E as (names & s1 & E & Er).
    apply ret_ok_inv in Er. destruct Er as [_ ->].
    exact (batched_threads _ _ _ _ _ _ _ _ _ E). }
  destruct p, en; try (exact (Hb _)).
  unfold pipeline, Legacy.generate_sales_reps. intros E.
  apply bind_ok_inv in E. destruct E as ([] & s1 & Em & E).
  apply bind_ok_inv in E. destruct E as (rows & s2 & El & Ew).
  unfold makedirs in Em. destruct (uncreatable e _); [discriminate|].
  apply ok_eq_inv in Em. destruct Em as [_ <-].
  apply lift_inv in El. destruct El as (c' & Eg & ->).
  unfold write_table in Ew. cbn [files] in Ew. destruct (unwritable e _); [discriminate|].
  apply ok_eq_inv in Ew. destruct Ew as [_ <-].
  eexists [(_, rows)]. unfold adds. cbn. repeat split.
  rewrite List.app_nil_r. unfold positions, id_range. rewrite map_m_map.
  exact Eg.
Qed.

Lemma map_m_advances p en l :
  forall c rows c',
  map_m (row_of p en cfg) l e c = (Ok rows, c') ->
  c' = advanced en (List.length l) c.
Proof.
  induction l as [|i l IH]; simpl; intros c rows c' E.
  - apply ret_ok_inv in E. destruct E as [_ ->]. destruct c. reflexivity.
  - apply bind_ok_inv in E. destruct E as (r & c1 & Er & E).
    apply bind_ok_inv in E. destruct E as (rs & c2 & Em & E).
    apply ret_ok_inv in E. destruct E as [_ ->].
    apply row_advances in Er. apply IH in Em. subst c1 c2.
    destruct c. unfold advanced. cbn. f_equal; lia.
Qed.

Lemma length_positions p en :
  0 < batch_size en cfg ->
  List.length (positions p en cfg) = Z.to_nat (count en cfg).
Proof.
  intros HB. rewrite positions_range.
  destruct (Z.ltb_spec 0 (batch_size en cfg)); [|lia].
  assert (H' : List.length (id_range 0 (count en cfg)) = Z.to_nat (count en cfg)).
  { unfold id_range. now rewrite length_map, length_py_range. }
  destruct p, en; exact H'.
Qed.

End ThreadedPipelines.

Lemma forall2_forall_right {A B} (P : A -> B -> Prop) (Q : B -> Prop) l l' :
  Forall2 P l l' -> (forall a b, In a l -> P a b -> Q b) -> Forall Q l'.
Proof.
  induction 1 as [|a b l l' Hab _ IH]; intros HQ; constructor.
  - apply (HQ a b); simpl; auto.
  - apply IH. intros a' b' Ha'. apply HQ. simpl. auto.
Qed.

Lemma length_id_range start len : List.length (id_range start len) = Z.to_nat len.
Proof. unfold id_range. now rewrite length_map, length_py_range. Qed.

Lemma same_new_files {A} (new1 new2 rest : list A) :
  rev new1 ++ rest = rev new2 ++ rest -> new1 = new2.
Proof.
  intros E. apply app_inv_tail in E.
  rewrite <- (rev_involutive new1), <- (rev_involutive new2). now f_equal.
Qed.

(** X7. A pipeline that returns, its batch size positive, has written
    every record once: its files hold as many records as the configured
    count. A batched pipeline has written as many files as the chunker has
    batches, and none of them is empty or holds more records than the batch
    size. *)
Theorem pipeline_writes_every_record p en cfg e s s' :
  pipeline p en cfg e s = (Ok tt, s') ->
  0 < batch_size en cfg ->
  exists new,
    adds (output_dir en) new s s'
    /\ List.length (List.concat (map snd new)) = Z.to_nat (count en cfg)
    /\ ((p, en) <> (Redefined, SalesRep) ->
        List.length new = Z.to_nat (num_batches (count en cfg) (batch_size en cfg))
        /\ Forall (fun f => (1 <= List.length (snd f) <= Z.to_nat (batch_size en cfg))%nat)
                  new).
Proof.
  intros E HB.
  destruct (pipeline_ok cfg e p en s s' E) as (new & Ha & _ & HF).
  exists new. split; [exact Ha|]. split.
  - rewrite <- (Forall2_length HF). now apply length_positions.
  - intros Hp. rewrite pipeline_batched in E by exact Hp.
    apply bind_ok_inv in E. destruct E as (names & s1 & E & Er).
    apply ret_ok_inv in Er. destruct Er as [_ ->].
    apply batched_ok in E. destruct E as (_ & _ & new' & Ha' & _ & HB').
    assert (new' = new) as ->.
    { destruct Ha as (_ & Hf & _), Ha' as (_ & Hf' & _).
      rewrite Hf in Hf'. symmetry. exact (same_new_files _ _ _ Hf'). }
    split.
    + rewrite <- (Forall2_length HB'). apply length_py_range.
    + apply (forall2_forall_right _ _ _ _ HB'). intros k f Hk [_ Hrows].
      apply in_py_range in Hk.
      rewrite <- (Forall2_length Hrows), length_id_range.
      destruct (batch_bounds_inner (count en cfg) (batch_size en cfg) k HB Hk)
        as [_ Hlen].
      unfold batch_bounds in Hlen. cbn [snd] in Hlen. lia.
Qed.

Lemma pipeline_writes_every_record_witness :
  exists new,
    adds (output_dir Customer) new fresh
         (snd (pipeline First Customer small_config sample_env fresh))
    /\ List.length (List.concat (map snd new)) = 5%nat
    /\ List.length new = 3%nat.
Proof.
  destruct (pipeline_writes_every_record First Customer small_config sample_env fresh
              (snd (pipeline First Customer small_config sample_env fresh)))
    as (new & Ha & Hn & Hb).
  - vm_compute. reflexivity.
  - reflexivity.
  - exists new. split; [exact Ha|]. split; [exact Hn|].
    exact (proj1 (Hb ltac:(discriminate))).
Defined.

Lemma row_of_ignores_batch_sizes p en cfg b1 b2 b3 :
  row_of p en (with_batch_sizes b1 b2 b3 cfg) = row_of p en cfg.
Proof. destruct p, en; reflexivity. Qed.

Lemma positions_all p en cfg :
  0 < batch_size en cfg -> positions p en cfg = id_range 0 (count en cfg).
Proof.
  intros HB. rewrite positions_range.
  destruct (Z.ltb_spec 0 (batch_size en cfg)); [|lia].
  destruct p, en; reflexivity.
Qed.

(** X8. The batch size does not change the data. Two runs of a pipeline
    with the same seed, from the same state of the streams and on clocks that
    agree on the calendar days, their configurations differing by the batch
    sizes only (both positive), write the same records in the same order, but
    for [created_at], however the records are split into files; and they
    leave the streams in the same state. *)
Theorem batch_size_does_not_change_records p en cfg b1 b2 b3 e clock2 s t s' t' :
  same_days (clock e) clock2 ->
  cursors s = cursors t ->
  0 < batch_size en cfg ->
  0 < batch_size en (with_batch_sizes b1 b2 b3 cfg) ->
  pipeline p en cfg e s = (Ok tt, s') ->
  pipeline p en (with_batch_sizes b1 b2 b3 cfg) (with_clock clock2 e) t = (Ok tt, t') ->
  exists new1 new2,
    adds (output_dir en) new1 s s'
    /\ adds (output_dir en) new2 t t'
    /\ Forall2 same_record (List.concat (map snd new1)) (List.concat (map snd new2))
    /\ cursors s' = cursors t'.
Proof.
  intros Hdays Hc HB1 HB2 E1 E2.
  apply pipeline_threads in E1. destruct E1 as (new1 & Ha1 & Hm1).
  apply pipeline_threads in E2. destruct E2 as (new2 & Ha2 & Hm2).
  exists new1, new2. split; [exact Ha1|]. split; [exact Ha2|].
  rewrite row_of_ignores_batch_sizes, (positions_all _ _ _ HB2) in Hm2.
  rewrite (positions_all _ _ _ HB1) in Hm1.
  replace (count en (with_batch_sizes b1 b2 b3 cfg)) with (count en cfg) in Hm2
    by (destruct en; reflexivity).
  pose proof (related_map_m e (with_clock clock2 e) eq same_record
                (row_of p en cfg) (row_of p en cfg) (id_range 0 (count en cfg))
                (fun i => related_row cfg e clock2 Hdays p en i)
                (cursors s) (cursors t) Hc) as H.
  rewrite Hm1, Hm2 in H. cbn in H. destruct H as [H1 H2]. auto.
Qed.

Lemma batch_size_does_not_change_records_witness :
  exists new1 new2,
    adds (output_dir Customer) new1 fresh
         (snd (pipeline First Customer small_config quiet_env fresh))
    /\ adds (output_dir Customer) new2 fresh
            (snd (pipeline First Customer (with_batch_sizes 4 1 1 small_config)
                           (with_clock (fun _ => 1) quiet_env) fresh))
    /\ Forall2 same_record (List.concat (map snd new1)) (List.concat (map snd new2)).
Proof.
  destruct (batch_size_does_not_change_records First Customer small_config 4 1 1
              quiet_env (fun _ => 1) fresh fresh
              (snd (pipeline First Customer small_config quiet_env fresh))
              (snd (pipeline First Customer (with_batch_sizes 4 1 1 small_config)
                             (with_clock (fun _ => 1) quiet_env) fresh)))
    as (new1 & new2 & H1 & H2 & H3 & _).
  - intros k. reflexivity.
  - reflexivity.
  - reflexivity.
  - reflexivity.
  - vm_compute. reflexivity.
  - vm_compute. reflexivity.
  - exists new1, new2. auto.
Defined.

(** X9. A pipeline that returns, its batch size positive, has read the
    streams record by record: for each record of the configured count, 4, 6,
    2 and 11 draws of [random] for a customer, a product, a sales
    representative and a transaction, 7, 3, 5 and none of the fake-data
    generator, and 2, 1, 2 and 1 readings of the clock. Writing reads
    nothing; a transaction pipeline leaves the fake-data generator where it
    was. *)
Theorem pipeline_reads_streams_by_record p en cfg e s s' :
  pipeline p en cfg e s = (Ok tt, s') ->
  0 < batch_size en cfg ->
  let n := Z.to_nat (count en cfg) in
  rand_pos (cursors s') = (n * random_draws en + rand_pos (cursors s))%nat
  /\ fake_pos (cursors s') = (n * fake_draws en + fake_pos (cursors s))%nat
  /\ ticks (cursors s') = (n * clock_reads en + ticks (cursors s))%nat
  /\ (en = Transaction -> fake_pos (cursors s') = fake_pos (cursors s)).
Proof.
  intros E HB n.
  apply pipeline_threads in E. destruct E as (new & _ & Hm).
  apply map_m_advances in Hm. rewrite (length_positions cfg p en HB) in Hm.
  fold n in Hm. rewrite Hm. unfold advanced. cbn.
  repeat split. intros ->. cbn. lia.
Qed.

Lemma pipeline_reads_streams_by_record_witness :
  rand_pos (cursors (snd (pipeline First Transaction small_config sample_env fresh)))
  = 44%nat.
Proof.
  destruct (pipeline_reads_streams_by_record First Transaction small_config sample_env
              fresh (snd (pipeline First Transaction small_config sample_env fresh)))
    as (H & _).
  - vm_compute. reflexivity.
  - reflexivity.
  - exact H.
Defined.

(** ** Pipelines that raise *)

Section Raising.

Lemma for_fold_raise_inv {St A B} (P : list A -> B -> St -> Prop)
    (body : B -> A -> SE St B) e l :
  (forall done x acc s acc' s',
      P done acc s -> body acc x e s = (Ok acc', s') -> P (done ++ [x]) acc' s') ->
  forall done acc s x s',
  P done acc s -> for_fold l acc body e s = (Raise x, s') ->
  exists done' y rest acc1 s1,
    done ++ l = done' ++ y :: rest
    /\ P done' acc1 s1
    /\ body acc1 y e s1 = (Raise x, s').
Proof.
  intros Hstep. induction l as [|a l IH]; simpl; intros done acc s x s' HP E.
  - discriminate.
  - apply bind_raise_inv in E. destruct E as [E|(acc' & s1 & Ea & E)].
    + exists done, a, l, acc, s. auto.
    + destruct (IH (done ++ [a]) acc' s1 x s' (Hstep _ _ _ _ _ _ HP Ea) E)
        as (done' & y & rest & acc1 & s2 & Hl & HP' & Ey).
      exists done', y, rest, acc1, s2. rewrite <- app_assoc in Hl. auto.
Qed.

Lemma seq_decompose l1 :
  forall start len a l2,
  seq start len = l1 ++ a :: l2 ->
  l1 = seq start (List.length l1) /\ a = (start + List.length l1)%nat
  /\ (List.length l1 < len)%nat.
Proof.
  induction l1 as [|b l1 IH]; intros start len a l2 E.
  - destruct len; simpl in E; [discriminate|]. injection E as <- _.
    simpl. repeat split; lia.
  - destruct len; simpl in E; [discriminate|]. injection E as <- E.
    destruct (IH _ _ _ _ E) as (H1 & H2 & H3). simpl.
    repeat split; [f_equal; exact H1 | lia | lia].
Qed.

Lemma py_range_decompose n done y rest :
  py_range n = done ++ y :: rest -> done = py_range y /\ 0 <= y < n.
Proof.
  unfold py_range. intros E.
  apply map_eq_app in E. destruct E as (l1 & l2 & E & <- & E2).
  destruct l2 as [|a l2]; [discriminate|]. injection E2 as <- _.
  destruct (seq_decompose _ _ _ _ _ E) as (H1 & H2 & H3).
  simpl in H2. subst a. rewrite Nat2Z.id. split; [now f_equal | lia].
Qed.


Variable cfg : Config.
Variable e : Env.

(** Where a batched pipeline can raise, and what it leaves. *)
Lemma batched_raise dir name width N B row s x s' :
  batched cfg dir name width N B row e s = (Raise x, s') ->
  stdout s' = stdout s /\ stderr s' = stderr s
  /\ exists k new,
       0 <= k /\ files s' = rev new ++ files s
       /\ Forall2 (is_batch e cfg dir name width N B row) (py_range k) new
       /\ ((x = OSError dir /\ uncreatable e dir = true /\ k = 0 /\ dirs s' = dirs s)
           \/ (uncreatable e dir = false /\ dirs s' = add_dir dir (dirs s)
               /\ ((x = ZeroDivisionError /\ B = 0 /\ k = 0)
                   \/ (B <> 0 /\ k < num_batches N B
                       /\ ((exists i c c',
                              In i (id_range (k * B) (Z.min B (N - k * B)))
                              /\ row i e c = (Raise x, c'))
                           \/ (x = OSError (batch_filename dir name width k (extension cfg))
                               /\ unwritable e (batch_filename dir name width k
                                                               (extension cfg)) = true
                               /\ exists rows,
                                    Forall2 (fun i r => produces e (row i) r)
                                            (id_range (k * B) (Z.min B (N - k * B)))
                                            rows)))))).
Proof.
  unfold batched. intros E.
  apply bind_raise_inv in E. destruct E as [E|([] & s1 & Em & E)].
  { unfold makedirs in E. destruct (uncreatable e dir) eqn:Hu; [|discriminate].
    injection E as <- <-. split; [reflexivity|]. split; [reflexivity|].
    exists 0, []. split; [lia|]. split; [reflexivity|]. split; [constructor|].
    left. auto. }
  unfold makedirs in Em. destruct (uncreatable e dir) eqn:Hu; [discriminate|].
  apply ok_eq_inv in Em. destruct Em as [_ <-].
  apply bind_raise_inv in E. destruct E as [E|(nb & s2 & Ed & E)].
  { unfold floordiv in E. destruct (Z.eqb_spec B 0) as [HB|HB]; [|discriminate].
    injection E as <- <-. split; [reflexivity|]. split; [reflexivity|].
    exists 0, []. split; [lia|]. split; [reflexivity|]. split; [constructor|].
    right. split; [reflexivity|]. split; [reflexivity|]. left. auto. }
  unfold floordiv in Ed. destruct (Z.eqb_spec B 0) as [HB|HB]; [discriminate|].
  apply ret_ok_inv in Ed. destruct Ed as [-> ->].
  change ((N + B - 1) / B) with (num_batches N B) in E.
  pose (P := fun (done : list Z) (acc : list string) (st : State) =>
               dirs st = add_dir dir (dirs s)
               /\ stdout st = stdout s /\ stderr st = stderr s
               /\ exists new, files st = rev new ++ files s
                              /\ Forall2 (is_batch e cfg dir name width N B row) done new).
  pose proof (fun H1 H2 => for_fold_raise_inv P _ e _ H1 [] _ _ _ _ H2 E) as Hinv.
  destruct Hinv
    as (done & k & rest & acc1 & s1 & Hl & (Hd & Ho & He & new & Hf & Hb) & Ek).
  { intros done k acc st acc' st' (Hd & Ho & He & new & Hf & Hb) Ek.
    apply body_ok in Ek.
    destruct Ek as (rows & Hrows & _ & Hd' & Hf' & Ho' & He').
    unfold P. rewrite Hd', Ho', He', Hf'. repeat split; try assumption.
    exists (new ++ [(batch_filename dir name width k (extension cfg), rows)]).
    rewrite rev_app_distr, Hf. split; [reflexivity|].
    apply Forall2_app; [assumption|]. constructor; [assumption | constructor]. }
  { unfold P. cbn. split; [reflexivity|]. split; [reflexivity|].
    split; [reflexivity|]. exists []. split; [reflexivity | constructor]. }
  cbn [app] in Hl. apply py_range_decompose in Hl. destruct Hl as [-> Hk].
  cbv beta zeta in Ek.
  apply bind_raise_inv in Ek. destruct Ek as [El|(rows & st1 & El & Ek)].
  - apply lift_inv in El. destruct El as (c' & Eg & ->). cbn.
    split; [exact Ho|]. split; [exact He|].
    exists k, new. split; [lia|]. split; [exact Hf|]. split; [exact Hb|].
    right. split; [reflexivity|]. split; [exact Hd|].
    right. split; [exact HB|]. split; [lia|].
    left. apply map_m_raise_inv in Eg. destruct Eg as (a & c1 & Ha & Ea).
    exists (k * B + a), c1, c'. split; [|exact Ea].
    unfold id_range. now apply in_map.
  - apply lift_inv in El. destruct El as (c' & Eg & ->).
    apply bind_raise_inv in Ek. destruct Ek as [Ew|(fn & st2 & _ & Er)];
      [|discriminate].
    unfold save_batch in Ew.
    apply bind_raise_inv in Ew. destruct Ew as [Ew|([] & st3 & _ & Er)];
      [|discriminate].
    unfold write_table in Ew.
    destruct (unwritable e (batch_filename dir name width k (extension cfg))) eqn:Hw;
      [|discriminate].
    injection Ew as <- <-. cbn.
    split; [exact Ho|]. split; [exact He|].
    exists k, new. split; [lia|]. split; [exact Hf|]. split; [exact Hb|].
    right. split; [reflexivity|]. split; [exact Hd|].
    right. split; [exact HB|]. split; [lia|].
    right. split; [reflexivity|]. split; [exact Hw|].
    exists rows. apply forall2_id_range.
    apply map_m_produces in Eg.
    eapply Forall2_impl; [|exact Eg]. cbn.
    intros i r (c1 & c2 & H). exists c1, c2. exact H.
Qed.

Lemma row_outcome p en i c :
  match row_of p en cfg i e c with
  | (Ok _, _) => row_requirements en cfg
  | (Raise x, _) =>
      ~ row_requirements en cfg
      /\ (x = IndexError \/ (x = ValueError /\ en = Transaction))
  end.
Proof.
  revert c. destruct e as [rt ft fx ck uc uw]. intros [rp fp tk].
  destruct p, en; unfold_rows; unfold row_requirements; run_row;
    repeat match goal with
           | E : _ = [] |- _ => rewrite E
           | E : _ = _ :: _ |- _ => rewrite E
           end;
    try (repeat split; (lia || discriminate));
    (split; [intros H'; decompose [and] H'; (lia || congruence) | auto]).
Qed.

End Raising.

(** ** What a failed pipeline leaves *)

Lemma one_file_or_batched p en :
  (p, en) = (Redefined, SalesRep) \/ (p, en) <> (Redefined, SalesRep).
Proof. destruct p, en; (left; reflexivity) || (right; discriminate). Qed.

Section Failures.

Variable cfg : Config.
Variable e : Env.

Lemma py_range_head n : 0 < n -> exists rest, py_range n = 0 :: rest.
Proof.
  intros Hn. destruct (py_range_split 0 n ltac:(lia)) as (rest & E).
  exists rest. exact E.
Qed.

Lemma id_range_head start len :
  0 < len -> exists rest, id_range start len = start + 0 :: rest.
Proof.
  intros Hn. destruct (py_range_head len Hn) as (rest & E).
  unfold id_range. rewrite E. simpl. eauto.
Qed.


Lemma row_ok_requirements p en i r :
  produces e (row_of p en cfg i) r -> row_requirements en cfg.
Proof.
  intros (c & c' & E). pose proof (row_outcome cfg e p en i c) as H.
  rewrite E in H. exact H.
Qed.


End Failures.



(** X11. A configuration that does not give what the records of an entity
    type need stops the pipeline of that type at its first record: with at
    least one record to make, a positive batch size and a directory that
    can be created, the pipeline raises [IndexError] (or, for the
    transactions, [ValueError]) having created its directory and written no
    file. *)
Theorem unsynthesizable_stops_before_writing cfg e p en s :
  ~ row_requirements en cfg ->
  0 < count en cfg ->
  (p, en) = (Redefined, SalesRep) \/ 0 < batch_size en cfg ->
  uncreatable e (output_dir en) = false ->
  exists x s',
    pipeline p en cfg e s = (Raise x, s')
    /\ (x = IndexError \/ (x = ValueError /\ en = Transaction))
    /\ dirs s' = add_dir (output_dir en) (dirs s)
    /\ files s' = files s.
Proof.
  intros Hreq HN HB Hu.
  assert (Hrow : forall i c, exists x c',
             row_of p en cfg i e c = (Raise x, c')
             /\ (x = IndexError \/ (x = ValueError /\ en = Transaction))).
  { intros i c. pose proof (row_outcome cfg e p en i c) as H.
    destruct (row_of p en cfg i e c) as [[r|x] c']; [contradiction|].
    exists x, c'. split; [reflexivity | apply H]. }
  assert (Hrows : forall start len st, 0 < len -> exists x c',
             lift (map_m (fun i => row_of p en cfg (start + i)) (py_range len)) e st
             = (Raise x, mkState c' (dirs st) (files st) (stdout st) (stderr st))
             /\ (x = IndexError \/ (x = ValueError /\ en = Transaction))).
  { intros start len st Hlen. destruct (py_range_head len Hlen) as (rest & ->).
    destruct (Hrow (start + 0) (cursors st)) as (x & c' & Er & Hx).
    exists x, c'. split; [|exact Hx].
    unfold lift. simpl. rewrite (bind_raise _ _ _ _ _ _ Er). reflexivity. }
  destruct (one_file_or_batched p en) as [Heq|Hne].
  - injection Heq as -> ->.
    unfold pipeline, Legacy.generate_sales_reps, bind at 1, makedirs.
    simpl in Hu. rewrite Hu.
    destruct (Hrows 0 (NUM_SALES_REPS cfg)
                (mkState (cursors s) (add_dir "generated-data/sales-reps" (dirs s))
                         (files s) (stdout s) (stderr s)) HN)
      as (x & c' & Er & Hx).
    exists x, (mkState c' (add_dir "generated-data/sales-reps" (dirs s))
                       (files s) (stdout s) (stderr s)).
    split; [|auto]. apply bind_raise. exact Er.
  - destruct HB as [HB|HB]; [contradiction|].
    rewrite pipeline_batched by exact Hne.
    pose proof (num_batches_ceil (count en cfg) (batch_size en cfg) HB) as Hc.
    destruct (py_range_head (num_batches (count en cfg) (batch_size en cfg))
                ltac:(nia)) as (rest & Ek).
    destruct (Hrows (0 * batch_size en cfg)
                (Z.min (batch_size en cfg) (count en cfg - 0 * batch_size en cfg))
                (mkState (cursors s) (add_dir (output_dir en) (dirs s))
                         (files s) (stdout s) (stderr s)) ltac:(lia))
      as (x & c' & Er & Hx).
    exists x, (mkState c' (add_dir (output_dir en) (dirs s))
                       (files s) (stdout s) (stderr s)).
    split; [|auto]. apply bind_raise.
    unfold batched, bind at 1, makedirs. rewrite Hu.
    unfold bind at 1, floordiv.
    destruct (Z.eqb_spec (batch_size en cfg) 0) as [|_]; [lia|].
    unfold ret at 1.
    change ((count en cfg + batch_size en cfg - 1) / batch_size en cfg)
      with (num_batches (count en cfg) (batch_size en cfg)).
    rewrite Ek. simpl for_fold. apply bind_raise. apply bind_raise. exact Er.
Qed.

Lemma unsynthesizable_stops_before_writing_witness :
  exists x s',
    pipeline First Customer
             (mkConfig 5 3 2 4 738521 739251 2 2 3 "parquet" "snappy"
                       [] ["USA"] ["Electronics"] ["Bronze"])
             sample_env fresh = (Raise x, s')
    /\ (x = IndexError \/ (x = ValueError /\ Customer = Transaction))
    /\ dirs s' = add_dir (output_dir Customer) (dirs fresh)
    /\ files s' = files fresh.
Proof.
  apply (unsynthesizable_stops_before_writing
           (mkConfig 5 3 2 4 738521 739251 2 2 3 "parquet" "snappy"
                     [] ["USA"] ["Electronics"] ["Bronze"])
           sample_env First Customer fresh).
  - intros (_ & H & _). exact (H eq_refl).
  - reflexivity.
  - right. reflexivity.
  - reflexivity.
Defined.

(** ** Pipelines that return *)

Section Returns.

Variable cfg : Config.
Variable e : Env.

Lemma row_made p en i c :
  row_requirements en cfg -> exists r c', row_of p en cfg i e c = (Ok r, c').
Proof.
  intros Hreq. pose proof (row_outcome cfg e p en i c) as H.
  destruct (row_of p en cfg i e c) as [[r|x] c'].
  - eauto.
  - destruct H as [H _]. contradiction.
Qed.

(** A position in a batch is one of the pipeline's. *)
Lemma batch_has_positions p en k i :
  0 <= k ->
  In i (py_range (Z.min (batch_size en cfg) (count en cfg - k * batch_size en cfg))) ->
  positions p en cfg <> [].
Proof.
  intros Hk Hi. apply in_py_range in Hi.
  assert (HB : 0 < batch_size en cfg) by lia.
  assert (HN : 0 < count en cfg) by nia.
  rewrite (positions_all p en cfg HB).
  destruct (id_range_head 0 (count en cfg) HN) as (rest & ->). discriminate.
Qed.

Lemma batched_returns dir name width N B row s :
  uncreatable e dir = false -> B <> 0 ->
  (forall k, 0 <= k < num_batches N B ->
     unwritable e (batch_filename dir name width k (extension cfg)) = false) ->
  (forall k i c, 0 <= k < num_batches N B ->
     In i (py_range (Z.min B (N - k * B))) ->
     exists r c', row (k * B + i) e c = (Ok r, c')) ->
  exists names s', batched cfg dir name width N B row e s = (Ok names, s').
Proof.
  intros Hu HB Hw Hrow. unfold batched, bind at 1, makedirs. rewrite Hu.
  unfold bind at 1, floordiv. destruct (Z.eqb_spec B 0) as [|_]; [contradiction|].
  unfold ret at 1. change ((N + B - 1) / B) with (num_batches N B).
  apply for_fold_total. intros k acc st Hk. apply in_py_range in Hk.
  destruct (map_m_total (fun i => row (k * B + i)) e
              (py_range (Z.min B (N - k * B)))
              (fun x c Hx => Hrow k x c Hk Hx) (cursors st)) as (rows & c' & E).
  cbv beta zeta. unfold lift, save_batch, write_table, ret, bind.
  rewrite E. cbv beta iota zeta. rewrite (Hw k Hk). eauto.
Qed.

Lemma batched_returned dir name width N B row s names s' :
  batched cfg dir name width N B row e s = (Ok names, s') ->
  forall k, 0 <= k < num_batches N B ->
  unwritable e (batch_filename dir name width k (extension cfg)) = false.
Proof.
  unfold batched. intros E.
  apply bind_ok_inv in E. destruct E as ([] & s1 & _ & E).
  apply bind_ok_inv in E. destruct E as (nb & s2 & Ed & E).
  unfold floordiv in Ed. destruct (Z.eqb_spec B 0) as [|HB]; [discriminate|].
  apply ret_ok_inv in Ed. destruct Ed as [-> ->].
  change ((N + B - 1) / B) with (num_batches N B) in E.
  pose (P := fun (done : list Z) (acc : list string) (st : State) =>
               Forall (fun k => unwritable e (batch_filename dir name width k
                                                             (extension cfg)) = false)
                      done).
  assert (HP : P ([] ++ py_range (num_batches N B)) names s').
  { eapply (for_fold_inv P); [| |exact E].
    - intros done k acc st acc' st' Hdone Ek. cbv beta zeta in Ek.
      apply bind_ok_inv in Ek. destruct Ek as (rows & st1 & _ & Ek).
      apply bind_ok_inv in Ek. destruct Ek as (fn & st2 & Ek & _).
      unfold save_batch in Ek.
      apply bind_ok_inv in Ek. destruct Ek as ([] & st3 & Ek & _).
      unfold write_table in Ek.
      destruct (unwritable e (batch_filename dir name width k (extension cfg))) eqn:Hw;
        [discriminate|].
      unfold P. apply Forall_app. split; [exact Hdone|]. constructor; [exact Hw|].
      constructor.
    - constructor. }
  intros k Hk. unfold P in HP. cbn [app] in HP. rewrite Forall_forall in HP.
  apply HP, in_py_range, Hk.
Qed.

Lemma pipeline_returned p en s s' :
  pipeline p en cfg e s = (Ok tt, s') -> can_complete p en cfg e.
Proof.
  intros E. unfold can_complete.
  assert (Hreq : positions p en cfg <> [] -> row_requirements en cfg).
  { destruct (pipeline_ok cfg e p en s s' E) as (new & _ & _ & HF).
    intros Hne. destruct HF as [|i r is0 rs Hr _]; [contradiction|].
    exact (row_ok_requirements cfg e p en i r Hr). }
  destruct (one_file_or_batched p en) as [Heq|Hne].
  - injection Heq as -> ->.
    unfold pipeline, Legacy.generate_sales_reps in E.
    apply bind_ok_inv in E. destruct E as ([] & s1 & Em & E).
    apply bind_ok_inv in E. destruct E as (rows & s2 & _ & Ew).
    unfold makedirs in Em.
    destruct (uncreatable e "generated-data/sales-reps") eqn:Hu; [discriminate|].
    unfold write_table in Ew.
    destruct (unwritable e ("generated-data/sales-reps" ++ "/sales_reps."
                            ++ extension cfg)) eqn:Hw; [discriminate|].
    split; [exact Hu|]. split; [intros H; now destruct H|].
    split; [|exact Hreq].
    intros f [<-|[]]. exact Hw.
  - rewrite pipeline_batched in E by exact Hne.
    apply bind_ok_inv in E. destruct E as (names & s1 & E & _).
    pose proof (batched_returned _ _ _ _ _ _ _ _ _ E) as Hw.
    apply batched_ok in E. destruct E as (HB & Hu & _).
    split; [exact Hu|]. split; [intros _; exact HB|]. split; [|exact Hreq].
    intros f Hf.
    assert (Hn : file_names p en cfg
                 = map (fun k => batch_filename (output_dir en) (stem en)
                                                (index_width p) k (extension cfg))
                       (py_range (num_batches (count en cfg) (batch_size en cfg)))).
    { destruct p, en; try reflexivity. now destruct Hne. }
    rewrite Hn in Hf. apply in_map_iff in Hf. destruct Hf as (k & <- & Hk).
    apply Hw, in_py_range, Hk.
Qed.

Lemma pipeline_returns p en s :
  can_complete p en cfg e -> exists s', pipeline p en cfg e s = (Ok tt, s').
Proof.
  intros (Hu & HB & Hw & Hreq).
  destruct (one_file_or_batched p en) as [Heq|Hne].
  - injection Heq as -> ->.
    assert (Hw' : unwritable e ("generated-data/sales-reps" ++ "/sales_reps."
                                ++ extension cfg) = false)
      by exact (Hw _ (or_introl eq_refl)).
    destruct (map_m_total (Legacy.sales_rep_row cfg) e (py_range (NUM_SALES_REPS cfg)))
      with (s := cursors s) as (rows & c' & E).
    { intros i c Hi. apply (row_made Redefined SalesRep). apply Hreq.
      apply in_py_range in Hi. unfold positions.
      destruct (id_range_head 0 (NUM_SALES_REPS cfg) ltac:(lia)) as (rest & ->).
      discriminate. }
    unfold pipeline, Legacy.generate_sales_reps. cbv zeta.
    unfold makedirs, lift, write_table, bind. simpl in Hu. rewrite Hu.
    cbn [cursors]. rewrite E. cbv beta iota. rewrite Hw'. eauto.
  - rewrite pipeline_batched by exact Hne.
    assert (Hn : file_names p en cfg
                 = map (fun k => batch_filename (output_dir en) (stem en)
                                                (index_width p) k (extension cfg))
                       (py_range (num_batches (count en cfg) (batch_size en cfg)))).
    { destruct p, en; try reflexivity. now destruct Hne. }
    destruct (batched_returns (output_dir en) (stem en) (index_width p) (count en cfg)
                (batch_size en cfg) (row_of p en cfg) s Hu (HB Hne))
      as (names & s' & E).
    + intros k Hk. apply Hw. rewrite Hn.
      apply (in_map (fun k => batch_filename (output_dir en) (stem en)
                                             (index_width p) k (extension cfg))).
      apply in_py_range, Hk.
    + intros k i c Hk Hi. apply row_made, Hreq.
      exact (batch_has_positions p en k i (proj1 Hk) Hi).
    + exists s'. rewrite (bind_run _ _ _ _ _ _ E). reflexivity.
Qed.

(** Whatever its outcome, a pipeline leaves the error stream alone, creates
    at most its directory and adds the first of its files, in order. *)
Lemma pipeline_leaves p en s r s' :
  pipeline p en cfg e s = (r, s') ->
  stderr s' = stderr s
  /\ (dirs s' = dirs s \/ dirs s' = add_dir (output_dir en) (dirs s))
  /\ exists new rest,
       files s' = rev new ++ files s
       /\ file_names p en cfg = map fst new ++ rest.
Proof.
  destruct r as [[]|x]; intros E.
  { destruct (pipeline_ok cfg e p en s s' E) as (new & (Hd & Hf & _ & He) & Hn & _).
    split; [exact He|]. split; [right; exact Hd|].
    exists new, []. rewrite List.app_nil_r. auto. }
  destruct (one_file_or_batched p en) as [Heq|Hne].
  - injection Heq as -> ->.
    unfold pipeline, Legacy.generate_sales_reps in E.
    apply bind_raise_inv in E. destruct E as [E|([] & s1 & Em & E)].
    { unfold makedirs in E.
      destruct (uncreatable e "generated-data/sales-reps"); [|discriminate].
      injection E as <- <-. split; [reflexivity|]. split; [left; reflexivity|].
      exists [], (file_names Redefined SalesRep cfg). auto. }
    unfold makedirs in Em.
    destruct (uncreatable e "generated-data/sales-reps"); [discriminate|].
    apply ok_eq_inv in Em. destruct Em as [_ <-].
    apply bind_raise_inv in E. destruct E as [E|(rows & s2 & El & Ew)].
    + apply lift_inv in E. destruct E as (c' & _ & ->).
      split; [reflexivity|]. split; [right; reflexivity|].
      exists [], (file_names Redefined SalesRep cfg). auto.
    + apply lift_inv in El. destruct El as (c' & _ & ->).
      unfold write_table in Ew. destruct (unwritable e _); [|discriminate].
      injection Ew as <- <-.
      split; [reflexivity|]. split; [right; reflexivity|].
      exists [], (file_names Redefined SalesRep cfg). auto.
  - assert (Hn : file_names p en cfg
                 = map (fun k => batch_filename (output_dir en) (stem en)
                                                (index_width p) k (extension cfg))
                       (py_range (num_batches (count en cfg) (batch_size en cfg)))).
    { destruct p, en; try reflexivity. now destruct Hne. }
    rewrite pipeline_batched in E by exact Hne.
    apply bind_raise_inv in E. destruct E as [E|(l & s1 & _ & E)]; [|discriminate].
    apply batched_raise in E.
    destruct E as (_ & He & k & new & Hk0 & Hf & Hb & H).
    split; [exact He|].
    assert (Hd : dirs s' = dirs s \/ dirs s' = add_dir (output_dir en) (dirs s)).
    { destruct H as [(_ & _ & _ & Hd)|(_ & Hd & _)]; auto. }
    split; [exact Hd|].
    assert (Hk : k = 0 \/ 0 <= k < num_batches (count en cfg) (batch_size en cfg)).
    { destruct H as [(_ & _ & -> & _)|(_ & _ & [(_ & _ & ->)|(_ & Hk & _)])];
        auto; right; lia. }
    destruct Hk as [->|Hk].
    + inversion Hb; subst. exists [], (file_names p en cfg). auto.
    + destruct (py_range_split k _ Hk) as (rest & Er).
      apply batches_concat in Hb. destruct Hb as [Hnew _].
      exists new. eexists. split; [exact Hf|].
      rewrite Hn, Er, map_app, Hnew. reflexivity.
Qed.

End Returns.

(** X12. When a pipeline returns. A pipeline runs to its end exactly when
    its directory can be created, its batch size is not zero (the redefined
    sales representatives have none), each of its files can be written and,
    if it has a record to make at all, the configuration gives what the
    records of its entity type need. The state it starts from plays no part.
    (Printing, the memory report and the garbage collection are taken not to
    fail.) *)
Theorem pipeline_returns_iff cfg e p en s :
  (exists s', pipeline p en cfg e s = (Ok tt, s')) <-> can_complete p en cfg e.
Proof.
  split.
  - intros (s' & E). exact (pipeline_returned cfg e p en s s' E).
  - apply pipeline_returns.
Qed.

Lemma pipeline_returns_iff_witness :
  exists s', pipeline Redefined SalesRep small_config sample_env fresh = (Ok tt, s').
Proof.
  apply (proj2 (pipeline_returns_iff small_config sample_env Redefined SalesRep fresh)).
  split; [reflexivity|]. split; [discriminate|]. split; [reflexivity|].
  intros _. simpl. discriminate.
Defined.

Lemma prefix_append (s t : string) : String.prefix s (s ++ t) = true.
Proof.
  induction s as [|a s IH]; simpl; [destruct t; reflexivity|].
  destruct (ascii_dec a a) as [_|H]; [exact IH | now destruct H].
Qed.



(** X14. quick_gen.py ends in one of two ways. It runs to its last line
    exactly when the customers pipeline can run to its end: then the
    customers directory exists, the files added are the batches
    [customers_batch_000], [customers_batch_001], ... in order, and nothing
    is on the error stream. Otherwise it exits with status 1, the stack trace
    of the exception on the error stream, and what is on disk is some first
    batches of the customers. *)
Theorem quick_gen_ends cfg e s :
  match quick_gen cfg e s with
  | (Completed, s') =>
      can_complete Redefined Customer cfg e
      /\ dirs s' = add_dir "generated-data/customers" (dirs s)
      /\ map fst (files s')
         = rev (file_names Redefined Customer cfg) ++ map fst (files s)
      /\ stderr s' = stderr s
  | (SysExit code, s') =>
      code = 1
      /\ ~ can_complete Redefined Customer cfg e
      /\ exists x new rest,
           stderr s' = stderr s ++ [traceback x]
           /\ files s' = rev new ++ files s
           /\ file_names Redefined Customer cfg = map fst new ++ rest
  end.
Proof.
  unfold quick_gen, try_or_exit.
  rewrite quick_gen_is_redefined_customers.
  destruct (pipeline Redefined Customer cfg e (seed s)) as [[[]|x] s'] eqn:E.
  - split; [exact (pipeline_returned cfg e _ _ _ _ E)|].
    apply pipeline_ok in E. destruct E as (new & (Hd & Hf & _ & He) & Hn & _).
    split; [exact Hd|]. split; [|exact He].
    rewrite Hf, map_app, map_rev, Hn. reflexivity.
  - split; [reflexivity|]. split.
    + intros Hc. destruct (pipeline_returns cfg e _ _ (seed s) Hc) as (s1 & E1).
      rewrite E1 in E. discriminate E.
    + apply pipeline_leaves in E. destruct E as (He & _ & new & rest & Hf & Hn).
      exists x, new, rest. unfold report, traceback. cbn [stderr files].
      rewrite He. auto.
Qed.


(** ** Batch sizes below zero *)

(** X16. A negative batch size is not an error, and no record is made with
    it: every batch the loop goes through is empty. Whatever the lists of the
    configuration, a batched pipeline whose directory and files are not
    refused returns, having written its files without a record in any of
    them and read nothing from the streams. *)
Theorem negative_batch_size_makes_no_record cfg e p en s :
  batch_size en cfg < 0 ->
  (p, en) <> (Redefined, SalesRep) ->
  uncreatable e (output_dir en) = false ->
  (forall f, In f (file_names p en cfg) -> unwritable e f = false) ->
  exists new s',
    pipeline p en cfg e s = (Ok tt, s')
    /\ adds (output_dir en) new s s'
    /\ map fst new = file_names p en cfg
    /\ Forall (fun f => snd f = []) new
    /\ cursors s' = cursors s.
Proof.
  intros HB Hne Hu Hw.
  assert (Hpos : positions p en cfg = []).
  { rewrite positions_range.
    destruct (Z.ltb_spec 0 (batch_size en cfg)) as [?|_]; [lia|].
    destruct p, en; try reflexivity. now destruct Hne. }
  assert (Hcan : can_complete p en cfg e).
  { split; [exact Hu|]. split; [intros _; lia|]. split; [exact Hw|].
    intros H. now destruct H. }
  destruct (pipeline_returns cfg e p en s Hcan) as (s' & E).
  destruct (pipeline_ok cfg e p en s s' E) as (new & Ha & Hn & _).
  destruct (pipeline_threads cfg e p en s s' E) as (new' & Ha' & Hm).
  assert (new' = new) as ->.
  { destruct Ha as (_ & Hf & _), Ha' as (_ & Hf' & _).
    rewrite Hf in Hf'. symmetry. exact (same_new_files _ _ _ Hf'). }
  rewrite Hpos in Hm. cbn [map_m] in Hm. unfold ret in Hm.
  apply ok_eq_inv in Hm. destruct Hm as [Hc Hs]. symmetry in Hc.
  exists new, s'. split; [exact E|]. split; [exact Ha|]. split; [exact Hn|].
  split; [|symmetry; exact Hs].
  apply concat_nil_Forall in Hc. rewrite Forall_map in Hc. exact Hc.
Qed.

Lemma negative_batch_size_makes_no_record_witness :
  exists (new : list (string * list record)) s',
    pipeline First Customer
             (mkConfig 1 3 2 4 738521 739251 (-5) 2 3 "parquet" "snappy"
                       [] [] [] [])
             sample_env fresh = (Ok tt, s')
    /\ map fst new = ["generated-data/customers/customers_batch_00000.parquet"]
    /\ Forall (fun f => snd f = []) new
    /\ cursors s' = cursors fresh.
Proof.
  destruct (negative_batch_size_makes_no_record
              (mkConfig 1 3 2 4 738521 739251 (-5) 2 3 "parquet" "snappy"
                        [] [] [] [])
              sample_env First Customer fresh)
    as (new & s' & E & _ & Hn & Hr & Hc).
  - reflexivity.
  - discriminate.
  - reflexivity.
  - intros f _. reflexivity.
  - exists new, s'. split; [exact E|]. split; [exact Hn|]. split; [exact Hr | exact Hc].
Defined.

(** ** What the scripts print about their files *)

Lemma length_file_names_batched p en cfg :
  (p, en) <> (Redefined, SalesRep) ->
  List.length (file_names p en cfg)
  = Z.to_nat (num_batches (count en cfg) (batch_size en cfg)).
Proof.
  intros Hne.
  assert (Hn : file_names p en cfg
               = map (fun k => batch_filename (output_dir en) (stem en)
                                              (index_width p) k (extension cfg))
                     (py_range (num_batches (count en cfg) (batch_size en cfg)))).
  { destruct p, en; try reflexivity. now destruct Hne. }
  rewrite Hn, length_map. apply length_py_range.
Qed.

Lemma floor_and_ceiling N B :
  0 < B -> N / B + 1 = num_batches N B + (if N mod B =? 0 then 1 else 0).
Proof.
  intros HB. pose proof (num_batches_ceil N B HB) as Hc.
  pose proof (Z.div_mod N B ltac:(lia)) as E.
  pose proof (Z.mod_pos_bound N B HB) as Hm.
  destruct (Z.eqb_spec (N mod B) 0) as [H0|H0]; nia.
Qed.

(** X17. The closing summary of the first main block announces
    [N // B + 1] files for each entity type. The pipeline has written
    [(N + B - 1) // B]: the summary counts one file too many exactly when the
    batch size divides the record count, as it does for the customers, the
    products and the transactions of config.py. *)
Theorem announced_files_one_too_many cfg en :
  0 <= count en cfg -> 0 < batch_size en cfg ->
  announced_files en cfg
  = Z.of_nat (List.length (file_names First en cfg))
    + (if count en cfg mod batch_size en cfg =? 0 then 1 else 0).
Proof.
  intros HN HB. unfold announced_files.
  rewrite length_file_names_batched by (destruct en; discriminate).
  pose proof (num_batches_ceil (count en cfg) (batch_size en cfg) HB) as Hc.
  rewrite Z2Nat.id by nia. exact (floor_and_ceiling _ _ HB).
Qed.

Lemma announced_files_one_too_many_witness :
  announced_files Customer config
  = Z.of_nat (List.length (file_names First Customer config)) + 1.
Proof.
  exact (announced_files_one_too_many config Customer ltac:(discriminate) eq_refl).
Defined.

(** X18. The redefined batched pipelines print, after their loop, a last
    progress line with the range [N - B] to [N - 1]. Its upper end is that of
    the last batch; its lower end is the start of the last batch exactly when
    the batch size divides the record count. *)
Theorem closing_range_is_last_batch N B :
  0 < N -> 0 < B ->
  let last := batch_bounds N B (num_batches N B - 1) in
  snd (closing_range N B) = snd (progress_range (fst last) (snd last))
  /\ (closing_range N B = progress_range (fst last) (snd last) <-> N mod B = 0).
Proof.
  intros HN HB last. pose proof (num_batches_ceil N B HB) as Hc.
  assert (Hl : last = ((num_batches N B - 1) * B, N - (num_batches N B - 1) * B)).
  { unfold last, batch_bounds. f_equal. lia. }
  rewrite Hl. unfold closing_range, progress_range. cbn [fst snd].
  split; [lia|]. split.
  - intros E. injection E as E.
    replace N with (num_batches N B * B) by lia. apply Z.mod_mul. lia.
  - intros Hm. pose proof (Z.div_mod N B ltac:(lia)) as E.
    rewrite Hm in E.
    assert (N / B < num_batches N B + 1) by (apply (Z.mul_lt_mono_pos_r B); lia).
    assert (num_batches N B - 1 < N / B) by (apply (Z.mul_lt_mono_pos_r B); lia).
    assert (Hq : N / B = num_batches N B) by lia.
    rewrite Hq in E. f_equal; lia.
Qed.

Lemma closing_range_is_last_batch_witness :
  closing_range 5 2 = (3, 4) /\ progress_range 4 1 = (4, 4) /\ 5 mod 2 <> 0.
Proof.
  pose proof (closing_range_is_last_batch 5 2 eq_refl eq_refl) as [_ H].
  split; [reflexivity|]. split; [reflexivity|].
  intros E. apply H in E. discriminate E.
Defined.

(** ** Identifiers, read back and measured *)

Section Digits.

Lemma substring_all (t : string) : substring 0 (String.length t) t = t.
Proof. induction t as [|a t IH]; simpl; [reflexivity | now rewrite IH]. Qed.

Lemma substring_append (s t : string) :
  substring (String.length s) (String.length t) (s ++ t) = t.
Proof. induction s as [|a s IH]; simpl; [apply substring_all | exact IH]. Qed.

Lemma length_string_of_uint d :
  String.length (NilEmpty.string_of_uint d) = Decimal.nb_digits d.
Proof. induction d; simpl; congruence. Qed.

(** The digits of a number, counted on its little-endian form. *)
Lemma length_decimal n :
  (0 < n)%N ->
  String.length (decimal n) = Decimal.nb_digits (DecimalPos.Unsigned.to_lu n).
Proof.
  destruct n as [|q]; [lia|]. intros _. unfold decimal. simpl.
  unfold Pos.to_uint. rewrite <- DecimalFacts.nb_digits_rev.
  destruct (Decimal.rev (Pos.to_little_uint q)) eqn:E;
    try (rewrite <- length_string_of_uint; reflexivity).
  destruct (to_uint_nonnil (N.pos q) E).
Qed.

Lemma digits_small r :
  (0 < r < 10)%N -> Decimal.nb_digits (DecimalPos.Unsigned.to_lu r) = 1%nat.
Proof.
  intros Hr.
  assert (H : (r = 1 \/ r = 2 \/ r = 3 \/ r = 4 \/ r = 5 \/ r = 6 \/ r = 7 \/ r = 8
               \/ r = 9)%N) by lia.
  repeat (destruct H as [->|H]; [reflexivity|]). subst r. reflexivity.
Qed.

Lemma digits_step q r :
  (0 < q)%N -> (r < 10)%N ->
  Decimal.nb_digits (DecimalPos.Unsigned.to_lu (10 * q + r))
  = Datatypes.S (Decimal.nb_digits (DecimalPos.Unsigned.to_lu q)).
Proof.
  intros Hq Hr. destruct q as [|q]; [lia|].
  assert (H : (r = 0 \/ r = 1 \/ r = 2 \/ r = 3 \/ r = 4 \/ r = 5 \/ r = 6 \/ r = 7
               \/ r = 8 \/ r = 9)%N) by lia.
  pose proof (DecimalPos.Unsigned.to_ldec_tenfold q) as T.
  assert (S1 : forall n, (n + 1 = N.succ n)%N) by (intros; lia).
  decompose [or] H; subst r.
  - rewrite N.add_0_r, T. reflexivity.
  - rewrite S1, DecimalPos.Unsigned.to_lu_succ, T. reflexivity.
  - replace (10 * N.pos q + 2)%N with (N.succ (N.succ (10 * N.pos q))) by lia.
    rewrite !DecimalPos.Unsigned.to_lu_succ, T. reflexivity.
  - replace (10 * N.pos q + 3)%N
      with (N.succ (N.succ (N.succ (10 * N.pos q)))) by lia.
    rewrite !DecimalPos.Unsigned.to_lu_succ, T. reflexivity.
  - replace (10 * N.pos q + 4)%N
      with (N.succ (N.succ (N.succ (N.succ (10 * N.pos q))))) by lia.
    rewrite !DecimalPos.Unsigned.to_lu_succ, T. reflexivity.
  - replace (10 * N.pos q + 5)%N
      with (N.succ (N.succ (N.succ (N.succ (N.succ (10 * N.pos q)))))) by lia.
    rewrite !DecimalPos.Unsigned.to_lu_succ, T. reflexivity.
  - replace (10 * N.pos q + 6)%N
      with (N.succ (N.succ (N.succ (N.succ (N.succ (N.succ (10 * N.pos q)))))))
      by lia.
    rewrite !DecimalPos.Unsigned.to_lu_succ, T. reflexivity.
  - replace (10 * N.pos q + 7)%N
      with (N.succ (N.succ (N.succ (N.succ (N.succ (N.succ
              (N.succ (10 * N.pos q)))))))) by lia.
    rewrite !DecimalPos.Unsigned.to_lu_succ, T. reflexivity.
  - replace (10 * N.pos q + 8)%N
      with (N.succ (N.succ (N.succ (N.succ (N.succ (N.succ
              (N.succ (N.succ (10 * N.pos q))))))))) by lia.
    rewrite !DecimalPos.Unsigned.to_lu_succ, T. reflexivity.
  - replace (10 * N.pos q + 9)%N
      with (N.succ (N.succ (N.succ (N.succ (N.succ (N.succ
              (N.succ (N.succ (N.succ (10 * N.pos q)))))))))) by lia.
    rewrite !DecimalPos.Unsigned.to_lu_succ, T. reflexivity.
Qed.

(** A positive number has at most [k] digits exactly when it is below
    [10 ^ k]. *)
Lemma digits_bound k :
  forall n, (0 < n)%N ->
  (Decimal.nb_digits (DecimalPos.Unsigned.to_lu n) <= k)%nat
  <-> (n < 10 ^ N.of_nat k)%N.
Proof.
  induction k as [|k IH]; intros n Hn.
  - pose proof (N.div_mod n 10 ltac:(lia)) as E.
    pose proof (N.mod_lt n 10 ltac:(lia)) as Hr.
    change (10 ^ N.of_nat 0)%N with 1%N.
    destruct (N.eq_dec (n / 10) 0) as [Hq|Hq].
    + rewrite digits_small by lia. lia.
    + rewrite E, digits_step by lia. lia.
  - pose proof (N.div_mod n 10 ltac:(lia)) as E.
    pose proof (N.mod_lt n 10 ltac:(lia)) as Hr.
    replace (N.of_nat (Datatypes.S k)) with (N.succ (N.of_nat k)) by lia.
    rewrite N.pow_succ_r'.
    assert (Hp : (0 < 10 ^ N.of_nat k)%N) by (apply N.neq_0_lt_0, N.pow_nonzero; lia).
    destruct (N.eq_dec (n / 10) 0) as [Hq|Hq].
    + rewrite digits_small by lia. split; intros _; lia.
    + rewrite E at 1. rewrite digits_step by lia.
      specialize (IH (n / 10)%N ltac:(lia)).
      set (X := (10 ^ N.of_nat k)%N) in *. set (q := (n / 10)%N) in *.
      set (r := (n mod 10)%N) in *. rewrite <- Nat.succ_le_mono, IH. lia.
Qed.

Lemma length_decimal_bound (k : nat) (n : Z) :
  (1 <= k)%nat -> 0 <= n ->
  (String.length (decimal (Z.abs_N n)) <= k)%nat <-> n < 10 ^ Z.of_nat k.
Proof.
  intros Hk Hn.
  assert (Hp : (10 ^ N.of_nat k)%N = Z.to_N (10 ^ Z.of_nat k)).
  { rewrite Z2N.inj_pow by lia. now rewrite <- nat_N_Z, N2Z.id. }
  assert (Hpos : 0 < 10 ^ Z.of_nat k) by (apply Z.pow_pos_nonneg; lia).
  destruct (Z.eq_dec n 0) as [->|Hn0].
  - change (String.length (decimal (Z.abs_N 0))) with 1%nat. split; intros _; lia.
  - rewrite length_decimal by lia. rewrite digits_bound by lia. rewrite Hp. lia.
Qed.

End Digits.

(** X19. An identifier can be read back: after the prefix of its entity
    type come decimal digits, and they are the number the identifier was
    made from, however many digits that takes. *)
Theorem identifier_read_back p en n :
  0 <= n -> identifier_number en (identifier p en n) = Some (Z.to_N n).
Proof.
  intros Hn. unfold identifier_number, identifier.
  rewrite prefix_append, length_append, Nat.add_comm, Nat.add_sub, substring_append.
  now apply parse_fmt_0d.
Qed.

Lemma identifier_read_back_witness :
  identifier_number SalesRep (identifier Redefined SalesRep 20000) = Some 20000%N.
Proof. exact (identifier_read_back Redefined SalesRep 20000 ltac:(discriminate)). Defined.

(** X20. The width of an identifier is a minimum. The identifier of a
    number is as long as the prefix and the padded width together exactly
    when the number is below [10 ^ width]; from there on it is longer, a
    digit at a time. With the counts of config.py the redefined customers
    (six digits, two million records) pass that point, and so do the
    redefined sales representatives (four digits, twenty thousand
    records). *)
Theorem identifier_length p en n :
  0 <= n ->
  (String.length (identifier p en n)
   = String.length (id_prefix en)
     + Nat.max (id_width p en) (String.length (decimal (Z.abs_N n))))%nat
  /\ (String.length (identifier p en n)
      = (String.length (id_prefix en) + id_width p en)%nat
      <-> n < 10 ^ Z.of_nat (id_width p en)).
Proof.
  intros Hn. unfold identifier.
  rewrite length_append, length_fmt_0d by exact Hn.
  split; [reflexivity|].
  assert (Hw : (1 <= id_width p en)%nat) by (destruct p, en; simpl; lia).
  rewrite <- (length_decimal_bound _ _ Hw Hn). lia.
Qed.

Lemma identifier_length_witness :
  String.length (identifier Redefined Customer (NUM_CUSTOMERS config - 1))
  <> (String.length (id_prefix Customer) + id_width Redefined Customer)%nat.
Proof.
  destruct (identifier_length Redefined Customer (NUM_CUSTOMERS config - 1)
              ltac:(discriminate)) as [_ H].
  intros E. apply H in E. discriminate E.
Defined.

(** ** The streams over a whole run *)

Lemma pipeline_advances cfg e p en s s' :
  pipeline p en cfg e s = (Ok tt, s') -> 0 < batch_size en cfg ->
  cursors s' = advanced en (Z.to_nat (count en cfg)) (cursors s).
Proof.
  intros E HB. apply pipeline_threads in E. destruct E as (new & _ & Hm).
  apply map_m_advances in Hm. now rewrite (length_positions cfg p en HB) in Hm.
Qed.

Lemma four_pipelines_advance cfg e p s s' :
  0 < CUSTOMER_BATCH_SIZE cfg -> 0 < PRODUCT_BATCH_SIZE cfg ->
  0 < TRANSACTION_BATCH_SIZE cfg ->
  run_all (map (fun en => pipeline p en cfg) entities) e s = (Ok tt, s') ->
  cursors s'
  = advanced Transaction (Z.to_nat (NUM_TRANSACTIONS cfg))
      (advanced SalesRep (Z.to_nat (NUM_SALES_REPS cfg))
         (advanced Product (Z.to_nat (NUM_PRODUCTS cfg))
            (advanced Customer (Z.to_nat (NUM_CUSTOMERS cfg)) (cursors s)))).
Proof.
  intros Hc Hp Ht E. cbn [map entities run_all] in E.
  apply bind_ok_inv in E. destruct E as ([] & s1 & E1 & E).
  apply bind_ok_inv in E. destruct E as ([] & s2 & E2 & E).
  apply bind_ok_inv in E. destruct E as ([] & s3 & E3 & E).
  apply bind_ok_inv in E. destruct E as ([] & s4 & E4 & E).
  apply ret_ok_inv in E. destruct E as [_ ->].
  apply pipeline_advances in E1; [|exact Hc].
  apply pipeline_advances in E2; [|exact Hp].
  apply pipeline_advances in E3; [|exact Hp].
  apply pipeline_advances in E4; [|exact Ht].
  rewrite E4, E3, E2, E1. reflexivity.
Qed.

(** X21. complete_generator.py seeds the two generators once, before its
    first definitions run: the redefinitions go on from where the first
    pass left the streams. In a run that completes, the batch sizes positive,
    the first pass has made 4, 6, 2 and 11 draws of [random] and 7, 3, 5 and
    no call of the fake-data generator for each customer, product, sales
    representative and transaction; the second pass starts there and makes as
    many again. (quick_gen.py, which seeds the same way, makes its customers
    from the start of the streams.) *)
Theorem redefinitions_continue_the_streams cfg e s s' :
  0 < CUSTOMER_BATCH_SIZE cfg -> 0 < PRODUCT_BATCH_SIZE cfg ->
  0 < TRANSACTION_BATCH_SIZE cfg ->
  complete_generator cfg e s = (Completed, s') ->
  let n en := Z.to_nat (count en cfg) in
  let draws := (4 * n Customer + 6 * n Product + 2 * n SalesRep + 11 * n Transaction)%nat in
  let calls := (7 * n Customer + 3 * n Product + 5 * n SalesRep)%nat in
  exists s1,
    FirstPass.main cfg e (seed s) = (Ok tt, s1)
    /\ Legacy.main cfg e s1 = (Ok tt, s')
    /\ rand_pos (cursors s1) = draws /\ fake_pos (cursors s1) = calls
    /\ rand_pos (cursors s') = (2 * draws)%nat
    /\ fake_pos (cursors s') = (2 * calls)%nat.
Proof.
  intros Hc Hp Ht E n draws calls.
  unfold complete_generator, try_or_exit in E.
  destruct (FirstPass.main cfg e (seed s)) as [[[]|x] s1] eqn:E1; [|discriminate E].
  destruct (Legacy.main cfg e s1) as [[[]|y] s2] eqn:E2; [|discriminate E].
  injection E as <-.
  exists s1. split; [reflexivity|]. split; [exact E2|].
  rewrite first_main_run_all in E1. rewrite legacy_main_run_all in E2.
  apply four_pipelines_advance in E1; [|assumption..].
  apply four_pipelines_advance in E2; [|assumption..].
  rewrite E2, E1. unfold advanced, seed, draws, calls, n.
  cbn [rand_pos fake_pos ticks cursors random_draws fake_draws count].
  repeat split; lia.
Qed.

Lemma redefinitions_continue_the_streams_witness :
  rand_pos (cursors (snd (complete_generator small_config sample_env fresh)))
  = 172%nat.
Proof.
  destruct (redefinitions_continue_the_streams small_config sample_env fresh
              (snd (complete_generator small_config sample_env fresh))
              eq_refl eq_refl eq_refl)
    as (s1 & _ & _ & _ & _ & H & _).
  - vm_compute. reflexivity.
  - exact H.
Defined.

(** ** A second run with larger batches *)

Section Stale.

Lemma py_range_le a b :
  (Z.to_nat a <= Z.to_nat b)%nat ->
  exists rest, py_range b = py_range a ++ rest
               /\ List.length rest = (Z.to_nat b - Z.to_nat a)%nat.
Proof.
  intros Hab. unfold py_range.
  exists (map Z.of_nat (seq (0 + Z.to_nat a) (Z.to_nat b - Z.to_nat a))). split.
  - rewrite <- map_app, <- seq_app. do 2 f_equal. lia.
  - rewrite length_map, length_seq. reflexivity.
Qed.

(** Larger batches are fewer. *)
Lemma num_batches_antitone N B B' :
  0 < B -> B <= B' ->
  (Z.to_nat (num_batches N B') <= Z.to_nat (num_batches N B))%nat.
Proof.
  intros HB HB'.
  pose proof (num_batches_ceil N B HB) as Hc.
  pose proof (num_batches_ceil N B' ltac:(lia)) as Hc'.
  destruct (Z.le_gt_cases N 0) as [HN|HN].
  - assert (num_batches N B' <= 0) by nia. lia.
  - assert (0 < num_batches N B) by nia.
    destruct (Z.le_gt_cases (num_batches N B') (num_batches N B)) as [H'|H'];
      [lia|exfalso].
    assert (num_batches N B * B <= num_batches N B * B')
      by (apply Z.mul_le_mono_nonneg_l; lia).
    assert (num_batches N B * B' <= (num_batches N B' - 1) * B')
      by (apply Z.mul_le_mono_nonneg_r; lia).
    lia.
Qed.

Lemma NoDup_file_names p en cfg : NoDup (file_names p en cfg).
Proof.
  destruct (one_file_or_batched p en) as [Heq|Hne].
  - injection Heq as -> ->. simpl. repeat constructor. simpl. tauto.
  - assert (Hn : file_names p en cfg
                 = map (fun k => batch_filename (output_dir en) (stem en)
                                                (index_width p) k (extension cfg))
                       (py_range (num_batches (count en cfg) (batch_size en cfg)))).
    { destruct p, en; try reflexivity. now destruct Hne. }
    rewrite Hn. apply Injective_map_NoDup_in; [|apply NoDup_py_range].
    intros k k' Hk Hk' E. apply batch_filename_inj in E.
    apply in_py_range in Hk, Hk'.
    apply (fmt_0d_inj (index_width p) k k'); [lia | lia | exact E].
Qed.

Lemma NoDup_app_apart {A} (l1 l2 : list A) a :
  NoDup (l1 ++ l2) -> In a l1 -> In a l2 -> False.
Proof.
  induction l1 as [|b l1 IH]; simpl; intros Hnd H1 H2; [contradiction|].
  inversion Hnd as [|b' l' Hb Hnd']; subst. destruct H1 as [->|H1].
  - apply Hb, in_app_iff. right. exact H2.
  - exact (IH Hnd' H1 H2).
Qed.

Lemma find_skips {A} (f : A -> bool) l1 l2 :
  (forall a, In a l1 -> f a = false) -> find f (l1 ++ l2) = find f l2.
Proof.
  induction l1 as [|a l1 IH]; simpl; intros H; [reflexivity|].
  rewrite (H a (or_introl eq_refl)). apply IH. auto.
Qed.

Lemma find_finds {A} (f : A -> bool) l a :
  In a l -> f a = true -> find f l <> None.
Proof.
  intros Hin Hf H. exact (eq_true_false_abs _ Hf (find_none f l H a Hin)).
Qed.

Lemma read_file_skips name new s s' :
  files s' = rev new ++ files s -> ~ In name (map fst new) ->
  read_file name s' = read_file name s.
Proof.
  intros Hf Hn. unfold read_file. rewrite Hf, find_skips; [reflexivity|].
  intros a Ha. apply in_rev in Ha. apply String.eqb_neq. intros E.
  apply Hn. rewrite <- E. now apply in_map.
Qed.

Lemma read_file_written name new s s' :
  files s' = rev new ++ files s -> In name (map fst new) ->
  read_file name s' <> None.
Proof.
  intros Hf Hn. unfold read_file. rewrite Hf.
  apply in_map_iff in Hn. destruct Hn as (a & <- & Ha).
  destruct (find (fun f => String.eqb (fst f) (fst a)) (rev new ++ files s)) eqn:E;
    [discriminate|].
  exfalso. revert E. apply (find_finds _ _ a).
  - apply in_app_iff. left. now apply in_rev in Ha.
  - apply String.eqb_refl.
Qed.

End Stale.

(** X22. A run does not clear what an earlier run left. After a batched
    pipeline has run with one batch size and run again, in the same
    directory, with a larger one (the rest of the configuration the same),
    the names of the second run are the first names of the first run: the
    second run overwrites those, and the remaining files of the first run
    are still there with the tables the first run wrote, although their
    records are now in the files of the second run as well. *)
Theorem larger_batches_leave_stale_files p en cfg b1 b2 b3 e1 e2 s0 s1 s2 :
  let cfg' := with_batch_sizes b1 b2 b3 cfg in
  (p, en) <> (Redefined, SalesRep) ->
  0 < batch_size en cfg -> batch_size en cfg <= batch_size en cfg' ->
  pipeline p en cfg e1 s0 = (Ok tt, s1) ->
  pipeline p en cfg' e2 s1 = (Ok tt, s2) ->
  exists stale,
    file_names p en cfg = file_names p en cfg' ++ stale
    /\ List.length stale
       = (Z.to_nat (num_batches (count en cfg) (batch_size en cfg))
          - Z.to_nat (num_batches (count en cfg) (batch_size en cfg')))%nat
    /\ forall f, In f stale ->
         read_file f s2 = read_file f s1 /\ read_file f s1 <> None.
Proof.
  intros cfg' Hne HB HB' E1 E2.
  assert (Hcount : count en cfg' = count en cfg) by (destruct en; reflexivity).
  assert (Hext : extension cfg' = extension cfg) by reflexivity.
  assert (Hn : forall c, file_names p en c
                 = map (fun k => batch_filename (output_dir en) (stem en)
                                                (index_width p) k (extension c))
                       (py_range (num_batches (count en c) (batch_size en c)))).
  { intros c. destruct p, en; try reflexivity. now destruct Hne. }
  destruct (py_range_le _ _ (num_batches_antitone (count en cfg) _ _ HB HB'))
    as (rest & Er & Hl).
  exists (map (fun k => batch_filename (output_dir en) (stem en) (index_width p) k
                                       (extension cfg)) rest).
  assert (Hnames : file_names p en cfg
                   = file_names p en cfg'
                     ++ map (fun k => batch_filename (output_dir en) (stem en)
                                        (index_width p) k (extension cfg)) rest).
  { rewrite (Hn cfg), (Hn cfg'), Hcount, Hext, Er, map_app. reflexivity. }
  split; [exact Hnames|]. split; [rewrite length_map; exact Hl|].
  intros f Hf.
  destruct (pipeline_ok cfg e1 p en s0 s1 E1) as (new1 & (_ & Hf1 & _) & Hn1 & _).
  destruct (pipeline_ok cfg' e2 p en s1 s2 E2) as (new2 & (_ & Hf2 & _) & Hn2 & _).
  split.
  - apply (read_file_skips f new2 s1 s2 Hf2). rewrite Hn2. intros Hin.
    pose proof (NoDup_file_names p en cfg) as Hnd. rewrite Hnames in Hnd.
    exact (NoDup_app_apart _ _ f Hnd Hin Hf).
  - apply (read_file_written f new1 s0 s1 Hf1). rewrite Hn1, Hnames.
    apply in_app_iff. right. exact Hf.
Qed.

Lemma larger_batches_leave_stale_files_witness :
  exists stale,
    file_names First Customer small_config
    = file_names First Customer (with_batch_sizes 4 2 3 small_config) ++ stale
    /\ List.length stale = 1%nat.
Proof.
  destruct (larger_batches_leave_stale_files First Customer small_config 4 2 3
              sample_env sample_env fresh
              (snd (pipeline First Customer small_config sample_env fresh))
              (snd (pipeline First Customer (with_batch_sizes 4 2 3 small_config)
                             sample_env
                             (snd (pipeline First Customer small_config sample_env
                                            fresh)))))
    as (stale & H1 & H2 & _).
  - discriminate.
  - reflexivity.
  - discriminate.
  - vm_compute. reflexivity.
  - vm_compute. reflexivity.
  - exists stale. split; [exact H1 | exact H2].
Defined.
